(** * Orchestration layer of the multi-agent assistant: model and properties

    The development follows the Python sources file by file:
    - [PyStr]: the [str] operations the orchestration code relies on;
    - [PyFloat]: the arithmetic of confidence scores;
    - the data classes of [agents/base.py], [memory/context.py],
      [memory/storage.py], [orchestration/router.py] and
      [orchestration/coordinator.py], one module per class;
    - [MemoryContext], [MemoryStorage], [Router], [Coordinator]: the
      methods, written in a state-and-exception monad over a [World]
      holding the Python objects shared by reference, the durable store,
      the wall clock and the trace of agent invocations.

    A message is a sequence of characters with code points 0..255. *)

From Stdlib Require Import ZArith String Ascii List Lia Bool QArith Qround.
From stdpp Require Import base option list gmap strings pretty sorting.
Import ListNotations.
Local Open Scope string_scope.
Local Open Scope list_scope.
Local Open Scope nat_scope.

(** ** Python [str] operations *)

Module PyStr.

(** [c.lower()] on one character: A-Z, and the Latin-1 capitals
    U+00C0..U+00DE except the multiplication sign U+00D7. *)
Definition lower_char (c : ascii) : ascii :=
  let n := nat_of_ascii c in
  if ((65 <=? n) && (n <=? 90)) || ((192 <=? n) && (n <=? 222) && negb (n =? 215))
  then ascii_of_nat (n + 32) else c.

(** [s.lower()] *)
Fixpoint lower (s : string) : string :=
  match s with
  | EmptyString => EmptyString
  | String c s' => String (lower_char c) (lower s')
  end.

(** [s.startswith(p)] *)
Fixpoint startswith (p s : string) : bool :=
  match p, s with
  | EmptyString, _ => true
  | String _ _, EmptyString => false
  | String a p', String b s' => if Ascii.eqb a b then startswith p' s' else false
  end.

(** [sub in s]: [sub] occurs in [s] as a contiguous substring. *)
Fixpoint contains (sub s : string) : bool :=
  match s with
  | EmptyString => startswith sub EmptyString
  | String _ s' => startswith sub s || contains sub s'
  end.

(** [any(k in s for k in ks)] *)
Definition any_in (ks : list string) (s : string) : bool :=
  existsb (fun k => contains k s) ks.

(** [c.isspace()] for code points below 256. *)
Definition isspace (c : ascii) : bool :=
  let n := nat_of_ascii c in
  ((9 <=? n) && (n <=? 13)) || ((28 <=? n) && (n <=? 32)) || (n =? 133) || (n =? 160).

(** [s.split()]: the maximal runs of non-whitespace characters.
    [cur] is the word being read, most recent character first. *)
Fixpoint split_aux (cur : list ascii) (s : string) : list string :=
  let flush := match cur with
               | [] => []
               | _ => [string_of_list_ascii (rev cur)]
               end in
  match s with
  | EmptyString => flush
  | String c s' =>
      if isspace c then flush ++ split_aux [] s'
      else split_aux (c :: cur) s'
  end.

Definition split (s : string) : list string := split_aux [] s.

(** [s[:n]] for [n >= 0] *)
Fixpoint take (n : nat) (s : string) : string :=
  match n, s with
  | S n', String c s' => String c (take n' s')
  | _, _ => EmptyString
  end.

Definition is_upper (c : ascii) : bool :=
  let n := nat_of_ascii c in (65 <=? n) && (n <=? 90).
Definition is_lower (c : ascii) : bool :=
  let n := nat_of_ascii c in (97 <=? n) && (n <=? 122).
Definition upper_char (c : ascii) : ascii :=
  if is_lower c then ascii_of_nat (nat_of_ascii c - 32) else c.

(** [s.title()] on ASCII text: a letter that follows a letter is
    lowered, any other letter is capitalised.  [prev] tells whether the
    previous character was a letter. *)
Fixpoint title_aux (prev : bool) (s : string) : string :=
  match s with
  | EmptyString => EmptyString
  | String c s' =>
      let cased := is_upper c || is_lower c in
      String (if cased then (if prev then lower_char c else upper_char c) else c)
             (title_aux cased s')
  end.

Definition title (s : string) : string := title_aux false s.

(** Truthiness of a [str]: the empty string is falsy. *)
Definition truthy (s : string) : bool :=
  match s with EmptyString => false | _ => true end.

End PyStr.

(** ** Confidence scores

    The sources compute with Python floats.  The model leaves the number
    type abstract and asks only for order and monotonicity laws: they
    hold of IEEE doubles with their rounded operations as long as no NaN
    and no infinity arises, which is the case of the bounded scores here,
    and they hold of the rationals.  No property below depends on how a
    sum or a product is rounded. *)

Class PyFloat (F : Type) := {
  f0 : F;   (** [0.0] *)
  f01 : F;  (** [0.1] *)
  f03 : F;  (** [0.3] *)
  f05 : F;  (** [0.5] *)
  f07 : F;  (** [0.7] *)
  f1 : F;   (** [1.0] *)
  fadd : F -> F -> F;
  fmul : F -> F -> F;
  fltb : F -> F -> bool;     (** [x < y] *)
  fmt2 : F -> string;        (** [f"{x:.2f}"] *)
  fle (x y : F) : Prop := fltb y x = false;
  flt_irrefl : forall x, fle x x;
  flt_asym : forall x y, fltb x y = true -> fle x y;
  fle_trans : forall x y z, fle x y -> fle y z -> fle x z;
  f0_le_f01 : fle f0 f01;
  f0_le_f03 : fle f0 f03;
  f0_le_f05 : fle f0 f05;
  f0_le_f07 : fle f0 f07;
  f05_le_f1 : fle f05 f1;
  f07_f03_le_f1 : fle (fadd f07 f03) f1;
  fadd_nonneg : forall x y, fle f0 x -> fle f0 y -> fle f0 (fadd x y);
  fmul_nonneg : forall x y, fle f0 x -> fle f0 y -> fle f0 (fmul x y);
  fadd_mono : forall x x' y y', fle x x' -> fle y y' -> fle (fadd x y) (fadd x' y');
  fmul_le_r : forall x c, fle f0 x -> fle x f1 -> fle f0 c -> fle (fmul x c) c
}.

(** [min(x, y)]: the first argument unless the second is smaller. *)
Definition fmin {F} `{PyFloat F} (x y : F) : F := if fltb y x then y else x.

(** ** Exceptions, dictionaries and dynamically typed values *)

(** An exception object: its class name and [str(e)].  Every exception of
    the model is an instance of [Exception], which is what the sources'
    [except Exception] clauses catch. *)
Record exn := Exc { exc_class : string; exc_str : string }.

Inductive result (A : Type) : Type :=
| Return (a : A)
| Raise (e : exn).
Arguments Return {A} a.
Arguments Raise {A} e.

(** A [dict] with [str] keys, in insertion order. *)
Definition Dict (V : Type) : Type := list (string * V).

Module PyDict.
Fixpoint get {V} (k : string) (d : Dict V) : option V :=
  match d with
  | [] => None
  | (k', v) :: d' => if String.eqb k k' then Some v else get k d'
  end.

(** [d[k] = v]: an existing key keeps its position. *)
Fixpoint set {V} (k : string) (v : V) (d : Dict V) : Dict V :=
  match d with
  | [] => [(k, v)]
  | (k', v') :: d' => if String.eqb k k' then (k', v) :: d' else (k', v') :: set k v d'
  end.

Definition keys {V} (d : Dict V) : list string := map fst d.
Definition values {V} (d : Dict V) : list V := map snd d.

(** [{**d1, **d2}] *)
Definition merge {V} (d1 d2 : Dict V) : Dict V :=
  fold_left (fun acc kv => set (fst kv) (snd kv) acc) d2 d1.
End PyDict.

(** Values of type [Any] stored in metadata dictionaries. *)
#[warnings="-register-all"]
Inductive PyVal (F : Type) : Type :=
| VNone
| VBool (b : bool)
| VInt (z : Z)
| VFloat (x : F)
| VStr (s : string)
| VList (l : list (PyVal F))
| VDict (d : list (string * PyVal F)).
Arguments VNone {F}.
Arguments VBool {F} b.
Arguments VInt {F} z.
Arguments VFloat {F} x.
Arguments VStr {F} s.
Arguments VList {F} l.
Arguments VDict {F} d.

(** [list(set(l))]: the distinct elements of [l]; Python leaves the order
    unspecified, the model keeps the first occurrences in order. *)
Fixpoint list_set (l : list string) : list string :=
  match l with
  | [] => []
  | x :: l' => x :: filter (fun y => negb (String.eqb x y)) (list_set l')
  end.

(** [l[start:]] for a Python index [start], negative indices counting from
    the end. *)
Definition slice_from {A} (start : Z) (l : list A) : list A :=
  let len := Z.of_nat (length l) in
  let i := if (start <? 0)%Z then Z.max (start + len) 0 else Z.min start len in
  drop (Z.to_nat i) l.

(** A timestamp is the text [datetime.now().isoformat()] returns; texts
    are compared as the store compares them, byte by byte. *)
Definition Timestamp : Type := string.

(** ** Data classes *)

(** [agents/base.py]: [AgentResponse] *)
Module AgentResponse.
Record t (F : Type) := mk {
  content : string;
  agent_name : string;
  tools_used : list string;
  confidence : F;
  reasoning : option string;
  metadata : Dict (PyVal F)
}.
Arguments mk {F}.
Arguments content {F}.
Arguments agent_name {F}.
Arguments tools_used {F}.
Arguments confidence {F}.
Arguments reasoning {F}.
Arguments metadata {F}.
End AgentResponse.

(** [memory/context.py]: [ContextEntry] *)
Module ContextEntry.
Record t (F : Type) := mk {
  timestamp : Timestamp;
  user_message : string;
  assistant_response : string;
  agent_name : string;
  context_type : string;
  metadata : Dict (PyVal F)
}.
Arguments mk {F}.
Arguments timestamp {F}.
Arguments user_message {F}.
Arguments assistant_response {F}.
Arguments agent_name {F}.
Arguments context_type {F}.
Arguments metadata {F}.

(** [dataclasses.asdict(entry)] *)
Definition asdict {F} (e : t F) : Dict (PyVal F) :=
  [ ("timestamp", VStr (timestamp e));
    ("user_message", VStr (user_message e));
    ("assistant_response", VStr (assistant_response e));
    ("agent_name", VStr (agent_name e));
    ("context_type", VStr (context_type e));
    ("metadata", VDict (metadata e)) ].

Definition field_names : list string :=
  ["timestamp"; "user_message"; "assistant_response"; "agent_name";
   "context_type"; "metadata"].

Definition get_str {F} (k : string) (d : Dict (PyVal F)) : option string :=
  match PyDict.get k d with Some (VStr s) => Some s | _ => None end.

(** [ContextEntry] called with the items of [d] as keywords: a [TypeError] for an unexpected keyword or a
    missing required one; [context_type] defaults to ["conversation"],
    and [__post_init__] turns a [None] metadata into an empty dict.
    The fields are typed in the model: a value of another Python type
    is rejected here as well. *)
Definition from_kwargs {F} (d : Dict (PyVal F)) : result (t F) :=
  let type_error := Raise (Exc "TypeError" "ContextEntry.__init__() got bad arguments") in
  if negb (forallb (fun k => existsb (String.eqb k) field_names) (PyDict.keys d))
  then type_error
  else
    match get_str "timestamp" d, get_str "user_message" d,
          get_str "assistant_response" d, get_str "agent_name" d with
    | Some ts, Some um, Some ar, Some an =>
        let ct := match PyDict.get "context_type" d with
                  | None => Some "conversation"
                  | Some (VStr s) => Some s
                  | Some _ => None
                  end in
        let md := match PyDict.get "metadata" d with
                  | None | Some VNone => Some []
                  | Some (VDict m) => Some m
                  | Some _ => None
                  end in
        match ct, md with
        | Some ct, Some md => Return (mk ts um ar an ct md)
        | _, _ => type_error
        end
    | _, _, _, _ => type_error
    end.
End ContextEntry.

(** [collections.deque] with a [maxlen] *)
Module Deque.
Record t (A : Type) := mk { maxlen : nat; items : list A }.
Arguments mk {A}.
Arguments maxlen {A}.
Arguments items {A}.

(** [deque(maxlen=n)] *)
Definition empty {A} (n : nat) : t A := mk n [].

(** [d.append(x)]: the item is added on the right, and the leftmost
    item is dropped when the length then exceeds [maxlen]. *)
Definition append {A} (d : t A) (x : A) : t A :=
  let l := items d ++ [x] in
  mk (maxlen d) (if maxlen d <? length l then tail l else l).

(** [d.clear()] *)
Definition clear {A} (d : t A) : t A := mk (maxlen d) [].
End Deque.

(** A reference to a Python object in the [World]'s heap. *)
Definition loc : Type := nat.

(** [memory/context.py]: the [context_metadata] dict *)
Module ContextMetadata.
Record t := mk {
  created_at : Timestamp;
  agent_name : string;
  total_interactions : Z;
  last_activity : option Timestamp
}.
Definition set_total_interactions (v : Z) (m : t) : t :=
  mk (created_at m) (agent_name m) v (last_activity m).
Definition set_last_activity (v : option Timestamp) (m : t) : t :=
  mk (created_at m) (agent_name m) (total_interactions m) v.
End ContextMetadata.

(** [memory/context.py]: one item of [topic_history] *)
Module TopicRecord.
Record t := mk {
  timestamp : Timestamp;
  topics : list string;
  message_snippet : string
}.
End TopicRecord.

(** [memory/context.py]: one value of [user_preferences] *)
Module Preference.
Record t := mk { statement : string; timestamp : Timestamp }.
End Preference.

(** [memory/context.py]: the [conversation_state] dict *)
Module ConversationState.
Record t (F : Type) := mk {
  current_task : option string;
  user_preferences : Dict Preference.t;
  active_context : Dict (PyVal F);
  conversation_mode : string
}.
Arguments mk {F}.
Arguments current_task {F}.
Arguments user_preferences {F}.
Arguments active_context {F}.
Arguments conversation_mode {F}.

Definition initial {F} : t F := mk None [] [] "general".

Definition set_current_task {F} (v : option string) (s : t F) : t F :=
  mk v (user_preferences s) (active_context s) (conversation_mode s).
Definition set_user_preferences {F} (v : Dict Preference.t) (s : t F) : t F :=
  mk (current_task s) v (active_context s) (conversation_mode s).
Definition set_conversation_mode {F} (v : string) (s : t F) : t F :=
  mk (current_task s) (user_preferences s) (active_context s) v.
End ConversationState.

(** [memory/context.py]: the attributes of a [ConversationContext].  The
    three attributes that [export_context] hands out by reference are
    references into the heap. *)
Module ConversationContext.
Record t (F : Type) := mk {
  agent_name : string;
  max_memory_size : Z;
  recent_memory : Deque.t (ContextEntry.t F);
  current_topics : gset string;
  topic_history : loc;
  context_metadata : loc;
  conversation_state : loc
}.
Arguments mk {F}.
Arguments agent_name {F}.
Arguments max_memory_size {F}.
Arguments recent_memory {F}.
Arguments current_topics {F}.
Arguments topic_history {F}.
Arguments context_metadata {F}.
Arguments conversation_state {F}.

(** Attribute assignments [self.x = v]. *)
Definition set_recent_memory {F} (v : Deque.t (ContextEntry.t F)) (c : t F) : t F :=
  mk (agent_name c) (max_memory_size c) v (current_topics c)
     (topic_history c) (context_metadata c) (conversation_state c).
Definition set_current_topics {F} (v : gset string) (c : t F) : t F :=
  mk (agent_name c) (max_memory_size c) (recent_memory c) v
     (topic_history c) (context_metadata c) (conversation_state c).
Definition set_topic_history {F} (v : loc) (c : t F) : t F :=
  mk (agent_name c) (max_memory_size c) (recent_memory c) (current_topics c)
     v (context_metadata c) (conversation_state c).
Definition set_context_metadata {F} (v : loc) (c : t F) : t F :=
  mk (agent_name c) (max_memory_size c) (recent_memory c) (current_topics c)
     (topic_history c) v (conversation_state c).
Definition set_conversation_state {F} (v : loc) (c : t F) : t F :=
  mk (agent_name c) (max_memory_size c) (recent_memory c) (current_topics c)
     (topic_history c) (context_metadata c) v.
End ConversationContext.

(** [memory/context.py]: the dict [export_context] returns and
    [import_context] reads; an absent key is [None]. *)
Module ExportedContext.
Record t (F : Type) := mk {
  agent_name : option string;
  context_metadata : option loc;
  recent_memory : option (list (Dict (PyVal F)));
  current_topics : option (list string);
  topic_history : option loc;
  conversation_state : option loc;
  exported_at : option Timestamp
}.
Arguments mk {F}.
Arguments agent_name {F}.
Arguments context_metadata {F}.
Arguments recent_memory {F}.
Arguments current_topics {F}.
Arguments topic_history {F}.
Arguments conversation_state {F}.
Arguments exported_at {F}.
End ExportedContext.

(** [memory/context.py]: one item of [get_recent_messages] *)
Module Message.
Record t := mk {
  user : string;
  assistant : string;
  timestamp : Timestamp;
  agent : string
}.
End Message.

(** [memory/storage.py]: [ConversationEntry], also the row of the
    [conversations] table and the item of a session file *)
Module ConversationEntry.
Record t (F : Type) := mk {
  session_id : string;
  timestamp : Timestamp;
  user_message : string;
  agent_response : string;
  agent_used : string;
  tools_used : list string;
  confidence : F;
  routing_confidence : F;
  metadata : Dict (PyVal F)
}.
Arguments mk {F}.
Arguments session_id {F}.
Arguments timestamp {F}.
Arguments user_message {F}.
Arguments agent_response {F}.
Arguments agent_used {F}.
Arguments tools_used {F}.
Arguments confidence {F}.
Arguments routing_confidence {F}.
Arguments metadata {F}.
End ConversationEntry.

(** [memory/storage.py]: the dict handed to [store_conversation]; the
    keys read with [.get] may be absent. *)
Module EntryDict.
Record t (F : Type) := mk {
  session_id : string;
  timestamp : Timestamp;
  user_message : string;
  agent_response : string;
  agent_used : string;
  tools_used : option (list string);
  confidence : option F;
  routing_confidence : option F;
  metadata : option (Dict (PyVal F))
}.
Arguments mk {F}.
Arguments session_id {F}.
Arguments timestamp {F}.
Arguments user_message {F}.
Arguments agent_response {F}.
Arguments agent_used {F}.
Arguments tools_used {F}.
Arguments confidence {F}.
Arguments routing_confidence {F}.
Arguments metadata {F}.
End EntryDict.

(** [memory/storage.py]: a row of the [session_metadata] table *)
Module SessionMetadata.
Record t := mk {
  session_id : string;
  created_at : Timestamp;
  last_activity : Timestamp;
  message_count : Z
}.
End SessionMetadata.

(** The content of a session file: a JSON list of entries, or text that
    [json.load] rejects. *)
Module SessionFile.
Inductive t (F : Type) : Type :=
| Corrupt
| Json (entries : list (ConversationEntry.t F)).
Arguments Corrupt {F}.
Arguments Json {F} entries.
End SessionFile.

(** The durable store: the two tables of [conversations.db] and the
    directory of session files. *)
Module Store.
Record t (F : Type) := mk {
  conversations : list (ConversationEntry.t F);
  session_metadata : gmap string SessionMetadata.t;
  sessions : gmap string (SessionFile.t F)
}.
Arguments mk {F}.
Arguments conversations {F}.
Arguments session_metadata {F}.
Arguments sessions {F}.

(** The store [_init_database] leaves on a fresh directory. *)
Definition empty {F} : t F := mk [] ∅ ∅.
End Store.

(** How the database and the file system answer during one call of
    [store_conversation]. *)
Module IOFaults.
(** A transaction that fails leaves the table as it was; it fails
    before or after the method has read the clock. *)
Inductive txn := TxnOk | TxnFailsEarly | TxnFailsLate.
(** Writing the session file: [open] fails and the file is untouched,
    or the write fails after [open] has truncated the file. *)
Inductive file_write := WriteOk | OpenFails | WriteTorn.

Record t := mk {
  db_insert_fails : bool;
  file_read_fails : bool;
  file_write_outcome : file_write;
  metadata_update : txn
}.

Definition none : t := mk false false WriteOk TxnOk.
End IOFaults.

(** [orchestration/router.py]: [RoutingDecision] *)
Module RoutingDecision.
Record t (F : Type) := mk {
  agent_name : string;
  confidence : F;
  reasoning : string;
  alternative_agents : option (list (string * F))
}.
Arguments mk {F}.
Arguments agent_name {F}.
Arguments confidence {F}.
Arguments reasoning {F}.
Arguments alternative_agents {F}.
End RoutingDecision.

(** [orchestration/coordinator.py]: [CoordinatorResponse] *)
Module CoordinatorResponse.
Record t (F : Type) := mk {
  content : string;
  agent_used : string;
  tools_used : list string;
  confidence : F;
  reasoning : string;
  metadata : Dict (PyVal F);
  session_id : string;
  timestamp : Timestamp
}.
Arguments mk {F}.
Arguments content {F}.
Arguments agent_used {F}.
Arguments tools_used {F}.
Arguments confidence {F}.
Arguments reasoning {F}.
Arguments metadata {F}.
Arguments session_id {F}.
Arguments timestamp {F}.
End CoordinatorResponse.

(** One invocation of an agent's [process_message]. *)
Module Call.
Record t (F : Type) := mk {
  callee : string;
  message : string;
  context : option (Dict (PyVal F))
}.
Arguments mk {F}.
Arguments callee {F}.
Arguments message {F}.
Arguments context {F}.
End Call.

(** An agent, seen from the orchestration layer: its name, its scorer and
    its handler.  The handler calls a language model and keeps a memory
    of its own, so its answer may depend on every invocation made so
    far; either method may raise. *)
Module Agent.
Record t (F : Type) := mk {
  name : string;
  can_handle : string -> option (Dict (PyVal F)) -> result F;
  process_message :
    list (Call.t F) -> string -> option (Dict (PyVal F)) -> result (AgentResponse.t F)
}.
Arguments mk {F}.
Arguments name {F}.
Arguments can_handle {F}.
Arguments process_message {F}.
End Agent.

(** [config.py]: the settings the orchestration layer reads *)
Module Settings.
Record t := mk { max_conversation_history : Z }.
Definition default : t := mk 100.
End Settings.

(** ** The world *)

(** What the process does not control: the wall clock ([datetime_now k]
    is the text of the [k]-th reading), [json.dumps] on the collaboration
    results, and the settings. *)
Record Env (F : Type) := {
  datetime_now : nat -> Timestamp;
  json_dumps : Dict (Dict (PyVal F)) -> string;
  settings : Settings.t
}.
Arguments datetime_now {F}.
Arguments json_dumps {F}.
Arguments settings {F}.

(** The mutable state: the number of clock readings made, the Python
    objects reachable through several references, the trace of agent
    invocations and the durable store. *)
Record World (F : Type) := {
  ticks : nat;
  metas : gmap loc ContextMetadata.t;
  lists : gmap loc (list TopicRecord.t);
  states : gmap loc (ConversationState.t F);
  contexts : gmap loc (ConversationContext.t F);
  next_loc : loc;
  trace : list (Call.t F);
  store : Store.t F
}.
Arguments ticks {F}.
Arguments metas {F}.
Arguments lists {F}.
Arguments states {F}.
Arguments contexts {F}.
Arguments next_loc {F}.
Arguments trace {F}.
Arguments store {F}.

Section Monad.
Context {F : Type}.

(** A computation reads and updates the world and returns or raises. *)
Definition M (A : Type) : Type := World F -> result A * World F.

Definition ret {A} (a : A) : M A := fun w => (Return a, w).

Definition bind {A B} (c : M A) (k : A -> M B) : M B :=
  fun w => match c w with
           | (Return a, w') => k a w'
           | (Raise e, w') => (Raise e, w')
           end.

Definition raise {A} (e : exn) : M A := fun w => (Raise e, w).

(** [try: c  except Exception as e: h e].  The handler runs in the
    world the body left behind. *)
Definition try_except {A} (c : M A) (h : exn -> M A) : M A :=
  fun w => match c w with
           | (Return a, w') => (Return a, w')
           | (Raise e, w') => h e w'
           end.

Definition lift {A} (r : result A) : M A := fun w => (r, w).
Definition gets {A} (f : World F -> A) : M A := fun w => (Return (f w), w).
Definition modify (f : World F -> World F) : M unit := fun w => (Return tt, f w).

Definition with_ticks (n : nat) (w : World F) : World F :=
  {| ticks := n; metas := metas w; lists := lists w; states := states w;
     contexts := contexts w; next_loc := next_loc w; trace := trace w; store := store w |}.
Definition with_metas (m : gmap loc ContextMetadata.t) (w : World F) : World F :=
  {| ticks := ticks w; metas := m; lists := lists w; states := states w;
     contexts := contexts w; next_loc := next_loc w; trace := trace w; store := store w |}.
Definition with_lists (m : gmap loc (list TopicRecord.t)) (w : World F) : World F :=
  {| ticks := ticks w; metas := metas w; lists := m; states := states w;
     contexts := contexts w; next_loc := next_loc w; trace := trace w; store := store w |}.
Definition with_states (m : gmap loc (ConversationState.t F)) (w : World F) : World F :=
  {| ticks := ticks w; metas := metas w; lists := lists w; states := m;
     contexts := contexts w; next_loc := next_loc w; trace := trace w; store := store w |}.
Definition with_contexts (m : gmap loc (ConversationContext.t F)) (w : World F) : World F :=
  {| ticks := ticks w; metas := metas w; lists := lists w; states := states w;
     contexts := m; next_loc := next_loc w; trace := trace w; store := store w |}.
Definition with_next_loc (n : loc) (w : World F) : World F :=
  {| ticks := ticks w; metas := metas w; lists := lists w; states := states w;
     contexts := contexts w; next_loc := n; trace := trace w; store := store w |}.
Definition with_trace (t : list (Call.t F)) (w : World F) : World F :=
  {| ticks := ticks w; metas := metas w; lists := lists w; states := states w;
     contexts := contexts w; next_loc := next_loc w; trace := t; store := store w |}.
Definition with_store (s : Store.t F) (w : World F) : World F :=
  {| ticks := ticks w; metas := metas w; lists := lists w; states := states w;
     contexts := contexts w; next_loc := next_loc w; trace := trace w; store := s |}.

(** [datetime.now().isoformat()] *)
Definition now (env : Env F) : M Timestamp :=
  fun w => (Return (datetime_now env (ticks w)), with_ticks (S (ticks w)) w).

(** A fresh object identity. *)
Definition fresh : M loc :=
  fun w => (Return (next_loc w), with_next_loc (S (next_loc w)) w).

(** [for x in l: body x] *)
Fixpoint for_each {A} (l : list A) (body : A -> M unit) : M unit :=
  match l with
  | [] => ret tt
  | x :: l' => bind (body x) (fun _ => for_each l' body)
  end.
End Monad.

Declare Scope py_scope.
Delimit Scope py_scope with py.
Notation "x <- c ;; k" := (bind c (fun x => k))
  (at level 100, c at next level, right associativity) : py_scope.
Notation "c ;;; k" := (bind c (fun _ => k))
  (at level 100, right associativity) : py_scope.
Local Open Scope py_scope.

(** ** [memory/context.py]: the methods of [ConversationContext]

    [self] is the identity of the context object; the attributes are read
    from and written to the world, so that what a method did before an
    exception stays done. *)
Module MemoryContext.
Section Methods.
Context {F : Type} (env : Env F).

Definition null_context : ConversationContext.t F :=
  ConversationContext.mk "" 0 (Deque.empty 0) ∅ 0 0 0.

Definition attrs (w : World F) (self : loc) : ConversationContext.t F :=
  default null_context (contexts w !! self).
Definition meta_at (w : World F) (l : loc) : ContextMetadata.t :=
  default (ContextMetadata.mk "" "" 0 None) (metas w !! l).
Definition list_at (w : World F) (l : loc) : list TopicRecord.t :=
  default [] (lists w !! l).
Definition state_at (w : World F) (l : loc) : ConversationState.t F :=
  default ConversationState.initial (states w !! l).

Definition get_self (self : loc) : M (ConversationContext.t F) :=
  gets (fun w => attrs w self).
Definition update_self (self : loc)
    (f : ConversationContext.t F -> ConversationContext.t F) : M unit :=
  modify (fun w => with_contexts (<[self := f (attrs w self)]> (contexts w)) w).
Definition update_meta (l : loc) (f : ContextMetadata.t -> ContextMetadata.t) : M unit :=
  modify (fun w => with_metas (<[l := f (meta_at w l)]> (metas w)) w).
Definition update_list (l : loc) (f : list TopicRecord.t -> list TopicRecord.t) : M unit :=
  modify (fun w => with_lists (<[l := f (list_at w l)]> (lists w)) w).
Definition update_state (l : loc)
    (f : ConversationState.t F -> ConversationState.t F) : M unit :=
  modify (fun w => with_states (<[l := f (state_at w l)]> (states w)) w).

(** Object creation: a list, a metadata dict, a state dict. *)
Definition new_list (v : list TopicRecord.t) : M loc :=
  l <- fresh ;; update_list l (fun _ => v) ;;; ret l.
Definition new_meta (v : ContextMetadata.t) : M loc :=
  l <- fresh ;; update_meta l (fun _ => v) ;;; ret l.
Definition new_state (v : ConversationState.t F) : M loc :=
  l <- fresh ;; update_state l (fun _ => v) ;;; ret l.

(** [max_memory_size or settings.max_conversation_history] *)
Definition size_or_default (max_memory_size : option Z) : Z :=
  match max_memory_size with
  | Some n => if (n =? 0)%Z then Settings.max_conversation_history (settings env) else n
  | None => Settings.max_conversation_history (settings env)
  end.

(** [ConversationContext(agent_name, max_memory_size)]; returns the new
    object's identity.  [deque] refuses a negative [maxlen]. *)
Definition __init__ (agent_name : string) (max_memory_size : option Z) : M loc :=
  let size := size_or_default max_memory_size in
  if (size <? 0)%Z then raise (Exc "ValueError" "maxlen must be non-negative")
  else
    history <- new_list [] ;;
    created <- now env ;;
    meta <- new_meta (ContextMetadata.mk created agent_name 0 None) ;;
    state <- new_state ConversationState.initial ;;
    self <- fresh ;;
    update_self self (fun _ =>
      ConversationContext.mk agent_name size (Deque.empty (Z.to_nat size)) ∅
                             history meta state) ;;;
    ret self.

Definition topic_keywords : Dict (list string) :=
  [ ("programming", ["code"; "program"; "script"; "development"; "software"; "algorithm"]);
    ("research", ["research"; "study"; "analyze"; "information"; "data"; "facts"]);
    ("creative", ["create"; "write"; "design"; "story"; "creative"; "idea"]);
    ("planning", ["plan"; "organize"; "schedule"; "task"; "project"; "goal"]);
    ("technology", ["ai"; "machine learning"; "tech"; "computer"; "digital"]);
    ("business", ["business"; "company"; "market"; "strategy"; "finance"]);
    ("education", ["learn"; "teach"; "course"; "study"; "tutorial"; "explain"]);
    ("science", ["science"; "research"; "experiment"; "hypothesis"; "theory"]) ].

Definition _extract_topics (self : loc) (message : string) : M unit :=
  try_except
    (let message_lower := PyStr.lower message in
     let new_topics : gset string :=
       list_to_set
         (map fst (filter (fun tk => PyStr.any_in (snd tk) message_lower) topic_keywords)) in
     update_self self (fun c =>
       ConversationContext.set_current_topics
         (ConversationContext.current_topics c ∪ new_topics) c) ;;;
     (if decide (new_topics = ∅) then ret tt
      else
        ts <- now env ;;
        c <- get_self self ;;
        update_list (ConversationContext.topic_history c) (fun h =>
          h ++ [TopicRecord.mk ts (elements new_topics) (PyStr.take 100 message)])) ;;;
     c <- get_self self ;;
     h <- gets (fun w => list_at w (ConversationContext.topic_history c)) ;;
     if 50 <? length h then
       l <- new_list (slice_from (-50) h) ;;
       update_self self (ConversationContext.set_topic_history l)
     else ret tt)
    (fun _ => ret tt).

Definition task_indicators : list string :=
  ["help me"; "i need to"; "can you"; "please"; "task"; "project"].
Definition preference_indicators : list string :=
  ["i prefer"; "i like"; "i don't like"; "i want"; "i need"].

Definition _update_conversation_state (self : loc) (user_message assistant_response : string)
    : M unit :=
  try_except
    (let message_lower := PyStr.lower user_message in
     (if PyStr.any_in task_indicators message_lower then
        if 20 <? String.length user_message then
          c <- get_self self ;;
          update_state (ConversationContext.conversation_state c)
            (ConversationState.set_current_task (Some (PyStr.take 200 user_message)))
        else ret tt
      else ret tt) ;;;
     for_each preference_indicators (fun indicator =>
       if PyStr.contains indicator message_lower then
         c <- get_self self ;;
         s <- gets (fun w => state_at w (ConversationContext.conversation_state c)) ;;
         let pref_key :=
           "preference_" +:+ pretty (length (ConversationState.user_preferences s)) in
         ts <- now env ;;
         update_state (ConversationContext.conversation_state c) (fun s =>
           ConversationState.set_user_preferences
             (PyDict.set pref_key (Preference.mk user_message ts)
                (ConversationState.user_preferences s)) s)
       else ret tt) ;;;
     c <- get_self self ;;
     let set_mode m :=
       update_state (ConversationContext.conversation_state c)
         (ConversationState.set_conversation_mode m) in
     if PyStr.any_in ["creative"; "brainstorm"; "idea"] message_lower then set_mode "creative"
     else if PyStr.any_in ["analyze"; "research"; "study"] message_lower then set_mode "analytical"
     else if PyStr.any_in ["plan"; "organize"; "task"] message_lower then set_mode "planning"
     else if PyStr.any_in ["code"; "program"; "debug"] message_lower then set_mode "technical"
     else ret tt)
    (fun _ => ret tt).

(** The entry [add_interaction] builds; [metadata or {}]. *)
Definition new_entry (agent_name : string) (ts : Timestamp)
    (user_message assistant_response context_type : string)
    (metadata : option (Dict (PyVal F))) : ContextEntry.t F :=
ContextEntry.mk ts user_message assistant_response agent_name context_type
  (default [] metadata).

Definition add_interaction (self : loc) (user_message assistant_response : string)
    (context_type : string) (metadata : option (Dict (PyVal F))) : M unit :=
  try_except
    (ts <- now env ;;
     c <- get_self self ;;
     let entry := new_entry (ConversationContext.agent_name c) ts
                    user_message assistant_response context_type metadata in
     update_self self (fun c =>
       ConversationContext.set_recent_memory
         (Deque.append (ConversationContext.recent_memory c) entry) c) ;;;
     update_meta (ConversationContext.context_metadata c) (fun m =>
ContextMetadata.set_total_interactions (ContextMetadata.total_interactions m + 1)%Z m) ;;;
update_meta (ConversationContext.context_metadata c)
(ContextMetadata.set_last_activity (Some (ContextEntry.timestamp entry))) ;;;
_extract_topics self user_message ;;;
_update_conversation_state self user_message assistant_response)
(fun _ => ret tt).

Definition to_message (e : ContextEntry.t F) : Message.t :=
  Message.mk (ContextEntry.user_message e) (ContextEntry.assistant_response e)
             (ContextEntry.timestamp e) (ContextEntry.agent_name e).

(** [get_recent_messages(count)]; an empty deque is falsy. *)
Definition get_recent_messages (self : loc) (count : Z) : M (list Message.t) :=
  try_except
    (c <- get_self self ;;
     let memory := Deque.items (ConversationContext.recent_memory c) in
     let recent_entries := match memory with
                           | [] => []
                           | _ => slice_from (- count) memory
                           end in
     ret (map to_message recent_entries))
    (fun _ => ret []).

Definition clear_context (self : loc) : M unit :=
  try_except
    (update_self self (fun c =>
       ConversationContext.set_recent_memory
         (Deque.clear (ConversationContext.recent_memory c)) c) ;;;
     update_self self (ConversationContext.set_current_topics ∅) ;;;
     c <- get_self self ;;
     update_list (ConversationContext.topic_history c) (fun _ => []) ;;;
     state <- new_state ConversationState.initial ;;
     update_self self (ConversationContext.set_conversation_state state) ;;;
     update_meta (ConversationContext.context_metadata c)
       (ContextMetadata.set_total_interactions 0) ;;;
     update_meta (ConversationContext.context_metadata c)
       (ContextMetadata.set_last_activity None))
    (fun _ => ret tt).

(** [export_context]: the entries are copied by [asdict], the topics by
    [list]; the metadata dict, the topic history and the conversation
    state are the context's own objects. *)
Definition export_context (self : loc) : M (ExportedContext.t F) :=
  try_except
    (c <- get_self self ;;
     let recent_memory_list :=
       map ContextEntry.asdict (Deque.items (ConversationContext.recent_memory c)) in
     ts <- now env ;;
     ret (ExportedContext.mk
            (Some (ConversationContext.agent_name c))
            (Some (ConversationContext.context_metadata c))
            (Some recent_memory_list)
            (Some (elements (ConversationContext.current_topics c)))
            (Some (ConversationContext.topic_history c))
            (Some (ConversationContext.conversation_state c))
            (Some ts)))
    (fun _ => ret (ExportedContext.mk None None None None None None None)).

Definition import_context (self : loc) (context_data : ExportedContext.t F) : M unit :=
  try_except
    (clear_context self ;;;
     (match ExportedContext.context_metadata context_data with
      | Some m => update_self self (ConversationContext.set_context_metadata m)
      | None => ret tt
      end) ;;;
     let memory_data := default [] (ExportedContext.recent_memory context_data) in
     for_each memory_data (fun entry_dict =>
       entry <- lift (ContextEntry.from_kwargs entry_dict) ;;
       update_self self (fun c =>
         ConversationContext.set_recent_memory
           (Deque.append (ConversationContext.recent_memory c) entry) c)) ;;;
     update_self self (ConversationContext.set_current_topics
       (list_to_set (default [] (ExportedContext.current_topics context_data)))) ;;;
     (match ExportedContext.topic_history context_data with
      | Some h => update_self self (ConversationContext.set_topic_history h)
      | None => h <- new_list [] ;; update_self self (ConversationContext.set_topic_history h)
      end) ;;;
     (match ExportedContext.conversation_state context_data with
      | Some s => update_self self (ConversationContext.set_conversation_state s)
      | None => ret tt
      end))
    (fun _ => ret tt).
End Methods.
End MemoryContext.

(** ** [memory/storage.py]: the write path of [ConversationStorage] *)
Module MemoryStorage.
Section Methods.
Context {F : Type} `{PyFloat F} (env : Env F).

Definition update_store (f : Store.t F -> Store.t F) : M unit :=
  modify (fun w => with_store (f (store w)) w).

Definition db_error {A} : M (F:=F) A :=
  raise (Exc "sqlite3.OperationalError" "unable to open database file").
Definition os_error {A} : M (F:=F) A :=
  raise (Exc "OSError" "cannot write session file").

(** [INSERT INTO conversations ...] under the lock, then [commit]. *)
Definition _store_in_database (io : IOFaults.t) (entry : ConversationEntry.t F) : M unit :=
  try_except
    (if IOFaults.db_insert_fails io then db_error
     else update_store (fun s =>
            Store.mk (Store.conversations s ++ [entry])
                     (Store.session_metadata s) (Store.sessions s)))
    (fun _ => ret tt).

Definition write_file (session_id : string) (content : SessionFile.t F) : M unit :=
  update_store (fun s =>
    Store.mk (Store.conversations s) (Store.session_metadata s)
             (<[session_id := content]> (Store.sessions s))).

(** Read, append, keep the last [max_conversation_history] items,
    rewrite in full. *)
Definition _store_in_session_file (io : IOFaults.t) (entry : ConversationEntry.t F) : M unit :=
  try_except
    (let session_id := ConversationEntry.session_id entry in
     file <- gets (fun w => Store.sessions (store w) !! session_id) ;;
     let loaded :=
       match file with
       | Some (SessionFile.Json l) => if IOFaults.file_read_fails io then [] else l
       | Some SessionFile.Corrupt => []
       | None => []
       end in
     let session_data := loaded ++ [entry] in
     let max_entries := Settings.max_conversation_history (settings env) in
     let session_data :=
       if (max_entries <? Z.of_nat (length session_data))%Z
       then slice_from (- max_entries) session_data
       else session_data in
     match IOFaults.file_write_outcome io with
     | IOFaults.WriteOk => write_file session_id (SessionFile.Json session_data)
     | IOFaults.OpenFails => os_error
     | IOFaults.WriteTorn => write_file session_id SessionFile.Corrupt ;;; os_error
     end)
    (fun _ => ret tt).

Definition put_metadata (row : SessionMetadata.t) : M unit :=
  update_store (fun s =>
    Store.mk (Store.conversations s)
             (<[SessionMetadata.session_id row := row]> (Store.session_metadata s))
             (Store.sessions s)).

(** [SELECT], then [UPDATE] of the existing row or [INSERT] of a new
    one, in one transaction. *)
Definition _update_session_metadata (io : IOFaults.t) (session_id : string) : M unit :=
  try_except
    (match IOFaults.metadata_update io with
     | IOFaults.TxnFailsEarly => db_error
     | outcome =>
         row <- gets (fun w => Store.session_metadata (store w) !! session_id) ;;
         ts <- now env ;;
         match outcome with
         | IOFaults.TxnOk =>
             match row with
             | Some r =>
                 put_metadata (SessionMetadata.mk session_id (SessionMetadata.created_at r)
                                 ts (SessionMetadata.message_count r + 1)%Z)
             | None => put_metadata (SessionMetadata.mk session_id ts ts 1%Z)
             end
         | _ => db_error
         end
     end)
    (fun _ => ret tt).

Definition store_conversation (io : IOFaults.t) (conversation_entry : EntryDict.t F) : M unit :=
  try_except
    (let entry :=
       ConversationEntry.mk
         (EntryDict.session_id conversation_entry)
         (EntryDict.timestamp conversation_entry)
         (EntryDict.user_message conversation_entry)
         (EntryDict.agent_response conversation_entry)
         (EntryDict.agent_used conversation_entry)
         (default [] (EntryDict.tools_used conversation_entry))
         (default f0 (EntryDict.confidence conversation_entry))
         (default f0 (EntryDict.routing_confidence conversation_entry))
         (default [] (EntryDict.metadata conversation_entry)) in
     _store_in_database io entry ;;;
     _store_in_session_file io entry ;;;
     _update_session_metadata io (ConversationEntry.session_id entry))
    (fun _ => ret tt).
End Methods.
End MemoryStorage.

(** ** [orchestration/router.py]: [AgentRouter] *)
Module Router.
Record t (F : Type) := mk {
  agents : Dict (Agent.t F);
  agent_keywords : Dict (list string);
  fallback_order : list string
}.
Arguments mk {F}.
Arguments agents {F}.
Arguments agent_keywords {F}.
Arguments fallback_order {F}.

Section Methods.
Context {F : Type} `{PyFloat F}.

(** [AgentRouter()]; the four agent objects it creates are arguments. *)
Definition __init__ (research code creative task : Agent.t F) : t F :=
  mk [ ("research", research); ("code", code); ("creative", creative); ("task", task) ]
     [ ("research",
        ["search"; "find"; "research"; "information"; "facts"; "data";
         "what is"; "who is"; "when"; "where"; "why"; "how many";
         "statistics"; "analysis"; "study"; "investigate"; "compare"]);
       ("code",
        ["code"; "program"; "script"; "function"; "debug"; "fix";
         "python"; "javascript"; "java"; "programming"; "development";
         "algorithm"; "implementation"; "software"; "app"; "bug"]);
       ("creative",
        ["create"; "write"; "story"; "idea"; "brainstorm"; "creative";
         "content"; "blog"; "article"; "poem"; "design"; "imagine";
         "innovative"; "original"; "artistic"; "inspiration"]);
       ("task",
        ["plan"; "organize"; "schedule"; "manage"; "project"; "task";
         "timeline"; "deadline"; "coordinate"; "prioritize"; "workflow";
         "goal"; "objective"; "strategy"; "breakdown"; "milestone"]) ]
     ["research"; "creative"; "task"; "code"].

(** [name in self.agents] *)
Definition has_agent (self : t F) (agent_name : string) : bool :=
  match PyDict.get agent_name (agents self) with Some _ => true | None => false end.

Definition get_agent (self : t F) (agent_name : string) : option (Agent.t F) :=
  PyDict.get agent_name (agents self).

(** The inner loop of [_calculate_keyword_scores]: [0.1] is added for
    each keyword found. *)
Definition keyword_sum (keywords : list string) (message_lower : string) : F :=
  fold_left (fun score keyword =>
               if PyStr.contains keyword message_lower then fadd score f01 else score)
            keywords f0.

Definition _calculate_keyword_scores (self : t F) (message : string) : Dict F :=
  let message_lower := PyStr.lower message in
  fold_left (fun scores kv =>
               PyDict.set (fst kv) (fmin (keyword_sum (snd kv) message_lower) f1) scores)
            (agent_keywords self) [].

(** [self.fallback_order[0]] raises on an empty list. *)
Definition _get_fallback_agent (self : t F) (message : string) : result string :=
  let message_lower := PyStr.lower message in
  if PyStr.any_in ["what"; "how"; "why"; "explain"] message_lower then Return "research"
  else if PyStr.any_in ["create"; "write"; "generate"] message_lower then Return "creative"
  else if PyStr.any_in ["plan"; "organize"; "schedule"] message_lower then Return "task"
  else match fallback_order self with
       | first :: _ => Return first
       | [] => Raise (Exc "IndexError" "list index out of range")
       end.

(** [sorted(items, key=lambda x: x[1], reverse=True)]: descending and
    stable, items of equal score keep their order. *)
Fixpoint insert_desc (x : string * F) (l : list (string * F)) : list (string * F) :=
  match l with
  | [] => [x]
  | y :: l' => if fltb (snd x) (snd y) then y :: insert_desc x l' else x :: l
  end.
Definition sorted_desc (l : list (string * F)) : list (string * F) :=
  fold_right insert_desc [] l.

(** The scores the agents report; a scorer that raises counts for
    [0.0]. *)
Definition agent_scores (self : t F) (message : string)
    (context : option (Dict (PyVal F))) : Dict F :=
  fold_left (fun scores kv =>
               let score := match Agent.can_handle (snd kv) message context with
                            | Return score => score
                            | Raise _ => f0
                            end in
               PyDict.set (fst kv) score scores)
            (agents self) [].

Definition combined_scores (self : t F) (message : string)
    (context : option (Dict (PyVal F))) : Dict F :=
  let agent_scores := agent_scores self message context in
  let keyword_scores := _calculate_keyword_scores self message in
  fold_left (fun combined agent_name =>
               let agent_score := default f0 (PyDict.get agent_name agent_scores) in
               let keyword_score := default f0 (PyDict.get agent_name keyword_scores) in
               PyDict.set agent_name
                 (fadd (fmul agent_score f07) (fmul keyword_score f03)) combined)
            (PyDict.keys (agents self)) [].

Definition route_message (self : t F) (message : string)
    (context : option (Dict (PyVal F))) (preferred_agent : option string)
    : result (RoutingDecision.t F) :=
  let preferred :=
    match preferred_agent with
    | Some p => if PyStr.truthy p && has_agent self p then Some p else None
    | None => None
    end in
  match preferred with
  | Some p =>
      Return (RoutingDecision.mk p f1
                ("User explicitly requested " +:+ p +:+ " agent") None)
  | None =>
      let sorted_agents := sorted_desc (combined_scores self message context) in
      let alternatives :=
        filter (fun ns => fltb f01 (snd ns)) (take 2 (drop 1 sorted_agents)) in
      let fallback :=
        match _get_fallback_agent self message with
        | Return selected_agent =>
            Return (RoutingDecision.mk selected_agent f05
                      ("No agent showed strong confidence, using fallback: "
                       +:+ selected_agent)
                      (Some alternatives))
        | Raise e => Raise e
        end in
      match sorted_agents with
      | [] => fallback
      | (selected_agent, confidence) :: _ =>
          if fltb confidence f01 then fallback
          else Return (RoutingDecision.mk selected_agent confidence
                         ("Selected based on highest confidence score: "
                          +:+ fmt2 confidence)
                         (Some alternatives))
      end
  end.
End Methods.
End Router.

(** ** [orchestration/coordinator.py]: [AgentCoordinator] *)

(** One step of a collaboration plan *)
Module Step.
Record t := mk { agent : string; task : string; order : nat }.
End Step.

(** The dict [_create_collaboration_plan] returns *)
Module Plan.
Record t := mk {
  primary_agent : string;
  secondary_agents : list string;
  steps : list Step.t;
  collaboration_type : string
}.
End Plan.

Module Coordinator.
Record t (F : Type) := mk {
  router : Router.t F;
  session_id : string;
  conversation_context : loc
}.
Arguments mk {F}.
Arguments router {F}.
Arguments session_id {F}.
Arguments conversation_context {F}.

Section Methods.
Context {F : Type} `{PyFloat F} (env : Env F).

Definition nl : string := String (ascii_of_nat 10) EmptyString.
Definition dquote : string := String (ascii_of_nat 34) EmptyString.

(** [AgentCoordinator()]: the agents the router creates and the value
    of [uuid.uuid4()] are arguments. *)
Definition __init__ (research code creative task : Agent.t F) (uuid : string) : M (t F) :=
  context <- MemoryContext.__init__ env "coordinator" None ;;
  ret (mk (Router.__init__ research code creative task) uuid context).

(** [await agent.process_message(message, context)] on what
    [get_agent] returned: [None] has no such method; otherwise the
    agent answers, knowing the invocations made so far, and the call is
    appended to the trace. *)
Definition call_agent (agent : option (Agent.t F)) (message : string)
    (context : option (Dict (PyVal F))) : M (AgentResponse.t F) :=
  match agent with
  | None => raise (Exc "AttributeError"
                       "'NoneType' object has no attribute 'process_message'")
  | Some a =>
      fun w => (Agent.process_message a (trace w) message context,
                with_trace (trace w ++ [Call.mk (Agent.name a) message context]) w)
  end.

Definition collaboration_indicators : list string :=
  ["research and write"; "analyze and create"; "plan and implement";
   "compare and design"; "investigate and report"; "study and develop"].

Definition domains : list string :=
  ["research"; "code"; "creative"; "task"; "plan"; "write"; "analyze"; "implement"].

Definition _check_collaboration_need (message : string)
    (context : option (Dict (PyVal F))) : bool :=
  let message_lower := PyStr.lower message in
  if PyStr.any_in collaboration_indicators message_lower then true
  else
    let domain_count :=
      length (filter (fun domain => PyStr.contains domain message_lower) domains) in
    if 2 <=? domain_count then true
    else if 50 <? length (PyStr.split message) then true
    else false.

Definition capability_keywords : Dict (list string) :=
  [ ("research", ["research"; "find"; "information"; "data"; "facts"; "search"]);
    ("code", ["code"; "program"; "implement"; "development"; "software"]);
    ("creative", ["create"; "write"; "design"; "creative"; "content"; "idea"]);
    ("task", ["plan"; "organize"; "manage"; "schedule"; "coordinate"]) ].

Definition _identify_secondary_agents (message primary_agent : string) : list string :=
  let message_lower := PyStr.lower message in
  let secondary_agents :=
    map fst
      (filter (fun kv => negb (String.eqb (fst kv) primary_agent)
                         && PyStr.any_in (snd kv) message_lower)
              capability_keywords) in
  take 2 secondary_agents.

(** The preparation steps, in a loop over [enumerate(secondary_agents)];
    [i] is the index of the first agent of [secondary_agents]. *)
Fixpoint preparation_steps (message : string) (i : nat) (secondary_agents : list string)
    : list Step.t :=
  match secondary_agents with
  | [] => []
  | agent :: rest =>
      let step :=
        if String.eqb agent "research" then
          [Step.mk agent ("Research background information related to: " +:+ message) (i + 1)]
        else if String.eqb agent "task" then
          [Step.mk agent ("Create an implementation plan for: " +:+ message) (i + 1)]
        else if String.eqb agent "code" then
          [Step.mk agent ("Analyze technical requirements for: " +:+ message) (i + 1)]
        else if String.eqb agent "creative" then
          [Step.mk agent ("Generate creative concepts for: " +:+ message) (i + 1)]
        else [] in
      step ++ preparation_steps message (S i) rest
  end.

Definition _create_collaboration_plan (message primary_agent : string)
    (secondary_agents : list string) : Plan.t :=
  let steps := preparation_steps message 0 secondary_agents in
  let steps :=
    steps ++ [Step.mk primary_agent
                ("Synthesize information and provide comprehensive response to: "
                 +:+ message)
                (length steps + 1)] in
  Plan.mk primary_agent secondary_agents steps "sequential".

(** The loop over the steps of the plan: a step without an agent name
    or a task, or whose agent is not registered, is passed over; the
    other steps call their agent, whose answer goes to the results. *)
Fixpoint execute_steps (self : t F) (steps : list Step.t)
    (context : option (Dict (PyVal F)))
    (collaboration_results : Dict (AgentResponse.t F))
    : M (Dict (AgentResponse.t F)) :=
  match steps with
  | [] => ret collaboration_results
  | step :: rest =>
      let agent_name := Step.agent step in
      let task := Step.task step in
      if PyStr.truthy agent_name && PyStr.truthy task then
        match Router.get_agent (router self) agent_name with
        | Some agent =>
            step_result <- call_agent (Some agent) task context ;;
            execute_steps self rest context
              (PyDict.set agent_name step_result collaboration_results)
        | None => execute_steps self rest context collaboration_results
        end
      else execute_steps self rest context collaboration_results
  end.

(** [synthesis_context["collaboration_results"]] *)
Definition synthesis_results (collaboration_results : Dict (AgentResponse.t F))
    : Dict (Dict (PyVal F)) :=
  fold_left (fun acc kv =>
               PyDict.set (fst kv)
                 [ ("content", VStr (AgentResponse.content (snd kv)));
                   ("tools_used", VList (map VStr (AgentResponse.tools_used (snd kv))));
                   ("confidence", VFloat (AgentResponse.confidence (snd kv))) ]
                 acc)
            collaboration_results [].

Definition indent : string := "        ".

Definition synthesis_prompt (original_message : string)
    (collaboration_results : Dict (AgentResponse.t F)) : string :=
  nl +:+ indent +:+ "Original request: " +:+ dquote +:+ original_message +:+ dquote +:+ nl
  +:+ indent +:+ nl
  +:+ indent +:+ "I've gathered information from multiple specialized agents:" +:+ nl
  +:+ indent +:+ nl
  +:+ indent +:+ json_dumps env (synthesis_results collaboration_results) +:+ nl
  +:+ indent +:+ nl
  +:+ indent +:+ "Please provide a comprehensive, well-integrated response that synthesizes all this information" +:+ nl
  +:+ indent +:+ "to fully address the original request. Ensure the response is coherent, complete, and" +:+ nl
  +:+ indent +:+ "acknowledges the contributions from different perspectives." +:+ nl
  +:+ indent.

(** The text the [except] branch of the synthesis builds. *)
Definition combined_content (collaboration_results : Dict (AgentResponse.t F)) : string :=
  fold_left (fun acc kv =>
               acc +:+ "**" +:+ PyStr.title (fst kv) +:+ " Agent Insights:**" +:+ nl
               +:+ AgentResponse.content (snd kv) +:+ nl +:+ nl)
            collaboration_results
            ("Based on analysis from multiple agents:" +:+ nl +:+ nl).

(** Reading a local variable: an [UnboundLocalError] when no
    assignment to it has been executed. *)
Definition read_local {A} (name : string) (v : option A) : M (F:=F) A :=
  match v with
  | Some a => ret a
  | None => raise (Exc "UnboundLocalError"
              ("cannot access local variable '" +:+ name
               +:+ "' where it is not associated with a value"))
  end.

Definition agents_involved (collaboration_results : Dict (AgentResponse.t F)) : PyVal F :=
  VList (map VStr (PyDict.keys collaboration_results)).

(** In the [try] block only the call of the primary agent can raise;
    it stands before the assignment to [all_tools_used], so the handler
    runs with that local still unbound. *)
Definition _synthesize_collaboration_results (original_message : string)
    (collaboration_results : Dict (AgentResponse.t F))
    (primary_agent : option (Agent.t F)) : M (AgentResponse.t F) :=
  let prompt := synthesis_prompt original_message collaboration_results in
  try_except
    (synthesis_response <- call_agent primary_agent prompt None ;;
     let all_tools_used :=
       concat (map AgentResponse.tools_used (PyDict.values collaboration_results)) in
     ret (AgentResponse.mk
            (AgentResponse.content synthesis_response)
            (AgentResponse.agent_name synthesis_response)
            (list_set all_tools_used)
            (AgentResponse.confidence synthesis_response)
            (AgentResponse.reasoning synthesis_response)
            (PyDict.set "agents_involved" (agents_involved collaboration_results)
               (PyDict.set "collaboration_synthesis" (VBool true)
                  (AgentResponse.metadata synthesis_response)))))
    (fun _ =>
       let all_tools_used : option (list string) := None in
       let combined_content := combined_content collaboration_results in
       tools <- read_local "all_tools_used" all_tools_used ;;
       ret (AgentResponse.mk
              combined_content
              "coordinator"
              (list_set tools)
              f07
              (Some "Multi-agent collaboration with manual synthesis")
              [ ("collaboration_synthesis", VBool true);
                ("agents_involved", agents_involved collaboration_results) ])).

Definition _handle_collaboration (self : t F) (message : string)
    (primary_routing : RoutingDecision.t F) (context : option (Dict (PyVal F)))
    : M (AgentResponse.t F) :=
  try_except
    (let primary_agent :=
       Router.get_agent (router self) (RoutingDecision.agent_name primary_routing) in
     let secondary_agents :=
       _identify_secondary_agents message (RoutingDecision.agent_name primary_routing) in
     let collaboration_plan :=
       _create_collaboration_plan message (RoutingDecision.agent_name primary_routing)
         secondary_agents in
     collaboration_results <-
       execute_steps self (Plan.steps collaboration_plan) context [] ;;
     _synthesize_collaboration_results message collaboration_results primary_agent)
    (fun _ =>
       let primary_agent :=
         Router.get_agent (router self) (RoutingDecision.agent_name primary_routing) in
       call_agent primary_agent message context).

Definition _store_conversation (io : IOFaults.t) (self : t F) (message : string)
    (response : AgentResponse.t F) (routing_decision : RoutingDecision.t F) : M unit :=
  try_except
    (ts <- now env ;;
     let conversation_entry :=
       EntryDict.mk (session_id self) ts message
         (AgentResponse.content response)
         (AgentResponse.agent_name response)
         (Some (AgentResponse.tools_used response))
         (Some (AgentResponse.confidence response))
         (Some (RoutingDecision.confidence routing_decision))
         (Some (AgentResponse.metadata response)) in
     MemoryStorage.store_conversation env io conversation_entry)
    (fun _ => ret tt).

(** [x or y] on an optional text. *)
Definition or_else (x : option string) (y : string) : string :=
  match x with
  | Some s => if PyStr.truthy s then s else y
  | None => y
  end.

Definition alternatives_value (alternatives : option (list (string * F))) : PyVal F :=
  match alternatives with
  | None => VNone
  | Some l => VList (map (fun ns => VList [VStr (fst ns); VFloat (snd ns)]) l)
  end.

Definition error_response (self : t F) (timestamp : Timestamp) (e : exn)
    : CoordinatorResponse.t F :=
  CoordinatorResponse.mk
    ("I apologize, but I encountered an error while processing your request: "
     +:+ exc_str e)
    "coordinator" [] f01 "Error during message processing"
    [("error", VStr (exc_str e))] (session_id self) timestamp.

Definition process_message (io : IOFaults.t) (self : t F) (message : string)
    (preferred_agent : option string) (context : option (Dict (PyVal F)))
    : M (CoordinatorResponse.t F) :=
  timestamp <- now env ;;
  try_except
    (routing_decision <-
       lift (Router.route_message (router self) message context preferred_agent) ;;
     let agent := Router.get_agent (router self)
                    (RoutingDecision.agent_name routing_decision) in
     match agent with
     | None =>
         raise (Exc "Exception"
                  ("Agent " +:+ RoutingDecision.agent_name routing_decision
                   +:+ " not available"))
     | Some _ =>
         let collaboration_needed := _check_collaboration_need message context in
         response <-
           (if collaboration_needed
            then _handle_collaboration self message routing_decision context
            else call_agent agent message context) ;;
         _store_conversation io self message response routing_decision ;;;
         MemoryContext.add_interaction env (conversation_context self) message
           (AgentResponse.content response) "conversation" None ;;;
         ret (CoordinatorResponse.mk
                (AgentResponse.content response)
                (AgentResponse.agent_name response)
                (AgentResponse.tools_used response)
                (AgentResponse.confidence response)
                (or_else (AgentResponse.reasoning response)
                         (RoutingDecision.reasoning routing_decision))
                (PyDict.merge (AgentResponse.metadata response)
                   [ ("routing_decision",
                      VDict [ ("selected_agent",
                               VStr (RoutingDecision.agent_name routing_decision));
                              ("confidence",
                               VFloat (RoutingDecision.confidence routing_decision));
                              ("alternatives",
                               alternatives_value
                                 (RoutingDecision.alternative_agents routing_decision)) ]);
                     ("collaboration_used", VBool collaboration_needed);
                     ("session_id", VStr (session_id self)) ])
                (session_id self)
                timestamp)
     end)
    (fun e => ret (error_response self timestamp e)).
End Methods.
End Coordinator.

(** [memory/storage.py]: what a read or a clean-up meets: the session
    file cannot be read, the session file cannot be removed, the
    database cannot be opened or the transaction fails. *)
Module StorageFaults.
Record t := mk {
  file_read_fails : bool;
  file_unlink_fails : bool;
  db_fails : bool
}.

Definition none : t := mk false false false.
End StorageFaults.

(** An item of the list [get_recent_conversations] returns. *)
Module RecentConversation.
Record t (F : Type) := mk {
  user : string;
  response : string;
  agent_used : string;
  timestamp : Timestamp;
  tools_used : list string;
  confidence : F
}.
Arguments mk {F}.
Arguments user {F}.
Arguments response {F}.
Arguments agent_used {F}.
Arguments timestamp {F}.
Arguments tools_used {F}.
Arguments confidence {F}.
End RecentConversation.

(** An item of the list [get_conversation_by_date] returns. *)
Module DatedConversation.
Record t (F : Type) := mk {
  user_message : string;
  agent_response : string;
  agent_used : string;
  timestamp : Timestamp;
  tools_used : list string;
  confidence : F;
  metadata : Dict (PyVal F)
}.
Arguments mk {F}.
Arguments user_message {F}.
Arguments agent_response {F}.
Arguments agent_used {F}.
Arguments timestamp {F}.
Arguments tools_used {F}.
Arguments confidence {F}.
Arguments metadata {F}.
End DatedConversation.

(** [memory/storage.py]: the reading and cleaning methods of
    [ConversationStorage] *)
Module ConversationStorage.
Section Methods.
Context {F : Type} `{PyFloat F} (env : Env F).

(** [SELECT ... FROM conversations WHERE session_id = ?] *)
Definition select_session (s : Store.t F) (session_id : string)
    : list (ConversationEntry.t F) :=
  filter (fun e => ConversationEntry.session_id e = session_id) (Store.conversations s).

(** [ORDER BY timestamp DESC] and [ASC], texts compared byte by byte.
    SQL leaves the order of rows with equal timestamps open; the sort
    fixes one. *)
Definition order_by_timestamp_desc (rows : list (ConversationEntry.t F))
    : list (ConversationEntry.t F) :=
  merge_sort (fun a b => String.le (ConversationEntry.timestamp b)
                                   (ConversationEntry.timestamp a)) rows.
Definition order_by_timestamp_asc (rows : list (ConversationEntry.t F))
    : list (ConversationEntry.t F) :=
  merge_sort (fun a b => String.le (ConversationEntry.timestamp a)
                                   (ConversationEntry.timestamp b)) rows.

(** [LIMIT ?]: a negative limit is no limit. *)
Definition sql_limit {A} (limit : Z) (rows : list A) : list A :=
  if (limit <? 0)%Z then rows else take (Z.to_nat limit) rows.

Definition to_recent (e : ConversationEntry.t F) : RecentConversation.t F :=
  RecentConversation.mk
    (ConversationEntry.user_message e) (ConversationEntry.agent_response e)
    (ConversationEntry.agent_used e) (ConversationEntry.timestamp e)
    (ConversationEntry.tools_used e) (ConversationEntry.confidence e).

(** The [try] around the session file: [Some result] when it returns,
    [None] when the file does not exist or reading it raised. *)
Definition recent_from_file (io : StorageFaults.t) (session_id : string) (limit : Z)
    : M (option (list (RecentConversation.t F))) :=
  file <- gets (fun w => Store.sessions (store w) !! session_id) ;;
  match file with
  | Some content =>
      try_except
        (session_data <-
           (if StorageFaults.file_read_fails io
            then raise (Exc "OSError" "cannot read session file")
            else match content with
                 | SessionFile.Json session_data => ret session_data
                 | SessionFile.Corrupt =>
                     raise (Exc "json.JSONDecodeError" "Expecting value")
                 end) ;;
         let recent_data := match session_data with
                            | [] => []
                            | _ => slice_from (- limit) session_data
                            end in
         ret (Some (map to_recent recent_data)))
        (fun _ => ret None)
  | None => ret None
  end.

Definition get_recent_conversations (io : StorageFaults.t) (session_id : string)
    (limit : Z) : M (list (RecentConversation.t F)) :=
  try_except
    (from_file <- recent_from_file io session_id limit ;;
     match from_file with
     | Some result => ret result
     | None =>
         if StorageFaults.db_fails io then MemoryStorage.db_error
         else
           rows <- gets (fun w =>
                     sql_limit limit
                       (order_by_timestamp_desc (select_session (store w) session_id))) ;;
           ret (rev (map to_recent rows))
     end)
    (fun _ => ret []).

Definition to_dated (e : ConversationEntry.t F) : DatedConversation.t F :=
  DatedConversation.mk
    (ConversationEntry.user_message e) (ConversationEntry.agent_response e)
    (ConversationEntry.agent_used e) (ConversationEntry.timestamp e)
    (ConversationEntry.tools_used e) (ConversationEntry.confidence e)
    (ConversationEntry.metadata e).

(** [timestamp BETWEEN ? AND ?] *)
Definition between (start_date end_date : string) (e : ConversationEntry.t F) : Prop :=
  String.le start_date (ConversationEntry.timestamp e) /\
  String.le (ConversationEntry.timestamp e) end_date.

Definition get_conversation_by_date (io : StorageFaults.t) (session_id : string)
    (start_date end_date : string) : M (list (DatedConversation.t F)) :=
  try_except
    (if StorageFaults.db_fails io then MemoryStorage.db_error
     else
       rows <- gets (fun w =>
                 order_by_timestamp_asc
                   (filter (between start_date end_date)
                      (select_session (store w) session_id))) ;;
       ret (map to_dated rows))
    (fun _ => ret []).

(** [clear_session]: the file is removed first; the two [DELETE]s are
    one transaction. *)
Definition clear_session (io : StorageFaults.t) (session_id : string) : M unit :=
  try_except
    (file <- gets (fun w => Store.sessions (store w) !! session_id) ;;
     (match file with
      | Some _ =>
          if StorageFaults.file_unlink_fails io
          then raise (Exc "PermissionError" "cannot remove session file")
          else MemoryStorage.update_store (fun s =>
                 Store.mk (Store.conversations s) (Store.session_metadata s)
                          (delete session_id (Store.sessions s)))
      | None => ret tt
      end) ;;;
     (if StorageFaults.db_fails io then MemoryStorage.db_error
      else MemoryStorage.update_store (fun s =>
             Store.mk
               (filter (fun e : ConversationEntry.t F =>
                          ConversationEntry.session_id e <> session_id)
                       (Store.conversations s))
               (delete session_id (Store.session_metadata s))
               (Store.sessions s))))
    (fun _ => ret tt).

(** [cleanup_old_sessions(days_old)]; [minus_days now days] is the text
    of [(datetime.now() - timedelta(days=days)).isoformat()] for the
    clock reading whose text is [now].  The rows of [session_metadata]
    come in the order of their session identifiers. *)
Definition cleanup_old_sessions (minus_days : Timestamp -> Z -> Timestamp)
    (io : StorageFaults.t) (days_old : Z) : M unit :=
  try_except
    (now_ <- now env ;;
     let cutoff_date := minus_days now_ days_old in
     old_sessions <-
       (if StorageFaults.db_fails io then MemoryStorage.db_error
        else gets (fun w =>
               map fst
                 (filter (fun row => ~ String.le cutoff_date
                                         (SessionMetadata.last_activity (snd row)))
                         (map_to_list (Store.session_metadata (store w)))))) ;;
     for_each old_sessions (clear_session io))
    (fun _ => ret tt).
End Methods.
End ConversationStorage.

(** [orchestration/coordinator.py]: the other public methods of
    [AgentCoordinator] *)
Module AgentCoordinator.
Section Methods.
Context {F : Type} `{PyFloat F} (env : Env F).

Definition hand_off_to_agent (io : IOFaults.t) (self : Coordinator.t F)
    (agent_name message : string) (context : option (Dict (PyVal F)))
    : M (CoordinatorResponse.t F) :=
  Coordinator.process_message env io self message (Some agent_name) context.
End Methods.
End AgentCoordinator.

(** * Properties *)

(** ** The collaboration gate *)

Section Gate.
Context {F : Type}.

Lemma two_in_filter {A} (P : A -> Prop) `{!forall x, Decision (P x)} (l : list A) :
  NoDup l ->
  (2 <= length (filter P l) <->
   exists x y, x ∈ l /\ y ∈ l /\ x <> y /\ P x /\ P y).
Proof.
  intros Hnd. split.
  - intros Hlen.
    pose proof (NoDup_filter P l Hnd) as Hf.
    destruct (filter P l) as [|x [|y r]] eqn:E; simpl in Hlen; try lia.
    assert (Hx : x ∈ filter P l) by (rewrite E; left).
    assert (Hy : y ∈ filter P l) by (rewrite E; right; left).
    apply list_elem_of_filter in Hx as [Px Hx], Hy as [Py Hy].
    exists x, y. repeat split; auto.
    intros ->. apply NoDup_cons in Hf as [Hn _]. apply Hn. left.
  - intros (x & y & Hx & Hy & Hne & Px & Py).
    assert (Hx' : x ∈ filter P l) by (apply list_elem_of_filter; auto).
    assert (Hy' : y ∈ filter P l) by (apply list_elem_of_filter; auto).
    destruct (filter P l) as [|a [|b r]]; simpl; try lia.
    + inversion Hx'.
    + apply list_elem_of_singleton in Hx', Hy'. congruence.
Qed.

Lemma domains_NoDup : NoDup Coordinator.domains.
Proof. apply (bool_decide_unpack _). vm_compute. exact I. Qed.

Lemma any_in_spec (ks : list string) (s : string) :
  PyStr.any_in ks s = true <-> exists k, k ∈ ks /\ PyStr.contains k s = true.
Proof.
  unfold PyStr.any_in. rewrite existsb_exists.
  split; intros (k & Hk & Hc); exists k; split; auto; by apply list_elem_of_In.
Qed.

(** C9. The collaboration gate answers [true] exactly when the lowered
    message contains one of the fixed phrases, or contains two distinct
    domain keywords, or the message has more than 50 words; it answers
    [true] on "research and write an article" and [false] on "what is
    the capital of France". *)
Theorem collaboration_gate_triggers :
  (forall (message : string) (context : option (Dict (PyVal F))),
     Coordinator._check_collaboration_need message context = true <->
     (exists phrase, phrase ∈ Coordinator.collaboration_indicators /\
                     PyStr.contains phrase (PyStr.lower message) = true)
     \/ (exists d1 d2, d1 ∈ Coordinator.domains /\ d2 ∈ Coordinator.domains /\ d1 <> d2 /\
                       PyStr.contains d1 (PyStr.lower message) = true /\
                       PyStr.contains d2 (PyStr.lower message) = true)
     \/ 50 < length (PyStr.split message))
  /\ (forall context : option (Dict (PyVal F)),
        Coordinator._check_collaboration_need "research and write an article" context = true)
  /\ (forall context : option (Dict (PyVal F)),
        Coordinator._check_collaboration_need "what is the capital of France" context = false).
Proof.
  split; [|split; intros; reflexivity].
  intros message context. unfold Coordinator._check_collaboration_need.
  rewrite <- any_in_spec.
  pose proof (two_in_filter (fun d => PyStr.contains d (PyStr.lower message))
                Coordinator.domains domains_NoDup) as H2.
  destruct (PyStr.any_in _ _); [tauto|].
  cbv zeta.
  destruct (Nat.leb_spec 2 (length (filter (fun d : string =>
              PyStr.contains d (PyStr.lower message)) Coordinator.domains))) as [Hge|Hlt].
  - split; [intros _|reflexivity]. right; left.
    apply H2 in Hge as (x & y & ? & ? & ? & Px & Py).
    exists x, y. repeat split; auto; by apply Is_true_true.
  - destruct (Nat.ltb_spec 50 (length (PyStr.split message))) as [Hw|Hw].
    + split; [intros _; right; right; exact Hw | reflexivity].
    + split; [discriminate|].
      intros [Hf|[(x & y & ? & ? & ? & Px & Py)|?]]; [discriminate| |lia].
      exfalso. apply Nat.lt_nge in Hlt. apply Hlt, H2.
      exists x, y. repeat split; auto; by apply Is_true_true.
Qed.
End Gate.

(** ** Reasoning about computations *)

Section Frame.
Context {F : Type}.

(** [c] leaves the observation [g] of the world unchanged, whether it
    returns or raises. *)
Definition keeps {A B} (g : World F -> B) (c : M (F:=F) A) : Prop :=
  forall w, g (snd (c w)) = g w.

Lemma keeps_ret {A B} (g : World F -> B) (a : A) : keeps g (ret a).
Proof. intros w. reflexivity. Qed.

Lemma keeps_raise {A B} (g : World F -> B) (e : exn) : keeps g (raise (A:=A) e).
Proof. intros w. reflexivity. Qed.

Lemma keeps_lift {A B} (g : World F -> B) (r : result A) : keeps g (lift r).
Proof. intros w. reflexivity. Qed.

Lemma keeps_gets {A B} (g : World F -> B) (f : World F -> A) : keeps g (gets f).
Proof. intros w. reflexivity. Qed.

Lemma keeps_modify {B} (g : World F -> B) (f : World F -> World F) :
  (forall w, g (f w) = g w) -> keeps g (modify f).
Proof. intros Hf w. apply Hf. Qed.

Lemma keeps_bind {A A' B} (g : World F -> B) (c : M A) (k : A -> M A') :
  keeps g c -> (forall a, keeps g (k a)) -> keeps g (bind c k).
Proof.
  intros Hc Hk w. unfold bind. specialize (Hc w).
  destruct (c w) as [[a|e] w']; simpl in *; [rewrite Hk|]; exact Hc.
Qed.

Lemma keeps_try_except {A B} (g : World F -> B) (c : M A) (h : exn -> M A) :
  keeps g c -> (forall e, keeps g (h e)) -> keeps g (try_except c h).
Proof.
  intros Hc Hh w. unfold try_except. specialize (Hc w).
  destruct (c w) as [[a|e] w']; simpl in *; [|rewrite Hh]; exact Hc.
Qed.

Lemma keeps_for_each {A B} (g : World F -> B) (l : list A) (body : A -> M unit) :
  (forall x, keeps g (body x)) -> keeps g (for_each l body).
Proof.
  intros Hb. induction l as [|x l IH]; simpl.
  - apply keeps_ret.
  - apply keeps_bind; auto.
Qed.

Lemma keeps_now {B} (g : World F -> B) (env : Env F) :
  (forall n w, g (with_ticks n w) = g w) -> keeps g (now env).
Proof. intros Hg w. apply Hg. Qed.

Lemma keeps_fresh {B} (g : World F -> B) :
  (forall n w, g (with_next_loc n w) = g w) -> keeps g fresh.
Proof. intros Hg w. apply Hg. Qed.

(** A computation that never raises. *)
Definition returns {A} (c : M (F:=F) A) : Prop :=
  forall w, exists a, fst (c w) = Return a.

Lemma returns_try_except {A} (c : M A) (h : exn -> M A) :
  (forall e, returns (h e)) -> returns (try_except c h).
Proof.
  intros Hh w. unfold try_except.
  destruct (c w) as [[a|e] w']; [exists a; reflexivity|apply Hh].
Qed.

Lemma returns_ret {A} (a : A) : returns (ret a).
Proof. intros w. exists a. reflexivity. Qed.
End Frame.

Ltac keeps_step :=
  first
    [ apply keeps_ret | apply keeps_raise | apply keeps_lift | apply keeps_gets
    | apply keeps_try_except | apply keeps_bind | apply keeps_for_each
    | (apply keeps_now; intros; reflexivity)
    | (apply keeps_fresh; intros; reflexivity)
    | (apply keeps_modify; intros; reflexivity)
    | match goal with
      | |- keeps _ (if ?b then _ else _) => destruct b
      | |- keeps _ (match ?x with _ => _ end) => destruct x
      end
    | intro ].

(** ** Conversation memory *)

Section Memory.
Context {F : Type} (env : Env F).
Import MemoryContext.

(** What the methods other than [add_interaction], [clear_context] and
    [import_context] leave alone in a context object. *)
Definition config_and_memory (self : loc) (w : World F) :=
  let c := attrs w self in
  (ConversationContext.agent_name c, ConversationContext.max_memory_size c,
   ConversationContext.recent_memory c).

Lemma attrs_update_self (self : loc) f (w : World F) :
  attrs (snd (update_self self f w)) self = f (attrs w self).
Proof. unfold attrs at 1. simpl. by rewrite lookup_insert_eq. Qed.

Lemma keeps_update_self {B} (pv : ConversationContext.t F -> B) (self : loc) f :
  (forall c, pv (f c) = pv c) ->
  keeps (fun w => pv (attrs w self)) (update_self self f).
Proof. intros Hf w. rewrite attrs_update_self. apply Hf. Qed.

Lemma keeps_update_self_cm (self : loc) f :
  (forall c, ConversationContext.agent_name (f c) = ConversationContext.agent_name c /\
             ConversationContext.max_memory_size (f c) = ConversationContext.max_memory_size c /\
             ConversationContext.recent_memory (f c) = ConversationContext.recent_memory c) ->
  keeps (config_and_memory self) (update_self self f).
Proof.
  intros Hf w. unfold config_and_memory. rewrite attrs_update_self.
  destruct (Hf (attrs w self)) as (-> & -> & ->). reflexivity.
Qed.

Ltac keeps_cm :=
  repeat first
    [ (apply keeps_update_self_cm; intros; repeat split; reflexivity)
    | keeps_step ].

Lemma extract_topics_keeps self message :
  keeps (config_and_memory self) (_extract_topics env self message).
Proof. unfold _extract_topics, new_list, update_list. keeps_cm. Qed.

Lemma update_conversation_state_keeps self um ar :
  keeps (config_and_memory self) (_update_conversation_state env self um ar).
Proof. unfold _update_conversation_state, update_state. keeps_cm. Qed.

(** *** The bounded deque *)

Definition deque_wf {A} (d : Deque.t A) : Prop :=
  length (Deque.items d) <= Deque.maxlen d.

(** The last [n] items of a list. *)
Definition last_n {A} (n : nat) (l : list A) : list A := drop (length l - n) l.

Lemma last_n_app_last_n {A} (n : nat) (a b : list A) :
  last_n n (last_n n a ++ b) = last_n n (a ++ b).
Proof.
  unfold last_n. rewrite !length_app, length_drop.
  destruct (decide (length a <= n)) as [Hle|Hgt].
  - replace (length a - n) with 0 by lia. rewrite drop_0, Nat.sub_0_r. reflexivity.
  - replace (length a - (length a - n) + length b - n) with (length b) by lia.
    replace (length a + length b - n) with ((length a - n) + length b) by lia.
    rewrite <- drop_drop. f_equal.
    rewrite drop_app_le by lia. reflexivity.
Qed.

Lemma append_items {A} (d : Deque.t A) (x : A) :
  deque_wf d ->
  Deque.items (Deque.append d x) = last_n (Deque.maxlen d) (Deque.items d ++ [x]).
Proof.
  unfold deque_wf, Deque.append, last_n. simpl. intros Hwf.
  rewrite length_app. simpl.
  destruct (Nat.ltb_spec (Deque.maxlen d) (length (Deque.items d) + 1)).
  - replace (length (Deque.items d) + 1 - Deque.maxlen d) with 1 by lia.
    destruct (Deque.items d ++ [x]); reflexivity.
  - replace (length (Deque.items d) + 1 - Deque.maxlen d) with 0 by lia.
    reflexivity.
Qed.

Lemma last_n_length {A} (n : nat) (l : list A) : length (last_n n l) <= n.
Proof. unfold last_n. rewrite length_drop. lia. Qed.

Lemma append_wf {A} (d : Deque.t A) (x : A) :
  deque_wf d -> deque_wf (Deque.append d x).
Proof.
  intros Hwf. unfold deque_wf. rewrite append_items by exact Hwf.
  simpl. apply last_n_length.
Qed.

Lemma append_all_maxlen {A} (es : list A) (d : Deque.t A) :
  Deque.maxlen (fold_left Deque.append es d) = Deque.maxlen d.
Proof. revert d. induction es as [|e es IH]; intros d; simpl; [|rewrite IH]; reflexivity. Qed.

Lemma append_all_items {A} (es : list A) (d : Deque.t A) :
  deque_wf d ->
  deque_wf (fold_left Deque.append es d) /\
  Deque.items (fold_left Deque.append es d) = last_n (Deque.maxlen d) (Deque.items d ++ es).
Proof.
  revert d. induction es as [|e es IH]; intros d Hwf; simpl.
  - split; [exact Hwf|]. rewrite app_nil_r. unfold last_n.
    replace (length (Deque.items d) - Deque.maxlen d) with 0 by (unfold deque_wf in Hwf; lia).
    reflexivity.
  - destruct (IH (Deque.append d e) (append_wf d e Hwf)) as [Hwf' Hit].
    split; [exact Hwf'|]. rewrite Hit, append_items by exact Hwf. simpl.
    rewrite last_n_app_last_n, <- app_assoc. reflexivity.
Qed.

(** *** [add_interaction] *)

Lemma try_pass_world {A} (c : M A) (a : A) (w : World F) :
  snd (try_except c (fun _ => ret a) w) = snd (c w).
Proof. unfold try_except. destruct (c w) as [[?|?] ?]; reflexivity. Qed.

Lemma try_unit_returns (c : M unit) (w : World F) :
  fst (try_except c (fun _ => ret tt) w) = Return tt.
Proof. unfold try_except. destruct (c w) as [[[]|?] ?]; reflexivity. Qed.

Lemma add_interaction_effect self um ar ct md (w : World F) :
  let c := attrs w self in
  config_and_memory self (snd (add_interaction env self um ar ct md w)) =
  (ConversationContext.agent_name c, ConversationContext.max_memory_size c,
   Deque.append (ConversationContext.recent_memory c)
     (new_entry (ConversationContext.agent_name c) (datetime_now env (ticks w))
                um ar ct md)).
Proof.
  intros c. unfold add_interaction. rewrite try_pass_world.
  unfold bind at 1. simpl. unfold bind at 1. simpl.
  unfold bind at 1.
  match goal with
  | |- context [update_self self ?f ?w0] =>
      pose proof (attrs_update_self self f w0) as Hu;
      destruct (update_self self f w0) as [r w1] eqn:E
  end.
  assert (r = Return tt) as -> by (unfold update_self, modify in E; congruence).
  simpl in Hu.
  match goal with
  | |- config_and_memory self (snd (?rest w1)) = _ =>
      assert (Hk : keeps (config_and_memory self) rest)
  end.
  { unfold update_meta.
    repeat first [ apply extract_topics_keeps | apply update_conversation_state_keeps
                 | keeps_step ]. }
  rewrite Hk. unfold config_and_memory. rewrite Hu. reflexivity.
Qed.

Lemma add_interaction_returns self um ar ct md (w : World F) :
  fst (add_interaction env self um ar ct md w) = Return tt.
Proof. apply try_unit_returns. Qed.

(** One recorded interaction: the arguments of [add_interaction]. *)
Record Interaction := {
  said : string;
  answered : string;
  kind : string;
  extra : option (Dict (PyVal F))
}.

Definition record (self : loc) (x : Interaction) : M unit :=
  add_interaction env self (said x) (answered x) (kind x) (extra x).

(** The entries that recording [xs] from the world [w] creates, each
    stamped with the clock reading of its call. *)
Fixpoint recorded (self : loc) (xs : list Interaction) (w : World F)
    : list (ContextEntry.t F) :=
  match xs with
  | [] => []
  | x :: xs' =>
      new_entry (ConversationContext.agent_name (attrs w self))
                (datetime_now env (ticks w)) (said x) (answered x) (kind x) (extra x)
      :: recorded self xs' (snd (record self x w))
  end.

Lemma recorded_length self xs w : length (recorded self xs w) = length xs.
Proof. revert w. induction xs; intros; simpl; auto. Qed.

Lemma recorded_said self xs w :
  map ContextEntry.user_message (recorded self xs w) = map said xs /\
  map ContextEntry.assistant_response (recorded self xs w) = map answered xs.
Proof.
  revert w. induction xs as [|x xs IH]; intros w; simpl; [auto|].
  destruct (IH (snd (record self x w))) as [-> ->]. auto.
Qed.

Lemma record_all_effect self xs (w : World F) :
  let c := attrs w self in
  fst (for_each xs (record self) w) = Return tt /\
  config_and_memory self (snd (for_each xs (record self) w)) =
  (ConversationContext.agent_name c, ConversationContext.max_memory_size c,
   fold_left Deque.append (recorded self xs w) (ConversationContext.recent_memory c)).
Proof.
  revert w. induction xs as [|x xs IH]; intros w c; simpl.
  - split; reflexivity.
  - unfold bind.
    pose proof (add_interaction_returns self (said x) (answered x) (kind x) (extra x) w) as Hr.
    pose proof (add_interaction_effect self (said x) (answered x) (kind x) (extra x) w) as He.
    fold (record self x) in Hr, He.
    destruct (record self x w) as [r w1]. simpl in Hr, He. subst r.
    destruct (IH w1) as [IHr IHe]. split; [exact IHr|].
    rewrite IHe. unfold config_and_memory in He.
    injection He as -> -> ->. reflexivity.
Qed.
End Memory.

Section Acts.
Context {F : Type}.

(** [c] changes the observation [g] by [f], whether it returns or
    raises. *)
Definition acts {A B} (g : World F -> B) (c : M (F:=F) A) (f : B -> B) : Prop :=
  forall w, g (snd (c w)) = f (g w).

Lemma keeps_acts {A B} (g : World F -> B) (c : M A) : keeps g c -> acts g c id.
Proof. intros Hk w. apply Hk. Qed.

Lemma acts_bind {A A' B} (g : World F -> B) (c : M A) (k : A -> M A') f1 f2 :
  returns c -> acts g c f1 -> (forall a, acts g (k a) f2) ->
  acts g (bind c k) (fun b => f2 (f1 b)).
Proof.
  intros Hr Hc Hk w. unfold bind. specialize (Hc w). destruct (Hr w) as [a Ha].
  destruct (c w) as [r w']. simpl in *. subst r. rewrite Hk, Hc. reflexivity.
Qed.

Lemma acts_bind_keeps {A A' B} (g : World F -> B) (c : M A) (k : A -> M A') f :
  acts g c f -> (forall a, keeps g (k a)) -> acts g (bind c k) f.
Proof.
  intros Hc Hk w. unfold bind. specialize (Hc w).
  destruct (c w) as [[a|e] w']; simpl in *; [rewrite Hk|]; exact Hc.
Qed.


Lemma acts_try_except {A B} (g : World F -> B) (c : M A) (h : exn -> M A) f :
  acts g c f -> (forall e, keeps g (h e)) -> acts g (try_except c h) f.
Proof.
  intros Hc Hh w. unfold try_except. specialize (Hc w).
  destruct (c w) as [[a|e] w']; simpl in *; [|rewrite Hh]; exact Hc.
Qed.

Lemma returns_bind {A A'} (c : M A) (k : A -> M A') :
  returns c -> (forall a, returns (k a)) -> returns (bind (F:=F) c k).
Proof.
  intros Hc Hk w. unfold bind. destruct (Hc w) as [a Ha].
  destruct (c w) as [r w']. simpl in Ha. subst r. apply Hk.
Qed.

Lemma returns_modify (f : World F -> World F) : returns (modify f).
Proof. intros w. exists tt. reflexivity. Qed.

Lemma returns_gets {A} (f : World F -> A) : returns (gets f).
Proof. intros w. eexists. reflexivity. Qed.

Lemma returns_fresh : returns (fresh (F:=F)).
Proof. intros w. eexists. reflexivity. Qed.

Lemma returns_now (env : Env F) : returns (now env).
Proof. intros w. eexists. reflexivity. Qed.

Lemma returns_for_each {A} (l : list A) (body : A -> M unit) :
  (forall x, returns (body x)) -> returns (for_each (F:=F) l body).
Proof.
  intros Hb. induction l; simpl; [apply returns_ret|apply returns_bind; auto].
Qed.
End Acts.

Ltac returns_step :=
  first
    [ apply returns_ret | apply returns_modify | apply returns_gets | apply returns_fresh
    | apply returns_now
    | (apply returns_try_except; intro; apply returns_ret)
    | apply returns_bind | apply returns_for_each
    | match goal with
      | |- returns (if ?b then _ else _) => destruct b
      | |- returns (match ?x with _ => _ end) => destruct x
      end
    | intro ].

Ltac keeps_memory :=
  repeat first
    [ (apply keeps_update_self_cm; intros; repeat split; reflexivity)
    | apply extract_topics_keeps | apply update_conversation_state_keeps
    | keeps_step ].

Section MemoryClaims.
Context {F : Type} (env : Env F).
Import MemoryContext.

Lemma get_recent_messages_eq self (n : Z) (w : World F) :
  fst (get_recent_messages self n w) =
  Return (map to_message
            (match Deque.items (ConversationContext.recent_memory (attrs w self)) with
             | [] => []
             | _ => slice_from (- n) (Deque.items (ConversationContext.recent_memory (attrs w self)))
             end)).
Proof. reflexivity. Qed.

Lemma slice_all {A} (l : list A) :
  match l with [] => [] | _ => slice_from (- Z.of_nat (length l)) l end = l.
Proof.
  destruct l as [|x l]; [reflexivity|]. unfold slice_from.
  set (n := length (x :: l)).
  destruct (Z.ltb_spec (- Z.of_nat n) 0) as [_|Hn]; [|simpl in n; lia].
  replace (Z.to_nat (Z.max (- Z.of_nat n + Z.of_nat n) 0)) with 0 by lia.
  reflexivity.
Qed.

Lemma deque_eta {A} (d : Deque.t A) : d = Deque.mk (Deque.maxlen d) (Deque.items d).
Proof. destruct d; reflexivity. Qed.

Lemma init_effect agent cap (w0 : World F) self w1 :
  __init__ env agent cap w0 = (Return self, w1) ->
  (0 <= size_or_default env cap)%Z /\
  exists h m s,
    attrs w1 self =
    ConversationContext.mk agent (size_or_default env cap)
      (Deque.empty (Z.to_nat (size_or_default env cap))) ∅ h m s.
Proof.
  unfold __init__. destruct (Z.ltb_spec (size_or_default env cap) 0) as [Hlt|Hge].
  - discriminate.
  - intros Hi. split; [exact Hge|].
    unfold bind, new_list, new_meta, new_state, bind, fresh, update_list, update_meta,
      update_state, update_self, modify, now, ret in Hi. simpl in Hi.
    injection Hi as <- <-. do 3 eexists. unfold attrs. simpl.
    rewrite lookup_insert_eq. reflexivity.
Qed.

Lemma record_agent_name self x (w : World F) :
  ConversationContext.agent_name (attrs (snd (record env self x w)) self) =
  ConversationContext.agent_name (attrs w self).
Proof.
  pose proof (add_interaction_effect env self (said x) (answered x) (kind x) (extra x) w) as He.
  unfold config_and_memory in He. injection He as Ha _ _. exact Ha.
Qed.

(** C5. A context created with capacity [N] never holds more than [N]
    entries however many interactions are recorded, and once [N + k]
    interactions are recorded [get_recent_messages(N)] returns the last
    [N] of them, oldest first; with capacity 2, after A, B, C it
    returns B then C. *)
Theorem memory_capacity_recent agent cap (w0 : World F) self w1 :
  __init__ env agent cap w0 = (Return self, w1) ->
  let N := Z.to_nat (size_or_default env cap) in
  (forall xs : list (Interaction (F:=F)),
     let w2 := snd (for_each xs (record env self) w1) in
     let memory := ConversationContext.recent_memory (attrs w2 self) in
     Deque.maxlen memory = N /\
     length (Deque.items memory) <= N /\
     forall k, length xs = N + k ->
       exists messages,
         fst (get_recent_messages self (Z.of_nat N) w2) = Return messages /\
         messages = map to_message (drop k (recorded env self xs w1)) /\
         map Message.user messages = drop k (map said xs) /\
         map Message.assistant messages = drop k (map answered xs))
  /\ (cap = Some 2%Z -> forall a b c : Interaction (F:=F),
        exists tb tc,
          fst (get_recent_messages self 2
                 (snd (for_each [a; b; c] (record env self) w1))) =
          Return [ Message.mk (said b) (answered b) tb agent;
                   Message.mk (said c) (answered c) tc agent ]).
Proof.
  intros Hinit N.
  destruct (init_effect _ _ _ _ _ Hinit) as (Hsize & h & m & s & Hattrs).
  assert (Hgen : forall xs : list (Interaction (F:=F)),
    ConversationContext.recent_memory
      (attrs (snd (for_each xs (record env self) w1)) self) =
    Deque.mk N (last_n N (recorded env self xs w1)) /\
    ConversationContext.agent_name (attrs w1 self) = agent).
  { intros xs. destruct (record_all_effect env self xs w1) as [_ He].
    unfold config_and_memory in He. injection He as _ _ Hm. rewrite Hm, Hattrs. simpl.
    split; [|reflexivity].
    assert (Hwf : deque_wf (Deque.empty (A:=ContextEntry.t F) N))
      by (unfold deque_wf; simpl; lia).
    destruct (append_all_items (recorded env self xs w1) _ Hwf) as [_ Hit].
    pose proof (append_all_maxlen (recorded env self xs w1) (Deque.empty N)) as Hml.
    fold N. rewrite (deque_eta (fold_left _ _ _)), Hit, Hml. reflexivity. }
  split.
  - intros xs w2 memory. subst memory w2. destruct (Hgen xs) as [-> _]. simpl.
    split; [reflexivity|]. split; [apply last_n_length|].
    intros k Hlen. eexists. split; [apply get_recent_messages_eq|].
    destruct (Hgen xs) as [-> _]. simpl.
    assert (Hlast : last_n N (recorded env self xs w1) = drop k (recorded env self xs w1)).
    { unfold last_n. rewrite recorded_length. f_equal. lia. }
    rewrite Hlast.
    assert (Hl : length (drop k (recorded env self xs w1)) = N)
      by (rewrite length_drop, recorded_length; lia).
    pose proof (slice_all (drop k (recorded env self xs w1))) as Hsl.
    rewrite Hl in Hsl. rewrite Hsl.
    split; [reflexivity|].
    destruct (recorded_said env self xs w1) as [Hs Ha].
    rewrite <- Hs, <- Ha, !skipn_map, !map_map. split; reflexivity.
  - intros -> a b c.
    rewrite get_recent_messages_eq. destruct (Hgen [a; b; c]) as [-> Hag].
    unfold N. simpl. rewrite !record_agent_name, Hag.
    do 2 eexists. reflexivity.
Qed.
End MemoryClaims.

Section ImportExport.
Context {F : Type} (env : Env F).
Import MemoryContext.

Lemma acts_update_self {B} (pv : ConversationContext.t F -> B) (self : loc) f g :
  (forall c, pv (f c) = g (pv c)) ->
  acts (fun w => pv (attrs w self)) (update_self self f) g.
Proof. intros Hf w. rewrite attrs_update_self. apply Hf. Qed.

Lemma from_kwargs_asdict (e : ContextEntry.t F) :
ContextEntry.from_kwargs (ContextEntry.asdict e) = Return e.
Proof. destruct e. reflexivity. Qed.

(** The loop of [import_context] over the entries of the payload. *)
Definition import_entries (self : loc) (memory_data : list (Dict (PyVal F))) : M unit :=
  for_each memory_data (fun entry_dict =>
    entry <- lift (ContextEntry.from_kwargs entry_dict) ;;
    update_self self (fun c =>
      ConversationContext.set_recent_memory
        (Deque.append (ConversationContext.recent_memory c) entry) c)).

Lemma import_entries_cons self (e : ContextEntry.t F) ds (w : World F) :
  import_entries self (ContextEntry.asdict e :: ds) w =
  import_entries self ds
    (snd (update_self self (fun c =>
            ConversationContext.set_recent_memory
              (Deque.append (ConversationContext.recent_memory c) e) c) w)).
Proof.
  unfold import_entries. simpl for_each. unfold bind at 1. unfold bind at 1.
  unfold lift at 1. rewrite from_kwargs_asdict. reflexivity.
Qed.

Lemma import_entries_effect self (es : list (ContextEntry.t F)) (w : World F) :
  let c := attrs w self in
  fst (import_entries self (map ContextEntry.asdict es) w) = Return tt /\
  attrs (snd (import_entries self (map ContextEntry.asdict es) w)) self =
  ConversationContext.set_recent_memory
    (fold_left Deque.append es (ConversationContext.recent_memory c)) c.
Proof.
  revert w. induction es as [|e es IH]; intros w c; simpl.
  - split; [reflexivity|]. subst c. destruct (attrs w self). reflexivity.
  - rewrite import_entries_cons.
    destruct (IH (snd (update_self self (fun c0 =>
                ConversationContext.set_recent_memory
                  (Deque.append (ConversationContext.recent_memory c0) e) c0) w)))
      as [IHr IHa].
    split; [exact IHr|]. rewrite IHa, attrs_update_self. reflexivity.
Qed.


Lemma clear_context_returns self : returns (clear_context (F:=F) self).
Proof. unfold clear_context. repeat returns_step. Qed.

Lemma clear_context_memory self :
  acts (fun w => ConversationContext.recent_memory (attrs w self))
       (clear_context (F:=F) self) Deque.clear.
Proof.
  unfold clear_context. apply acts_try_except; [|intro; apply keeps_ret].
  apply acts_bind_keeps.
  - apply (acts_update_self ConversationContext.recent_memory). reflexivity.
  - intros _. unfold new_state, update_list, update_meta, update_state.
    repeat first [ (apply (keeps_update_self ConversationContext.recent_memory);
                    reflexivity)
                 | keeps_step ].
Qed.

Ltac keeps_attr pv :=
  unfold clear_context, new_state, new_list, update_list, update_meta, update_state;
  repeat first [ (apply (keeps_update_self pv); reflexivity) | keeps_step ].

Lemma clear_context_config self :
  keeps (fun w => (ConversationContext.agent_name (attrs w self),
                   ConversationContext.max_memory_size (attrs w self),
                   ConversationContext.topic_history (attrs w self),
                   ConversationContext.context_metadata (attrs w self)))
        (clear_context (F:=F) self).
Proof.
  keeps_attr (fun c : ConversationContext.t F =>
                (ConversationContext.agent_name c, ConversationContext.max_memory_size c,
                 ConversationContext.topic_history c, ConversationContext.context_metadata c)).
Qed.

(** The part of [import_context] after the entries are read. *)
Lemma import_context_unfold self (payload : ExportedContext.t F) :
  import_context self payload =
  try_except
    (clear_context self ;;;
     (match ExportedContext.context_metadata payload with
      | Some m => update_self self (ConversationContext.set_context_metadata m)
      | None => ret tt
      end) ;;;
     import_entries self (default [] (ExportedContext.recent_memory payload)) ;;;
     update_self self (ConversationContext.set_current_topics
       (list_to_set (default [] (ExportedContext.current_topics payload)))) ;;;
     (match ExportedContext.topic_history payload with
      | Some h => update_self self (ConversationContext.set_topic_history h)
      | None => h <- new_list [] ;; update_self self (ConversationContext.set_topic_history h)
      end) ;;;
     (match ExportedContext.conversation_state payload with
      | Some s => update_self self (ConversationContext.set_conversation_state s)
      | None => ret tt
      end))
    (fun _ => ret tt).
Proof. reflexivity. Qed.

Lemma import_context_memory self (payload : ExportedContext.t F) es :
  ExportedContext.recent_memory payload = Some (map ContextEntry.asdict es) ->
  acts (fun w => (ConversationContext.agent_name (attrs w self),
                  ConversationContext.max_memory_size (attrs w self),
                  ConversationContext.recent_memory (attrs w self)))
       (import_context self payload)
       (fun v => (v.1.1, v.1.2, fold_left Deque.append es (Deque.clear v.2))).
Proof.
  intros Hes. rewrite import_context_unfold, Hes. simpl default.
  apply acts_try_except; [|intro; apply keeps_ret].
  eapply (acts_bind _ _ _ (fun v => (v.1.1, v.1.2, Deque.clear v.2))
            (fun v => (v.1.1, v.1.2, fold_left Deque.append es v.2))).
  - apply clear_context_returns.
  - intros w.
    pose proof (clear_context_memory self w) as Hm.
    pose proof (clear_context_config self w) as Hc. cbv beta in Hm, Hc.
    cbv beta. remember (snd (clear_context self w)) as w1 eqn:Ew. clear Ew.
    injection Hc as Ha Hs _ _. cbn [fst snd]. rewrite Ha, Hs, Hm. reflexivity.
  - intros _.
    eapply (acts_bind _ _ _ id (fun v => (v.1.1, v.1.2, fold_left Deque.append es v.2))).
    + unfold update_self. repeat returns_step.
    + apply keeps_acts.
      keeps_attr (fun c : ConversationContext.t F =>
                    (ConversationContext.agent_name c, ConversationContext.max_memory_size c,
                     ConversationContext.recent_memory c)).
    + intros _. apply acts_bind_keeps.
      * intros w. destruct (import_entries_effect self es w) as [_ ->].
        destruct (attrs w self). reflexivity.
      * intros _.
        keeps_attr (fun c : ConversationContext.t F =>
                      (ConversationContext.agent_name c, ConversationContext.max_memory_size c,
                       ConversationContext.recent_memory c)).
Qed.







(** C10. Importing a payload whose entries were produced by
    [export_context], however many they are, leaves the deque with its
    capacity and with at most that many entries: the last ones of the
    payload, in order. *)
Theorem import_context_keeps_capacity self (payload : ExportedContext.t F)
    (es : list (ContextEntry.t F)) (w : World F) :
  ExportedContext.recent_memory payload = Some (map ContextEntry.asdict es) ->
  let before := attrs w self in
  let after := attrs (snd (import_context self payload w)) self in
  let capacity := Deque.maxlen (ConversationContext.recent_memory before) in
  ConversationContext.max_memory_size after = ConversationContext.max_memory_size before /\
  Deque.maxlen (ConversationContext.recent_memory after) = capacity /\
  length (Deque.items (ConversationContext.recent_memory after)) <= capacity /\
  Deque.items (ConversationContext.recent_memory after) = drop (length es - capacity) es /\
  (Z.of_nat capacity = ConversationContext.max_memory_size before ->
   (Z.of_nat (length (Deque.items (ConversationContext.recent_memory after)))
    <= ConversationContext.max_memory_size after)%Z).
Proof.
  intros Hes before after capacity.
  pose proof (import_context_memory self payload es Hes w) as Hmem.
  cbv beta in Hmem. cbn [fst snd] in Hmem. fold after before in Hmem.
  injection Hmem as _ Hsz Hrm.
  assert (Hc : deque_wf (Deque.clear (ConversationContext.recent_memory before)))
    by (unfold deque_wf; simpl; lia).
  destruct (append_all_items es _ Hc) as [Hwf Hit].
  rewrite Hrm, Hsz, Hit, append_all_maxlen. simpl.
  fold capacity. unfold deque_wf in Hwf. rewrite append_all_maxlen in Hwf. simpl in Hwf.
  fold capacity in Hwf. rewrite Hit in Hwf. simpl in Hwf.
  repeat split; try reflexivity; try exact Hwf.
  intros <-. apply inj_le. exact Hwf.
Qed.
End ImportExport.

(** ** The durable store *)

Section StoreClaims.
Context {F : Type} `{PyFloat F} (env : Env F).

(** The entry [store_conversation] builds from the dict it is given. *)
Definition entry_of (d : EntryDict.t F) : ConversationEntry.t F :=
  ConversationEntry.mk
    (EntryDict.session_id d) (EntryDict.timestamp d) (EntryDict.user_message d)
    (EntryDict.agent_response d) (EntryDict.agent_used d)
    (default [] (EntryDict.tools_used d)) (default f0 (EntryDict.confidence d))
    (default f0 (EntryDict.routing_confidence d)) (default [] (EntryDict.metadata d)).

(** The row [_update_session_metadata] writes at clock reading [ts]. *)
Definition upserted (rows : gmap string SessionMetadata.t) (session_id : string)
    (ts : Timestamp) : SessionMetadata.t :=
  match rows !! session_id with
  | Some r => SessionMetadata.mk session_id (SessionMetadata.created_at r) ts
                (SessionMetadata.message_count r + 1)%Z
  | None => SessionMetadata.mk session_id ts ts 1%Z
  end.

(** What the claims observe of the world: the two tables and the
    clock. *)
Definition tables (w : World F) :=
  (Store.conversations (store w), Store.session_metadata (store w), ticks w).

Lemma store_in_database_effect (io : IOFaults.t) (e : ConversationEntry.t F) (w : World F) :
  fst (MemoryStorage._store_in_database io e w) = Return tt /\
  tables (snd (MemoryStorage._store_in_database io e w)) =
  (Store.conversations (store w) ++ (if IOFaults.db_insert_fails io then [] else [e]),
   Store.session_metadata (store w), ticks w).
Proof.
  unfold MemoryStorage._store_in_database, tables.
  destruct (IOFaults.db_insert_fails io); simpl; rewrite ?app_nil_r; split; reflexivity.
Qed.

Lemma store_in_session_file_keeps (io : IOFaults.t) (e : ConversationEntry.t F) :
  keeps tables (MemoryStorage._store_in_session_file env io e).
Proof.
  unfold MemoryStorage._store_in_session_file, MemoryStorage.write_file,
    MemoryStorage.update_store, MemoryStorage.os_error.
  repeat keeps_step.
Qed.

Lemma update_session_metadata_effect (io : IOFaults.t) (session_id : string)
    (w : World F) :
  let rows := Store.session_metadata (store w) in
  fst (MemoryStorage._update_session_metadata env io session_id w) = Return tt /\
  tables (snd (MemoryStorage._update_session_metadata env io session_id w)) =
  (Store.conversations (store w),
   match IOFaults.metadata_update io with
   | IOFaults.TxnOk =>
       <[session_id := upserted rows session_id (datetime_now env (ticks w))]> rows
   | _ => rows
   end,
   match IOFaults.metadata_update io with
   | IOFaults.TxnFailsEarly => ticks w
   | _ => S (ticks w)
   end).
Proof.
  unfold MemoryStorage._update_session_metadata, tables, upserted.
  destruct (IOFaults.metadata_update io); simpl; [|split; reflexivity..].
  unfold try_except, bind, gets, now. simpl.
  destruct (Store.session_metadata (store w) !! session_id); split; reflexivity.
Qed.

Lemma store_conversation_effect (io : IOFaults.t) (d : EntryDict.t F) (w : World F) :
  let rows := Store.session_metadata (store w) in
  fst (MemoryStorage.store_conversation env io d w) = Return tt /\
  tables (snd (MemoryStorage.store_conversation env io d w)) =
  (Store.conversations (store w)
     ++ (if IOFaults.db_insert_fails io then [] else [entry_of d]),
   match IOFaults.metadata_update io with
   | IOFaults.TxnOk =>
       <[EntryDict.session_id d :=
           upserted rows (EntryDict.session_id d) (datetime_now env (ticks w))]> rows
   | _ => rows
   end,
   match IOFaults.metadata_update io with
   | IOFaults.TxnFailsEarly => ticks w
   | _ => S (ticks w)
   end).
Proof.
  intros rows. split; [apply try_unit_returns|].
  unfold MemoryStorage.store_conversation. rewrite try_pass_world.
  fold (entry_of d). cbv zeta. unfold bind at 1.
  destruct (store_in_database_effect io (entry_of d) w) as [Hr1 Ht1].
  destruct (MemoryStorage._store_in_database io (entry_of d) w) as [r1 w1].
  simpl in Hr1, Ht1. subst r1. unfold bind at 1.
  pose proof (store_in_session_file_keeps io (entry_of d) w1) as Ht2.
  pose proof (try_unit_returns
    (MemoryStorage._store_in_session_file env io (entry_of d))) as Hr2.
  assert (Hr2' : fst (MemoryStorage._store_in_session_file env io (entry_of d) w1)
                 = Return tt).
  { unfold MemoryStorage._store_in_session_file. apply try_unit_returns. }
  clear Hr2.
  destruct (MemoryStorage._store_in_session_file env io (entry_of d) w1) as [r2 w2].
  simpl in Hr2', Ht2. subst r2.
  destruct (update_session_metadata_effect io (EntryDict.session_id d) w2) as [_ Ht3].
  simpl ConversationEntry.session_id. rewrite Ht3.
  unfold tables in Ht1, Ht2. rewrite Ht1 in Ht2. injection Ht2 as -> -> ->.
  reflexivity.
Qed.
End StoreClaims.

(** ** The rationals as scores *)

Section RationalScores.
Local Open Scope Q_scope.

Definition Qltb (x y : Q) : bool := negb (Qle_bool y x).

(** [f"{x:.2f}"] for a non-negative rational: the nearest hundredth,
    a tie going to the even one. *)
Definition Qfmt2 (x : Q) : string :=
  let scaled := x * 100 in
  let low := Qfloor scaled in
  let rest := scaled - inject_Z low in
  let h := if Qltb (1 # 2) rest then (low + 1)%Z
           else if Qltb rest (1 # 2) then low
           else if Z.even low then low else (low + 1)%Z in
  let cents := (h mod 100)%Z in
  pretty (h / 100)%Z +:+ "." +:+ (if (cents <? 10)%Z then "0" else "") +:+ pretty cents.

Lemma Qltb_false (x y : Q) : Qltb y x = false <-> x <= y.
Proof.
  unfold Qltb. rewrite negb_false_iff. apply Qle_bool_iff.
Qed.

#[export, refine] Instance Q_PyFloat : PyFloat Q := {|
  f0 := 0; f01 := 1 # 10; f03 := 3 # 10; f05 := 1 # 2; f07 := 7 # 10; f1 := 1;
  fadd := Qplus; fmul := Qmult; fltb := Qltb; fmt2 := Qfmt2
|}.
Proof.
  - intros x. apply Qltb_false, Qle_refl.
  - intros x y Hlt. apply Qltb_false. unfold Qltb in Hlt.
    apply negb_true_iff in Hlt. apply Qlt_le_weak, Qnot_le_lt.
    intros Hle. apply Qle_bool_iff in Hle. congruence.
  - intros x y z Hxy Hyz. apply Qltb_false in Hxy, Hyz. apply Qltb_false.
    eapply Qle_trans; eassumption.
  - reflexivity.
  - reflexivity.
  - reflexivity.
  - reflexivity.
  - reflexivity.
  - reflexivity.
  - intros x y Hx Hy. apply Qltb_false in Hx, Hy. apply Qltb_false.
    replace 0 with (0 + 0) by reflexivity. apply Qplus_le_compat; assumption.
  - intros x y Hx Hy. apply Qltb_false in Hx, Hy. apply Qltb_false.
    apply Qmult_le_0_compat; assumption.
  - intros x x' y y' Hx Hy. apply Qltb_false in Hx, Hy. apply Qltb_false.
    apply Qplus_le_compat; assumption.
  - intros x c Hx Hx1 Hc. apply Qltb_false in Hx, Hx1, Hc. apply Qltb_false.
    rewrite <- (Qmult_1_l c) at 2. apply Qmult_le_compat_r; assumption.
Defined.
End RationalScores.


(** ** The index and the session metadata *)

Section IndexInvariant.
Context {F : Type} `{PyFloat F} (env : Env F).

(** The rows of the index for one session. *)
Definition entries_of (s : Store.t F) (session_id : string) : list (ConversationEntry.t F) :=
  filter (fun e => ConversationEntry.session_id e = session_id) (Store.conversations s).

(** Every entry of the index has a metadata row for its session that
    counts at least the session's entries and whose last activity is
    not before the entry's timestamp. *)
Definition index_invariant (s : Store.t F) : Prop :=
  forall e, e ∈ Store.conversations s ->
    exists row,
      Store.session_metadata s !! ConversationEntry.session_id e = Some row /\
      (Z.of_nat (length (entries_of s (ConversationEntry.session_id e)))
       <= SessionMetadata.message_count row)%Z /\
      String.le (ConversationEntry.timestamp e) (SessionMetadata.last_activity row).

(** One persist operation: the coordinator of a session stores an
    exchange while the database and the file system behave as [io]. *)
Record Persist := {
  by_coordinator : Coordinator.t F;
  io : IOFaults.t;
  message : string;
  response : AgentResponse.t F;
  routing_decision : RoutingDecision.t F
}.

Definition persist (op : Persist) : M unit :=
  Coordinator._store_conversation env (io op) (by_coordinator op) (message op)
    (response op) (routing_decision op).

Definition clock_monotone : Prop :=
  forall i j, i <= j -> String.le (datetime_now env i) (datetime_now env j).

(** The metadata update of [op] succeeds whenever its insert into the
    index does. *)
Definition metadata_follows_insert (op : Persist) : Prop :=
  IOFaults.db_insert_fails (io op) = false ->
  IOFaults.metadata_update (io op) = IOFaults.TxnOk.

Definition persisted_entry (op : Persist) (ts : Timestamp) : ConversationEntry.t F :=
  ConversationEntry.mk (Coordinator.session_id (by_coordinator op)) ts (message op)
    (AgentResponse.content (response op)) (AgentResponse.agent_name (response op))
    (AgentResponse.tools_used (response op)) (AgentResponse.confidence (response op))
    (RoutingDecision.confidence (routing_decision op))
    (AgentResponse.metadata (response op)).

Lemma persist_effect (op : Persist) (w : World F) :
  let rows := Store.session_metadata (store w) in
  let sid := Coordinator.session_id (by_coordinator op) in
  fst (persist op w) = Return tt /\
  tables (snd (persist op w)) =
  (Store.conversations (store w)
     ++ (if IOFaults.db_insert_fails (io op) then []
         else [persisted_entry op (datetime_now env (ticks w))]),
   match IOFaults.metadata_update (io op) with
   | IOFaults.TxnOk => <[sid := upserted rows sid (datetime_now env (S (ticks w)))]> rows
   | _ => rows
   end,
   match IOFaults.metadata_update (io op) with
   | IOFaults.TxnFailsEarly => S (ticks w)
   | _ => S (S (ticks w))
   end).
Proof.
  intros rows sid. split; [apply try_unit_returns|].
  unfold persist, Coordinator._store_conversation. rewrite try_pass_world.
  unfold bind at 1, now at 1. cbv beta iota.
  match goal with
  | |- context [MemoryStorage.store_conversation env ?i ?d ?w1] =>
      destruct (store_conversation_effect env i d w1) as [_ He]
  end.
  rewrite He. reflexivity.
Qed.

(** No entry of the index is stamped later than a present or future
    reading of the clock. *)
Definition not_from_the_future (w : World F) : Prop :=
  forall e, e ∈ Store.conversations (store w) ->
    forall k, ticks w <= k -> String.le (ConversationEntry.timestamp e) (datetime_now env k).

(** The invariant that a persist operation preserves: every entry has
    a row that is not older than it, every row counts at least its
    session's entries, and no entry is from the future. *)
Definition persist_invariant (w : World F) : Prop :=
  (forall e, e ∈ Store.conversations (store w) ->
     exists row,
       Store.session_metadata (store w) !! ConversationEntry.session_id e = Some row /\
       String.le (ConversationEntry.timestamp e) (SessionMetadata.last_activity row)) /\
  (forall sid row,
     Store.session_metadata (store w) !! sid = Some row ->
     (Z.of_nat (length (entries_of (store w) sid)) <= SessionMetadata.message_count row)%Z) /\
  not_from_the_future w.

Lemma persist_invariant_index (w : World F) :
  persist_invariant w -> index_invariant (store w).
Proof.
  intros (HA & HB & _) e He. destruct (HA e He) as (row & Hrow & Hts).
  exists row. repeat split; auto.
Qed.

Lemma persist_preserves (op : Persist) (w : World F) :
  clock_monotone -> metadata_follows_insert op ->
  persist_invariant w -> persist_invariant (snd (persist op w)).
Proof.
  intros Hclock Hop (HA & HB & HC).
  destruct (persist_effect op w) as [_ He]. unfold tables in He.
  unfold persist_invariant, not_from_the_future, entries_of.
  remember (snd (persist op w)) as w' eqn:Ew. clear Ew.
  injection He as Hconv Hrows Hticks. rewrite Hconv, Hrows. clear Hconv Hrows.
  set (sid := Coordinator.session_id (by_coordinator op)) in *.
  set (e0 := persisted_entry op (datetime_now env (ticks w))) in *.
  assert (Hticks' : ticks w <= ticks w')
    by (rewrite Hticks; destruct (IOFaults.metadata_update (io op)); lia).
  clear Hticks.
  assert (He0 : forall k, ticks w <= k ->
                  String.le (ConversationEntry.timestamp e0) (datetime_now env k))
    by (intros k Hk; apply Hclock, Hk).
  assert (HC' : forall e,
            e ∈ Store.conversations (store w)
                ++ (if IOFaults.db_insert_fails (io op) then [] else [e0]) ->
            forall k, ticks w <= k ->
              String.le (ConversationEntry.timestamp e) (datetime_now env k)).
  { intros e He k Hk. apply elem_of_app in He as [He|He]; [apply (HC e He k Hk)|].
    destruct (IOFaults.db_insert_fails (io op)); [inversion He|].
    apply list_elem_of_singleton in He. subst e. apply He0, Hk. }
  unfold metadata_follows_insert in Hop.
  destruct (IOFaults.metadata_update (io op)) eqn:Emu.
  - (* the metadata row is written *)
    repeat split.
    + intros e He.
      destruct (decide (ConversationEntry.session_id e = sid)) as [Hsid|Hsid].
      * rewrite Hsid, lookup_insert_eq. eexists. split; [reflexivity|].
        assert (Hla : SessionMetadata.last_activity
                        (upserted (Store.session_metadata (store w)) sid
                           (datetime_now env (S (ticks w))))
                      = datetime_now env (S (ticks w)))
          by (unfold upserted; destruct (_ !! sid); reflexivity).
        rewrite Hla. apply (HC' e He). lia.
      * rewrite lookup_insert_ne by congruence.
        apply elem_of_app in He as [He|He]; [apply (HA e He)|].
        destruct (IOFaults.db_insert_fails (io op)); [inversion He|].
        apply list_elem_of_singleton in He. subst e. contradiction.
    + intros sid' row'. rewrite filter_app, length_app.
      destruct (decide (sid' = sid)) as [->|Hsid].
      * rewrite lookup_insert_eq. intros [= <-].
        assert (Hnew : length (filter (fun e1 : ConversationEntry.t F =>
                                         ConversationEntry.session_id e1 = sid)
                                 (if IOFaults.db_insert_fails (io op) then [] else [e0]))
                       <= 1).
        { destruct (IOFaults.db_insert_fails (io op)); simpl; [lia|].
          rewrite filter_cons. destruct (decide _); simpl; lia. }
        unfold upserted.
        destruct (Store.session_metadata (store w) !! sid) as [r|] eqn:Er; simpl.
        -- specialize (HB sid r Er). unfold entries_of in HB. lia.
        -- assert (Hnone : filter (fun e1 : ConversationEntry.t F =>
                                     ConversationEntry.session_id e1 = sid)
                             (Store.conversations (store w)) = []).
           { destruct (filter (fun e1 : ConversationEntry.t F =>
                                 ConversationEntry.session_id e1 = sid)
                         (Store.conversations (store w))) as [|e1 l1] eqn:Ef;
               [reflexivity|].
             assert (Hin : e1 ∈ filter (fun e1 : ConversationEntry.t F =>
                              ConversationEntry.session_id e1 = sid)
                              (Store.conversations (store w))) by (rewrite Ef; left).
             apply list_elem_of_filter in Hin as [Hs1 He1].
             destruct (HA e1 He1) as (row & Hrow & _).
             rewrite Hs1, Er in Hrow. discriminate. }
           rewrite Hnone. simpl. lia.
      * rewrite lookup_insert_ne by congruence. intros Hrow.
        specialize (HB sid' row' Hrow). unfold entries_of in HB.
        assert (Hnone : filter (fun e1 : ConversationEntry.t F =>
                                  ConversationEntry.session_id e1 = sid')
                          (if IOFaults.db_insert_fails (io op) then [] else [e0]) = []).
        { destruct (IOFaults.db_insert_fails (io op)); [reflexivity|].
          rewrite filter_cons. destruct (decide _) as [Heq|]; [|reflexivity].
          exfalso. apply Hsid. symmetry. exact Heq. }
        rewrite Hnone. simpl. lia.
    + intros e He k Hk. apply (HC' e He). lia.
  - assert (Hf : IOFaults.db_insert_fails (io op) = true)
      by (destruct (IOFaults.db_insert_fails (io op)); [reflexivity|];
          specialize (Hop eq_refl); discriminate).
    rewrite Hf in *. rewrite app_nil_r. repeat split; auto.
    intros e He k Hk. apply (HC e He). lia.
  - assert (Hf : IOFaults.db_insert_fails (io op) = true)
      by (destruct (IOFaults.db_insert_fails (io op)); [reflexivity|];
          specialize (Hop eq_refl); discriminate).
    rewrite Hf in *. rewrite app_nil_r. repeat split; auto.
    intros e He k Hk. apply (HC e He). lia.
Qed.

Lemma persists_preserve (ops : list Persist) (w : World F) :
  clock_monotone -> Forall metadata_follows_insert ops ->
  persist_invariant w -> persist_invariant (snd (for_each ops persist w)).
Proof.
  intros Hclock Hops. revert w.
  induction Hops as [|op ops Hop Hops IH]; intros w Hinv; simpl; [exact Hinv|].
  unfold bind. pose proof (persist_preserves op w Hclock Hop Hinv) as Hstep.
  destruct (persist_effect op w) as [Hr _].
  destruct (persist op w) as [r w1]. simpl in Hr, Hstep. subst r.
  apply IH, Hstep.
Qed.

(** C4, as the code has it.  With a clock that never goes backwards,
    after any sequence of persist operations on an empty store in which
    the metadata update succeeds whenever the insert into the index
    does (failed inserts and failed session-file writes are allowed),
    every entry of the index has a metadata row for its session whose
    [message_count] is at least the number of index entries of the
    session and whose [last_activity] is not before the entry's
    timestamp. *)
Theorem index_invariant_after_persists (ops : list Persist) (w : World F) :
  clock_monotone ->
  store w = Store.empty ->
  Forall metadata_follows_insert ops ->
  index_invariant (store (snd (for_each ops persist w))).
Proof.
  intros Hclock Hempty Hops. apply persist_invariant_index, persists_preserve; auto.
  unfold persist_invariant, not_from_the_future, entries_of. rewrite Hempty. simpl.
  repeat split.
  - intros e He. inversion He.
  - intros sid row Hrow. rewrite lookup_empty in Hrow. discriminate.
  - intros e He. inversion He.
Qed.
End IndexInvariant.

(** ** Routing *)

Section Routing.
Context {F : Type} `{PyFloat F}.

Lemma fle_refl (x : F) : fle x x.
Proof. apply flt_irrefl. Qed.

Lemma f0_le_f1 : fle (f0 (F:=F)) f1.
Proof. eapply fle_trans; [apply f0_le_f05|apply f05_le_f1]. Qed.

Lemma fle_total (x y : F) : fle x y \/ fle y x.
Proof.
  destruct (fltb x y) eqn:E; [left; apply flt_asym, E|right; exact E].
Qed.

(** *** The descending sort *)

Lemma insert_desc_elem (x y : string * F) (l : list (string * F)) :
  y ∈ Router.insert_desc x l <-> y = x \/ y ∈ l.
Proof.
  induction l as [|h t IH]; simpl.
  - rewrite list_elem_of_singleton. split; [auto|intros [?|Hn]; [auto|inversion Hn]].
  - destruct (fltb (snd x) (snd h)).
    + rewrite !elem_of_cons, IH. tauto.
    + rewrite !elem_of_cons. tauto.
Qed.

Lemma sorted_desc_elem (y : string * F) (l : list (string * F)) :
  y ∈ Router.sorted_desc l <-> y ∈ l.
Proof.
  induction l as [|h t IH]; simpl; [reflexivity|].
  rewrite insert_desc_elem, elem_of_cons, IH. reflexivity.
Qed.

(** The first item of the sorted list has the largest score. *)
Lemma sorted_desc_head (l : list (string * F)) (x : string * F) rest :
  Router.sorted_desc l = x :: rest ->
  x ∈ l /\ forall y, y ∈ l -> fle (snd y) (snd x).
Proof.
  revert x rest. induction l as [|a l IH]; intros x rest; simpl; [discriminate|].
  destruct (Router.sorted_desc l) as [|h t] eqn:Es; simpl.
  - intros [= <- <-]. split; [left|].
    intros y Hy. apply elem_of_cons in Hy as [->|Hy]; [apply fle_refl|].
    apply sorted_desc_elem in Hy. rewrite Es in Hy. inversion Hy.
  - destruct (IH h t eq_refl) as [Hh Hmax].
    destruct (fltb (snd a) (snd h)) eqn:Elt.
    + intros [= <- <-]. split; [right; exact Hh|].
      intros y Hy. apply elem_of_cons in Hy as [->|Hy]; [apply flt_asym, Elt|auto].
    + intros [= <- <-]. split; [left|].
      intros y Hy. apply elem_of_cons in Hy as [->|Hy]; [apply fle_refl|].
      eapply fle_trans; [apply Hmax, Hy|exact Elt].
Qed.

Lemma sorted_desc_nil (l : list (string * F)) : Router.sorted_desc l = [] -> l = [].
Proof.
  destruct l as [|a l]; [reflexivity|]. simpl.
  destruct (Router.sorted_desc l); simpl; [discriminate|].
  destruct (fltb _ _); discriminate.
Qed.

(** *** The scores *)

(** The score of the agent registered as [name]: what its scorer
    returns, [0.0] when it raises. *)
Definition agent_score (self : Router.t F) (message : string)
    (context : option (Dict (PyVal F))) (name : string) : F :=
  match Router.get_agent self name with
  | Some agent => match Agent.can_handle agent message context with
                  | Return score => score
                  | Raise _ => f0
                  end
  | None => f0
  end.

(** The number of keywords of [name] found in the lowered message. *)
Definition matched (self : Router.t F) (message name : string) : nat :=
  length (filter (fun keyword => PyStr.contains keyword (PyStr.lower message))
                 (default [] (PyDict.get name (Router.agent_keywords self)))).

(** [0.1] added once per matched keyword, capped at [1.0]. *)
Definition keyword_score (self : Router.t F) (message name : string) : F :=
  fmin (Nat.iter (matched self message name) (fun score => fadd score f01) f0) f1.

Definition combined (self : Router.t F) (message : string)
    (context : option (Dict (PyVal F))) (name : string) : F :=
  fadd (fmul (agent_score self message context name) f07)
       (fmul (keyword_score self message name) f03).

Definition registry : list string := ["research"; "code"; "creative"; "task"].

Lemma keyword_sum_iter (keywords : list string) (message_lower : string) (s0 : F) :
  fold_left (fun score keyword =>
               if PyStr.contains keyword message_lower then fadd score f01 else score)
            keywords s0 =
  Nat.iter (length (filter (fun keyword => PyStr.contains keyword message_lower) keywords))
           (fun score => fadd score f01) s0.
Proof.
  revert s0. induction keywords as [|k ks IH]; intros s0; simpl; [reflexivity|].
  rewrite filter_cons. case_decide as Hc.
  - apply Is_true_true in Hc. rewrite Hc, IH. simpl.
    exact (Nat.iter_swap _ F (fun score : F => fadd score f01) s0).
  - apply Is_true_false in Hc. rewrite Hc. apply IH.
Qed.

Section Fixed.
Context (research code creative task : Agent.t F).
Let router := Router.__init__ research code creative task.

Lemma combined_scores_init message context :
  Router.combined_scores router message context =
  map (fun name => (name, combined router message context name)) registry.
Proof.
  unfold Router.combined_scores, combined, keyword_score, agent_score, matched.
  unfold Router._calculate_keyword_scores, Router.agent_scores, router, Router.__init__.
  cbn [Router.agents Router.agent_keywords fold_left fst snd PyDict.keys map registry].
  rewrite <- !keyword_sum_iter.
  reflexivity.
Qed.

(** The fallback selector, by linguistic cues: a question word, a
    creation verb, an organisation verb, else the first of the
    fallback order. *)
Definition fallback_name (message : string) : string :=
  let message_lower := PyStr.lower message in
  if PyStr.any_in ["what"; "how"; "why"; "explain"] message_lower then "research"
  else if PyStr.any_in ["create"; "write"; "generate"] message_lower then "creative"
  else if PyStr.any_in ["plan"; "organize"; "schedule"] message_lower then "task"
  else "research".

Lemma get_fallback_agent_init message :
  Router._get_fallback_agent router message = Return (fallback_name message).
Proof.
  unfold Router._get_fallback_agent, fallback_name. cbv zeta.
  repeat destruct (PyStr.any_in _ _); reflexivity.
Qed.

Lemma fallback_registered message :
  Router.has_agent router (fallback_name message) = true.
Proof. unfold fallback_name. cbv zeta. repeat destruct (PyStr.any_in _ _); reflexivity. Qed.

Lemma registry_registered name :
  name ∈ registry -> Router.has_agent router name = true.
Proof.
  unfold registry. rewrite !elem_of_cons.
  intros [->|[->|[->|[->|Hn]]]]; [reflexivity..|inversion Hn].
Qed.

(** [preferred_agent] names no registered agent. *)
Definition no_registered_preference (preferred_agent : option string) : Prop :=
  match preferred_agent with
  | Some p => PyStr.truthy p && Router.has_agent router p = false
  | None => True
  end.

(** Routing by score: the decision for a message without a registered
    preferred agent. *)
Lemma route_by_score message context preferred_agent :
  no_registered_preference preferred_agent ->
  exists top alternatives,
    top ∈ registry /\
    (forall name, name ∈ registry ->
       fle (combined router message context name) (combined router message context top)) /\
    Router.route_message router message context preferred_agent =
    Return
      (if fltb (combined router message context top) f01
       then RoutingDecision.mk (fallback_name message) f05
              ("No agent showed strong confidence, using fallback: "
               +:+ fallback_name message)
              (Some alternatives)
       else RoutingDecision.mk top (combined router message context top)
              ("Selected based on highest confidence score: "
               +:+ fmt2 (combined router message context top))
              (Some alternatives)).
Proof.
  intros Hpref. unfold Router.route_message.
  assert (Hnone : match preferred_agent with
                  | Some p => if PyStr.truthy p && Router.has_agent router p
                              then Some p else None
                  | None => None
                  end = None).
  { destruct preferred_agent as [p|]; [|reflexivity]. simpl in Hpref.
    rewrite Hpref. reflexivity. }
  rewrite Hnone. cbv zeta. rewrite get_fallback_agent_init, combined_scores_init.
  destruct (Router.sorted_desc _) as [|[n s] rest] eqn:Es.
  - apply sorted_desc_nil in Es. discriminate.
  - destruct (sorted_desc_head _ _ _ Es) as [Hin Hmax].
    apply list_elem_of_fmap in Hin as (top & Heq & Htop).
    injection Heq as -> ->.
    exists top. eexists. split; [exact Htop|]. split.
    + intros name Hname.
      apply (Hmax (name, combined router message context name)).
      apply list_elem_of_fmap. exists name. auto.
    + destruct (fltb (combined router message context top) f01); reflexivity.
Qed.

(** *** Ranges *)

Definition scores_in_range (message : string) (context : option (Dict (PyVal F))) : Prop :=
  forall agent, agent ∈ [research; code; creative; task] ->
    forall score, Agent.can_handle agent message context = Return score ->
      fle f0 score /\ fle score f1.

Lemma agent_score_range message context name :
  scores_in_range message context ->
  fle f0 (agent_score router message context name) /\
  fle (agent_score router message context name) f1.
Proof.
  intros Hrange. unfold agent_score, Router.get_agent, router, Router.__init__.
  cbn [Router.agents PyDict.get].
  assert (Hz : fle (f0 (F:=F)) f0 /\ fle (f0 (F:=F)) f1)
    by (split; [apply fle_refl|apply f0_le_f1]).
  repeat match goal with
         | |- context [if String.eqb name ?k then _ else _] =>
             destruct (String.eqb name k)
         end;
    try exact Hz;
    match goal with
    | |- context [Agent.can_handle ?a message context] =>
        destruct (Agent.can_handle a message context) as [score|e] eqn:Ec;
          [apply (Hrange a); [|exact Ec]|exact Hz]
    end;
    rewrite !elem_of_cons; tauto.
Qed.

Lemma keyword_score_range message name :
  fle f0 (keyword_score router message name) /\
  fle (keyword_score router message name) f1.
Proof.
  unfold keyword_score, fmin.
  assert (Hacc : forall n, fle f0 (Nat.iter n (fun score : F => fadd score f01) f0)).
  { induction n as [|n IH]; simpl; [apply fle_refl|].
    apply fadd_nonneg; [exact IH|apply f0_le_f01]. }
  specialize (Hacc (matched router message name)).
  destruct (fltb f1 _) eqn:E.
  - split; [apply f0_le_f1|apply fle_refl].
  - split; [exact Hacc|exact E].
Qed.

Lemma combined_range message context name :
  scores_in_range message context ->
  fle f0 (combined router message context name) /\
  fle (combined router message context name) f1.
Proof.
  intros Hrange. unfold combined.
  destruct (agent_score_range message context name Hrange) as [Ha0 Ha1].
  destruct (keyword_score_range message name) as [Hk0 Hk1].
  split.
  - apply fadd_nonneg; apply fmul_nonneg; auto using f0_le_f07, f0_le_f03.
  - eapply fle_trans; [|apply f07_f03_le_f1].
    apply fadd_mono; apply fmul_le_r; auto using f0_le_f07, f0_le_f03.
Qed.

(** C7. Whatever the message, the context and the preferred agent,
    and whichever scorers raise, [route_message] returns a decision;
    when every scorer that returns gives a value in [0,1], the
    decision's confidence is in [0,1] and its agent is registered; a
    scorer that raises counts for [0.0]. *)
Theorem route_confidence_and_agent message context preferred_agent :
  scores_in_range message context ->
  (exists decision,
     Router.route_message router message context preferred_agent = Return decision /\
     fle f0 (RoutingDecision.confidence decision) /\
     fle (RoutingDecision.confidence decision) f1 /\
     Router.has_agent router (RoutingDecision.agent_name decision) = true) /\
  (forall name agent e,
     Router.get_agent router name = Some agent ->
     Agent.can_handle agent message context = Raise e ->
     PyDict.get name (Router.agent_scores router message context) = Some f0).
Proof.
  intros Hrange. split.
  - destruct preferred_agent as [p|].
    + destruct (PyStr.truthy p && Router.has_agent router p) eqn:Ep.
      * unfold Router.route_message. rewrite Ep. eexists. split; [reflexivity|].
        simpl. apply andb_true_iff in Ep as [_ Hp].
        repeat split; [apply f0_le_f1|apply fle_refl|exact Hp].
      * destruct (route_by_score message context (Some p) Ep)
          as (top & alts & Htop & _ & ->).
        eexists. split; [reflexivity|].
        destruct (combined_range message context top Hrange) as [H0 H1].
        destruct (fltb (combined router message context top) f01); simpl;
          repeat split; auto using f0_le_f05, f05_le_f1, fallback_registered,
                                   registry_registered.
    + destruct (route_by_score message context None I)
        as (top & alts & Htop & _ & ->).
      eexists. split; [reflexivity|].
      destruct (combined_range message context top Hrange) as [H0 H1].
      destruct (fltb (combined router message context top) f01); simpl;
        repeat split; auto using f0_le_f05, f05_le_f1, fallback_registered,
                                 registry_registered.
  - intros name agent e. unfold Router.get_agent, Router.agent_scores, router,
      Router.__init__.
    simpl.
    repeat match goal with
           | |- context [if String.eqb name ?k then _ else _] =>
               destruct (String.eqb name k) eqn:?
           end; try discriminate;
      intros [= ->] ->; reflexivity.
Qed.

(** C8. For a message without a registered preferred agent the router
    scores each agent by [0.7 * agent_score + 0.3 * keyword_score],
    the keyword score being [0.1] added once per matched keyword and
    capped at [1.0]; an agent [top] with the largest combined score
    is found, and the decision is that agent with that score as
    confidence, unless the score is below [0.1]: then it is the agent
    the linguistic cues select, with confidence exactly [0.5] and a
    reasoning that says the fallback was used. *)
Theorem route_combines_and_falls_back message context preferred_agent :
  no_registered_preference preferred_agent ->
  Router.combined_scores router message context =
    map (fun name =>
           (name, fadd (fmul (agent_score router message context name) f07)
                       (fmul (keyword_score router message name) f03)))
        registry /\
  exists top decision,
    Router.route_message router message context preferred_agent = Return decision /\
    top ∈ registry /\
    (forall name, name ∈ registry ->
       fle (combined router message context name) (combined router message context top)) /\
    (fltb (combined router message context top) f01 = false ->
       RoutingDecision.agent_name decision = top /\
       RoutingDecision.confidence decision = combined router message context top) /\
    (fltb (combined router message context top) f01 = true ->
       Router._get_fallback_agent router message = Return (fallback_name message) /\
       RoutingDecision.agent_name decision = fallback_name message /\
       RoutingDecision.confidence decision = f05 /\
       RoutingDecision.reasoning decision =
         "No agent showed strong confidence, using fallback: "
         +:+ fallback_name message).
Proof.
  intros Hpref. split; [apply combined_scores_init|].
  destruct (route_by_score message context preferred_agent Hpref)
    as (top & alts & Htop & Hmax & Hroute).
  exists top. eexists. split; [exact Hroute|].
  split; [exact Htop|]. split; [exact Hmax|].
  split; intros ->; [split; reflexivity|].
  split; [apply get_fallback_agent_init|]. repeat split; reflexivity.
Qed.
End Fixed.
End Routing.

(** ** Collaboration *)

Section Collaboration.
Context {F : Type} `{PyFloat F} (env : Env F).

Definition unbound_all_tools_used : exn :=
  Exc "UnboundLocalError"
      "cannot access local variable 'all_tools_used' where it is not associated with a value".

(** The response the [except] branch of the synthesis is written to
    return. *)
Definition manual_synthesis (collaboration_results : Dict (AgentResponse.t F))
    : AgentResponse.t F :=
  AgentResponse.mk
    (Coordinator.combined_content collaboration_results) "coordinator"
    (list_set (concat (map AgentResponse.tools_used (PyDict.values collaboration_results))))
    f07 (Some "Multi-agent collaboration with manual synthesis")
    [ ("collaboration_synthesis", VBool true);
      ("agents_involved", Coordinator.agents_involved collaboration_results) ].

(** C2, on the code.  When the primary agent's call on the synthesis
    prompt raises, [_synthesize_collaboration_results] does not return
    the manual synthesis: reading [all_tools_used], which the [try]
    block assigns only after that call, raises [UnboundLocalError], and
    this exception leaves the method. *)
Theorem synthesis_failure_raises_unbound_local (original_message : string)
    (collaboration_results : Dict (AgentResponse.t F))
    (primary_agent : option (Agent.t F)) (w : World F) (e : exn) :
  fst (Coordinator.call_agent primary_agent
         (Coordinator.synthesis_prompt env original_message collaboration_results)
         None w) = Raise e ->
  fst (Coordinator._synthesize_collaboration_results env original_message
         collaboration_results primary_agent w) = Raise unbound_all_tools_used /\
  fst (Coordinator._synthesize_collaboration_results env original_message
         collaboration_results primary_agent w)
  <> Return (manual_synthesis collaboration_results).
Proof.
  intros Hcall.
  assert (Hr : fst (Coordinator._synthesize_collaboration_results env original_message
                      collaboration_results primary_agent w)
               = Raise unbound_all_tools_used).
  { unfold Coordinator._synthesize_collaboration_results.
    cbv zeta. unfold try_except, bind at 1.
    destruct (Coordinator.call_agent primary_agent _ None w) as [[r|e'] w1];
      simpl in Hcall; [discriminate|reflexivity]. }
  split; [exact Hr|]. rewrite Hr. discriminate.
Qed.

(** *** The loop over the steps *)

(** A raise in the loop ends it: the steps after the failing one are
    not run. *)
Lemma execute_steps_raise_app (self : Coordinator.t F) pre post context results
    (w : World F) e w1 :
  Coordinator.execute_steps self pre context results w = (Raise e, w1) ->
  Coordinator.execute_steps self (pre ++ post) context results w = (Raise e, w1).
Proof.
  revert results w. induction pre as [|s pre IH]; intros results w; simpl.
  - unfold ret. discriminate.
  - destruct (PyStr.truthy (Step.agent s) && PyStr.truthy (Step.task s)); [|apply IH].
    destruct (Router.get_agent (Coordinator.router self) (Step.agent s)) as [a|];
      [|apply IH].
    unfold bind, Coordinator.call_agent.
    destruct (Agent.process_message a (trace w) (Step.task s) context) as [r|e'];
      [apply IH|auto].
Qed.

Lemma execute_steps_return_app (self : Coordinator.t F) pre post context results
    (w : World F) results1 w1 :
  Coordinator.execute_steps self pre context results w = (Return results1, w1) ->
  Coordinator.execute_steps self (pre ++ post) context results w =
  Coordinator.execute_steps self post context results1 w1.
Proof.
  revert results w. induction pre as [|s pre IH]; intros results w; simpl.
  - unfold ret. intros [= -> ->]. reflexivity.
  - destruct (PyStr.truthy (Step.agent s) && PyStr.truthy (Step.task s)); [|apply IH].
    destruct (Router.get_agent (Coordinator.router self) (Step.agent s)) as [a|];
      [|apply IH].
    unfold bind, Coordinator.call_agent.
    destruct (Agent.process_message a (trace w) (Step.task s) context) as [r|e'];
      [apply IH|discriminate].
Qed.

(** The plan [_handle_collaboration] builds and runs. *)
Definition plan_of (message : string) (primary_routing : RoutingDecision.t F) : Plan.t :=
  Coordinator._create_collaboration_plan message
    (RoutingDecision.agent_name primary_routing)
    (Coordinator._identify_secondary_agents message
       (RoutingDecision.agent_name primary_routing)).

(** C1, as the code has it.  In the loop over the steps of any plan, a
    step whose agent is not registered is passed over and the loop goes
    on; when the invocation of a step's agent raises, the loop ends
    there: the invocation is in the trace, no later step is run, and
    the exception leaves the loop.  [_handle_collaboration] then makes
    no synthesis: it answers with the primary agent's processing of the
    original message, in the world the failed step left. *)
Theorem step_failure_falls_back_to_primary (self : Coordinator.t F) :
  (forall (s : Step.t) rest context results (w : World F),
     Router.get_agent (Coordinator.router self) (Step.agent s) = None ->
     Coordinator.execute_steps self (s :: rest) context results w =
     Coordinator.execute_steps self rest context results w) /\
  (forall pre (s : Step.t) post context results (w : World F) results1 w1 agent e,
     Coordinator.execute_steps self pre context results w = (Return results1, w1) ->
     PyStr.truthy (Step.agent s) && PyStr.truthy (Step.task s) = true ->
     Router.get_agent (Coordinator.router self) (Step.agent s) = Some agent ->
     Agent.process_message agent (trace w1) (Step.task s) context = Raise e ->
     Coordinator.execute_steps self (pre ++ s :: post) context results w =
     (Raise e,
      with_trace (trace w1 ++ [Call.mk (Agent.name agent) (Step.task s) context]) w1)) /\
  (forall message primary_routing context (w : World F) e w1,
     Coordinator.execute_steps self (Plan.steps (plan_of message primary_routing))
       context [] w = (Raise e, w1) ->
     Coordinator._handle_collaboration env self message primary_routing context w =
     Coordinator.call_agent
       (Router.get_agent (Coordinator.router self)
          (RoutingDecision.agent_name primary_routing))
       message context w1).
Proof.
  split; [|split].
  - intros s rest context results w Hnone. simpl. rewrite Hnone.
    destruct (_ && _); reflexivity.
  - intros pre s post context results w results1 w1 agent e Hpre Htruthy Hagent Hraise.
    rewrite (execute_steps_return_app _ _ _ _ _ _ _ _ Hpre). simpl.
    rewrite Htruthy, Hagent. unfold bind, Coordinator.call_agent.
    rewrite Hraise. reflexivity.
  - intros message primary_routing context w e w1 Hloop.
    unfold Coordinator._handle_collaboration, try_except. cbv zeta.
    unfold bind at 1. fold (plan_of message primary_routing). rewrite Hloop.
    reflexivity.
Qed.
End Collaboration.

(** ** The serving path and the store *)

Section Serving.
Context {F : Type} `{PyFloat F} (env : Env F).

(** The agent pipeline of [process_message]: routing, the collaboration
    gate, and the answer of the routed agent or of the collaboration.
    It is the part of the [try] block that precedes the store. *)
Definition agent_pipeline (self : Coordinator.t F) (message : string)
    (preferred_agent : option string) (context : option (Dict (PyVal F)))
    : M (RoutingDecision.t F * AgentResponse.t F) :=
  routing_decision <-
    lift (Router.route_message (Coordinator.router self) message context preferred_agent) ;;
  let agent := Router.get_agent (Coordinator.router self)
                 (RoutingDecision.agent_name routing_decision) in
  match agent with
  | None =>
      raise (Exc "Exception"
               ("Agent " +:+ RoutingDecision.agent_name routing_decision
                +:+ " not available"))
  | Some _ =>
      response <-
        (if Coordinator._check_collaboration_need message context
         then Coordinator._handle_collaboration env self message routing_decision context
         else Coordinator.call_agent agent message context) ;;
      ret (routing_decision, response)
  end.

Lemma store_conversation_returns io (self : Coordinator.t F) message response routing
    (w : World F) :
  fst (Coordinator._store_conversation env io self message response routing w) = Return tt.
Proof. apply try_unit_returns. Qed.

(** C3. Whatever the database and the file system do during the store
    ([io]), [process_message] returns a response and raises nothing;
    when the agent pipeline produced a response, the content, the agent
    and the confidence returned are the pipeline's, and when it raised,
    the response is the coordinator's error response: in both cases the
    same response as with a store that works. *)
Theorem store_failures_never_reach_the_caller (io : IOFaults.t) (self : Coordinator.t F)
    (message : string) (preferred_agent : option string)
    (context : option (Dict (PyVal F))) (w : World F) :
  let started := with_ticks (S (ticks w)) w in
  let timestamp := datetime_now env (ticks w) in
  exists answer,
    fst (Coordinator.process_message env io self message preferred_agent context w)
      = Return answer /\
    fst (Coordinator.process_message env IOFaults.none self message preferred_agent
           context w) = Return answer /\
    match fst (agent_pipeline self message preferred_agent context started) with
    | Return (routing_decision, response) =>
        CoordinatorResponse.content answer = AgentResponse.content response /\
        CoordinatorResponse.agent_used answer = AgentResponse.agent_name response /\
        CoordinatorResponse.confidence answer = AgentResponse.confidence response /\
        CoordinatorResponse.tools_used answer = AgentResponse.tools_used response /\
        CoordinatorResponse.session_id answer = Coordinator.session_id self /\
        CoordinatorResponse.timestamp answer = timestamp
    | Raise e => answer = Coordinator.error_response self timestamp e
    end.
Proof.
  intros started timestamp.
  assert (Hgen : forall io0,
    fst (Coordinator.process_message env io0 self message preferred_agent context w) =
    match fst (agent_pipeline self message preferred_agent context started) with
    | Return (routing_decision, response) =>
        Return (CoordinatorResponse.mk
                  (AgentResponse.content response)
                  (AgentResponse.agent_name response)
                  (AgentResponse.tools_used response)
                  (AgentResponse.confidence response)
                  (Coordinator.or_else (AgentResponse.reasoning response)
                     (RoutingDecision.reasoning routing_decision))
                  (PyDict.merge (AgentResponse.metadata response)
                     [ ("routing_decision",
                        VDict [ ("selected_agent",
                                 VStr (RoutingDecision.agent_name routing_decision));
                                ("confidence",
                                 VFloat (RoutingDecision.confidence routing_decision));
                                ("alternatives",
                                 Coordinator.alternatives_value
                                   (RoutingDecision.alternative_agents routing_decision)) ]);
                       ("collaboration_used",
                        VBool (Coordinator._check_collaboration_need message context));
                       ("session_id", VStr (Coordinator.session_id self)) ])
                  (Coordinator.session_id self) timestamp)
    | Raise e => Return (Coordinator.error_response self timestamp e)
    end).
  { intros io0. unfold Coordinator.process_message, agent_pipeline.
    unfold bind at 1, now at 1. cbv beta iota. fold started timestamp.
    unfold try_except, bind at 1, bind at 4, lift.
    destruct (Router.route_message _ _ _ _) as [rd|e]; [|reflexivity].
    cbv beta iota zeta.
    destruct (Router.get_agent _ _) as [agent|]; [|reflexivity].
    unfold bind at 1, bind at 3.
    destruct ((if Coordinator._check_collaboration_need message context
               then Coordinator._handle_collaboration env self message rd context
               else Coordinator.call_agent (Some agent) message context) started)
      as [[response|e] w1]; [|reflexivity].
    unfold bind at 1.
    pose proof (store_conversation_returns io0 self message response rd w1) as Hs.
    destruct (Coordinator._store_conversation env io0 self message response rd w1)
      as [rs w2]. simpl in Hs. subst rs. unfold bind at 1.
    pose proof (add_interaction_returns env (Coordinator.conversation_context self)
                  message (AgentResponse.content response) "conversation" None w2) as Ha.
    destruct (MemoryContext.add_interaction env _ _ _ _ _ w2) as [ra w3].
    simpl in Ha. subst ra. reflexivity. }
  rewrite !Hgen.
  destruct (fst (agent_pipeline self message preferred_agent context started))
    as [[rd response]|e].
  - eexists. repeat split; reflexivity.
  - eexists. repeat split; reflexivity.
Qed.
End Serving.

(** ** Concrete runs *)

(** A process that has just started: no object, no call, an empty store. *)
Definition fresh_world {F : Type} : World F :=
  {| ticks := 0; metas := ∅; lists := ∅; states := ∅; contexts := ∅;
     next_loc := 0; trace := []; store := Store.empty |}.

(** A clock read within one second. *)
Definition steady_clock (k : nat) : Timestamp := "2024-05-01T10:00:00".

Definition env0 : Env Q :=
  {| datetime_now := steady_clock;
     json_dumps := fun _ => "{}";
     settings := Settings.default |}.

(** An agent that scores [0.0] and answers every message. *)
Definition answering (name : string) : Agent.t Q :=
  Agent.mk name
    (fun _ _ => Return 0%Q)
    (fun _ message _ =>
       Return (AgentResponse.mk ("answer to: " +:+ message) name [] (8 # 10)%Q None [])).

(** An agent whose scorer and handler raise. *)
Definition failing (name : string) : Agent.t Q :=
  Agent.mk name
    (fun _ _ => Raise (Exc "RuntimeError" "scorer failed"))
    (fun _ _ _ => Raise (Exc "Exception" "Error calling LLM: timeout")).

Definition router0 : Router.t Q :=
  Router.__init__ (failing "research") (answering "code") (answering "creative")
                  (answering "task").

Definition coordinator0 : Coordinator.t Q := Coordinator.mk router0 "session-1" 3.

Definition to_creative : RoutingDecision.t Q :=
  RoutingDecision.mk "creative" 1%Q "User explicitly requested creative agent" None.

Definition article : string := "research and write an article".

Definition talk (user_message assistant_response : string) : Interaction (F:=Q) :=
  {| said := user_message; answered := assistant_response;
     kind := "conversation"; extra := None |}.

Lemma memory_capacity_recent_witness :
  exists tb tc,
    fst (MemoryContext.get_recent_messages 3 2
           (snd (for_each [talk "A" "a"; talk "B" "b"; talk "C" "c"]
                   (record env0 3)
                   (snd (MemoryContext.__init__ env0 "coordinator" (Some 2%Z) fresh_world)))))
    = Return [ Message.mk "B" "b" tb "coordinator"; Message.mk "C" "c" tc "coordinator" ].
Proof.
  apply (proj2 (memory_capacity_recent env0 "coordinator" (Some 2%Z) fresh_world 3
                  (snd (MemoryContext.__init__ env0 "coordinator" (Some 2%Z) fresh_world))
                  eq_refl) eq_refl).
Defined.

(** The coordinator's memory after three exchanges. *)
Definition after_three : World Q :=
  snd (for_each [talk "A" "a"; talk "B" "b"; talk "C" "c"] (record env0 3)
         (snd (MemoryContext.__init__ env0 "coordinator" (Some 2%Z) fresh_world))).



Definition entry_of_talk (user_message : string) : ContextEntry.t Q :=
ContextEntry.mk "2024-05-01T10:00:00" user_message "ok" "research" "conversation" [].

(** A payload exported by a larger memory: three entries. *)
Definition three_entries : ExportedContext.t Q :=
  ExportedContext.mk (Some "research") None
    (Some (map ContextEntry.asdict
             [entry_of_talk "A"; entry_of_talk "B"; entry_of_talk "C"]))
    None None None None.

Lemma import_context_keeps_capacity_witness :
  Deque.items
    (ConversationContext.recent_memory
       (MemoryContext.attrs (snd (MemoryContext.import_context 3 three_entries after_three)) 3))
  = [entry_of_talk "B"; entry_of_talk "C"].
Proof.
  exact (proj1 (proj2 (proj2 (proj2
           (import_context_keeps_capacity 3 three_entries
              [entry_of_talk "A"; entry_of_talk "B"; entry_of_talk "C"]
              after_three eq_refl))))).
Defined.

Lemma steady_clock_monotone : clock_monotone env0.
Proof. intros i j _. apply (bool_decide_unpack _). vm_compute. exact I. Qed.

Definition reply : AgentResponse.t Q :=
  AgentResponse.mk "Paris." "research" ["web_search"] (8 # 10)%Q None [].

Definition to_research : RoutingDecision.t Q :=
  RoutingDecision.mk "research" (1 # 2)%Q "fallback" (Some []).

(** A store that works, a store whose database is down, and a store whose
    session file cannot be written. *)
Definition persists_with_faults : list (Persist (F:=Q)) :=
  [ {| by_coordinator := coordinator0; io := IOFaults.none;
       message := "what is the capital of France"; response := reply;
       routing_decision := to_research |};
    {| by_coordinator := coordinator0;
       io := IOFaults.mk true false IOFaults.WriteOk IOFaults.TxnFailsLate;
       message := "and of Italy"; response := reply; routing_decision := to_research |};
    {| by_coordinator := coordinator0;
       io := IOFaults.mk false true IOFaults.WriteTorn IOFaults.TxnOk;
       message := "and of Spain"; response := reply; routing_decision := to_research |} ].

Lemma index_invariant_after_persists_witness :
  index_invariant (store (snd (for_each persists_with_faults (persist env0) fresh_world))).
Proof.
  apply (index_invariant_after_persists env0 persists_with_faults fresh_world).
  - exact steady_clock_monotone.
  - reflexivity.
  - repeat constructor; unfold metadata_follows_insert; simpl; congruence.
Defined.

(** The insert into the index succeeds, the metadata update fails. *)
Definition persist_without_metadata : Persist (F:=Q) :=
  {| by_coordinator := coordinator0;
     io := IOFaults.mk false false IOFaults.WriteOk IOFaults.TxnFailsEarly;
     message := "what is the capital of France"; response := reply;
     routing_decision := to_research |}.

(** C4 fails as stated: after one persist whose metadata update fails and
    is swallowed, the index holds an entry of a session that has no
    metadata row. *)
Lemma metadata_failure_breaks_index_invariant :
  ~ index_invariant (store (snd (for_each [persist_without_metadata] (persist env0)
                                   fresh_world))).
Proof.
  intros Hinv.
  assert (Hw : snd (for_each [persist_without_metadata] (persist env0) fresh_world)
               = snd (persist env0 persist_without_metadata fresh_world)).
  { simpl. unfold bind.
    destruct (persist_effect env0 persist_without_metadata fresh_world) as [Hr _].
    destruct (persist env0 persist_without_metadata fresh_world) as [r w1].
    simpl in Hr. subst r. reflexivity. }
  rewrite Hw in Hinv. clear Hw.
  destruct (persist_effect env0 persist_without_metadata fresh_world) as [_ He].
  unfold tables in He. unfold index_invariant in Hinv.
  remember (snd (persist env0 persist_without_metadata fresh_world)) as w1 eqn:Ew. clear Ew.
  injection He as Hc Hm _. simpl in Hc, Hm.
  destruct (Hinv (persisted_entry persist_without_metadata (steady_clock 0)))
    as (row & Hrow & _).
  - rewrite Hc. left.
  - rewrite Hm, lookup_empty in Hrow. discriminate.
Qed.

Lemma scores_in_range0 (message : string) :
  scores_in_range (failing "research") (answering "code") (answering "creative")
                  (answering "task") message None.
Proof.
  intros agent Hin score.
  rewrite !elem_of_cons in Hin.
  destruct Hin as [->|[->|[->|[->|Hn]]]]; [discriminate| | | |inversion Hn];
    intros [= <-]; split; reflexivity.
Qed.

Lemma route_confidence_and_agent_witness :
  exists decision,
    Router.route_message router0 "what is the capital of France" None None
      = Return decision /\
    fle f0 (RoutingDecision.confidence decision) /\
    fle (RoutingDecision.confidence decision) f1 /\
    Router.has_agent router0 (RoutingDecision.agent_name decision) = true.
Proof.
  exact (proj1 (route_confidence_and_agent
                  (failing "research") (answering "code") (answering "creative")
                  (answering "task") "what is the capital of France" None None
                  (scores_in_range0 "what is the capital of France"))).
Defined.

Lemma route_combines_and_falls_back_witness :
  exists top decision,
    Router.route_message router0 "what is the capital of France" None (Some "nobody")
      = Return decision /\
    top ∈ registry /\
    (forall name, name ∈ registry ->
       fle (combined router0 "what is the capital of France" None name)
           (combined router0 "what is the capital of France" None top)) /\
    (fltb (combined router0 "what is the capital of France" None top) f01 = false ->
       RoutingDecision.agent_name decision = top /\
       RoutingDecision.confidence decision
       = combined router0 "what is the capital of France" None top) /\
    (fltb (combined router0 "what is the capital of France" None top) f01 = true ->
       Router._get_fallback_agent router0 "what is the capital of France"
       = Return (fallback_name "what is the capital of France") /\
       RoutingDecision.agent_name decision = fallback_name "what is the capital of France" /\
       RoutingDecision.confidence decision = f05 /\
       RoutingDecision.reasoning decision =
         "No agent showed strong confidence, using fallback: "
         +:+ fallback_name "what is the capital of France").
Proof.
  exact (proj2 (route_combines_and_falls_back
                  (failing "research") (answering "code") (answering "creative")
                  (answering "task") "what is the capital of France" None (Some "nobody")
                  eq_refl)).
Defined.

(** The keyword "what is" alone gives the research agent 0.3 * 0.1: below
    the floor, so the cue "what" selects the fallback. *)
Example route_capital_of_france :
  Router.route_message router0 "what is the capital of France" None None =
  Return (RoutingDecision.mk "research" (1 # 2)%Q
            "No agent showed strong confidence, using fallback: research" (Some [])).
Proof. vm_compute. reflexivity. Qed.

Section SpecifiedCollaboration.
Context {F : Type} `{PyFloat F} (env : Env F).

(** The loop over the steps as the specification words it: a step
    whose agent raises is passed over, its result is absent from the
    results, and the loop goes on with the next step. *)
Fixpoint execute_steps_skipping (self : Coordinator.t F) (steps : list Step.t)
    (context : option (Dict (PyVal F)))
    (collaboration_results : Dict (AgentResponse.t F))
    : M (Dict (AgentResponse.t F)) :=
  match steps with
  | [] => ret collaboration_results
  | step :: rest =>
      if PyStr.truthy (Step.agent step) && PyStr.truthy (Step.task step) then
        match Router.get_agent (Coordinator.router self) (Step.agent step) with
        | Some agent =>
            results <-
              try_except
                (step_result <- Coordinator.call_agent (Some agent) (Step.task step) context ;;
                 ret (PyDict.set (Step.agent step) step_result collaboration_results))
                (fun _ => ret collaboration_results) ;;
            execute_steps_skipping self rest context results
        | None => execute_steps_skipping self rest context collaboration_results
        end
      else execute_steps_skipping self rest context collaboration_results
  end.

(** C1 as stated: the loop of the code is the loop that skips a failing
    step, so that no step failure ends the collaboration. *)
Definition failing_steps_are_skipped (self : Coordinator.t F) (steps : list Step.t)
    (context : option (Dict (PyVal F))) (w : World F) : Prop :=
  Coordinator.execute_steps self steps context [] w =
  execute_steps_skipping self steps context [] w.
End SpecifiedCollaboration.

Definition research_step_call : Call.t Q :=
  Call.mk "research" ("Research background information related to: " +:+ article) None.

(** C1 fails as stated.  The message selects the research agent as the
    only secondary agent; its invocation raises.  The loop of the code
    raises where the specified loop goes on to the primary agent's step;
    the primary agent's step and the synthesis are never invoked, the
    trace holds the failed call and then the primary agent's call on the
    original message, whose answer is what [_handle_collaboration]
    returns. *)
Lemma secondary_failure_aborts_collaboration :
  Plan.steps (plan_of article to_creative) =
    [ Step.mk "research" ("Research background information related to: " +:+ article) 1;
      Step.mk "creative"
        ("Synthesize information and provide comprehensive response to: " +:+ article) 2 ] /\
  ~ failing_steps_are_skipped coordinator0 (Plan.steps (plan_of article to_creative))
      None fresh_world /\
  fst (Coordinator.execute_steps coordinator0 (Plan.steps (plan_of article to_creative))
         None [] fresh_world) = Raise (Exc "Exception" "Error calling LLM: timeout") /\
  fst (Coordinator._handle_collaboration env0 coordinator0 article to_creative None
         fresh_world)
    = Return (AgentResponse.mk ("answer to: " +:+ article) "creative" [] (8 # 10)%Q None []) /\
  trace (snd (Coordinator._handle_collaboration env0 coordinator0 article to_creative None
                fresh_world))
    = [ research_step_call; Call.mk "creative" article None ].
Proof.
  split; [reflexivity|]. split; [|repeat split; reflexivity].
  unfold failing_steps_are_skipped. intros Heq.
  apply (f_equal fst) in Heq. vm_compute in Heq. discriminate.
Qed.

Lemma step_failure_falls_back_to_primary_witness :
  Coordinator._handle_collaboration env0 coordinator0 article to_creative None fresh_world =
  Coordinator.call_agent (Some (answering "creative")) article None
    (with_trace [research_step_call] fresh_world).
Proof.
  exact (proj2 (proj2 (step_failure_falls_back_to_primary env0 coordinator0))
           article to_creative None fresh_world
           (Exc "Exception" "Error calling LLM: timeout")
           (with_trace [research_step_call] fresh_world) eq_refl).
Defined.

Definition creative_result : Dict (AgentResponse.t Q) :=
  [ ("creative",
     AgentResponse.mk "An outline." "creative" ["file_ops"] (8 # 10)%Q None []) ].

Lemma synthesis_failure_raises_unbound_local_witness :
  fst (Coordinator._synthesize_collaboration_results env0 article creative_result
         (Some (failing "research")) fresh_world)
  = Raise unbound_all_tools_used.
Proof.
  exact (proj1 (synthesis_failure_raises_unbound_local env0 article creative_result
                  (Some (failing "research")) fresh_world
                  (Exc "Exception" "Error calling LLM: timeout") eq_refl)).
Defined.

(** The memory after one exchange about planning, and after exporting,
    clearing and importing it. *)
Definition planned : World Q :=
  snd (record env0 3 (talk "please help me plan the project launch" "ok")
         (snd (MemoryContext.__init__ env0 "coordinator" (Some 2%Z) fresh_world))).

Definition planned_round_trip : World Q :=
  match MemoryContext.export_context env0 3 planned with
  | (Return payload, w1) =>
      snd (MemoryContext.import_context 3 payload (snd (MemoryContext.clear_context 3 w1)))
  | (Raise _, w1) => w1
  end.

(** The exported dict holds the context's own topic history and metadata
    objects.  [clear_context] empties them in place, so they come back
    empty from the round trip, while the entries, the topics and the
    conversation state come back as they were. *)
Example round_trip_shares_history_and_metadata :
  let before := MemoryContext.attrs planned 3 in
  let after := MemoryContext.attrs planned_round_trip 3 in
  after = before /\
  length (MemoryContext.list_at planned (ConversationContext.topic_history before)) = 1 /\
  MemoryContext.list_at planned_round_trip (ConversationContext.topic_history after) = [] /\
  ContextMetadata.total_interactions
    (MemoryContext.meta_at planned (ConversationContext.context_metadata before)) = 1%Z /\
  ContextMetadata.total_interactions
    (MemoryContext.meta_at planned_round_trip (ConversationContext.context_metadata after))
  = 0%Z /\
  MemoryContext.state_at planned_round_trip (ConversationContext.conversation_state after)
  = MemoryContext.state_at planned (ConversationContext.conversation_state before).
Proof. vm_compute. repeat split; reflexivity. Qed.

(** The store is down for the whole request; the answer is the routed
    agent's. *)
Example process_message_with_store_down :
  fst (Coordinator.process_message env0
         (IOFaults.mk true true IOFaults.OpenFails IOFaults.TxnFailsEarly)
         coordinator0 "what is the capital of France" (Some "creative") None
         (snd (MemoryContext.__init__ env0 "coordinator" None fresh_world)))
  = Return (CoordinatorResponse.mk
              "answer to: what is the capital of France" "creative" [] (8 # 10)%Q
              "User explicitly requested creative agent"
              [ ("routing_decision",
                 VDict [ ("selected_agent", VStr "creative");
                         ("confidence", VFloat 1%Q);
                         ("alternatives", VNone) ]);
                ("collaboration_used", VBool false);
                ("session_id", VStr "session-1") ]
              "session-1" "2024-05-01T10:00:00").
Proof. vm_compute. reflexivity. Qed.

(** * Further properties of the orchestration code *)

(** ** Dictionaries and de-duplicated lists *)

Section Containers.
Context {V : Type}.

Lemma dict_get_set_eq (k : string) (v : V) (d : Dict V) :
  PyDict.get k (PyDict.set k v d) = Some v.
Proof.
  induction d as [|[k' v'] d IH]; simpl.
  - rewrite String.eqb_refl. reflexivity.
  - destruct (String.eqb k k') eqn:E; simpl; rewrite E; [reflexivity|exact IH].
Qed.

Lemma dict_get_set_ne (k k' : string) (v : V) (d : Dict V) :
  k <> k' -> PyDict.get k (PyDict.set k' v d) = PyDict.get k d.
Proof.
  intros Hne. induction d as [|[k2 v2] d IH]; simpl.
  - apply String.eqb_neq in Hne. rewrite Hne. reflexivity.
  - destruct (String.eqb k' k2) eqn:E; simpl.
    + apply String.eqb_eq in E. subst k2.
      apply String.eqb_neq in Hne. rewrite Hne. reflexivity.
    + destruct (String.eqb k k2); [reflexivity|exact IH].
Qed.

Lemma dict_keys_set_new (k : string) (v : V) (d : Dict V) :
  k ∉ PyDict.keys d -> PyDict.set k v d = d ++ [(k, v)].
Proof.
  induction d as [|[k' v'] d IH]; simpl; intros Hk; [reflexivity|].
  apply not_elem_of_cons in Hk as [Hne Hk].
  apply String.eqb_neq in Hne. rewrite Hne. rewrite IH by exact Hk. reflexivity.
Qed.
End Containers.

Lemma list_set_elem (x : string) (l : list string) : x ∈ list_set l <-> x ∈ l.
Proof.
  induction l as [|y l IH]; simpl; [reflexivity|].
  rewrite !elem_of_cons, list_elem_of_filter, IH. cbv beta.
  split.
  - intros [->|[_ Hx]]; auto.
  - intros [->|Hx]; [auto|].
    destruct (String.eqb y x) eqn:E.
    + apply String.eqb_eq in E. auto.
    + right. split; [exact I|exact Hx].
Qed.

Lemma list_set_NoDup (l : list string) : NoDup (list_set l).
Proof.
  induction l as [|y l IH]; simpl; [constructor|].
  constructor.
  - rewrite list_elem_of_filter. cbv beta. intros [Hn _].
    rewrite String.eqb_refl in Hn. exact Hn.
  - apply NoDup_filter, IH.
Qed.

(** ** The collaboration plan *)

Section PlanProperties.
Context {F : Type} `{PyFloat F}.

Definition agent_types : list string := ["research"; "code"; "creative"; "task"].

Lemma secondary_agents_sublist (message primary_agent : string) :
  sublist (Coordinator._identify_secondary_agents message primary_agent) agent_types.
Proof.
  unfold Coordinator._identify_secondary_agents. cbv zeta.
  etransitivity; [apply sublist_take|].
  change agent_types with (map fst Coordinator.capability_keywords).
  apply (fmap_sublist fst), sublist_filter.
Qed.

Lemma secondary_agents_matched (message primary_agent agent : string) :
  agent ∈ Coordinator._identify_secondary_agents message primary_agent ->
  agent <> primary_agent /\
  exists keywords,
    PyDict.get agent Coordinator.capability_keywords = Some keywords /\
    PyStr.any_in keywords (PyStr.lower message) = true.
Proof.
  unfold Coordinator._identify_secondary_agents. cbv zeta. intros Ha.
  apply (fun Hx => elem_of_sublist _ _ _ Hx (sublist_take _ 2)) in Ha.
  apply list_elem_of_fmap in Ha as ([a kws] & -> & Hkv).
  apply list_elem_of_filter in Hkv as [HP Hkv]. simpl in HP.
  apply Is_true_true in HP. apply andb_true_iff in HP as [Hne HP].
  apply negb_true_iff, String.eqb_neq in Hne. split; [exact Hne|].
  exists kws. split; [|exact HP]. simpl.
  unfold Coordinator.capability_keywords in *.
  rewrite !elem_of_cons in Hkv.
  destruct Hkv as [[= -> ->]|[[= -> ->]|[[= -> ->]|[[= -> ->]|Hn]]]];
    [reflexivity..|inversion Hn].
Qed.

Lemma agent_types_NoDup : NoDup agent_types.
Proof. apply (bool_decide_unpack _). vm_compute. exact I. Qed.

(** X1. The secondary agents chosen for a message are at most two, are
    taken in the order research, code, creative, task, never include the
    primary agent, are not repeated, and each of them has one of its
    capability keywords in the lowered message. *)
Theorem identify_secondary_agents_sound (message primary_agent : string) :
  let chosen := Coordinator._identify_secondary_agents message primary_agent in
  (length chosen <= 2 /\
   sublist chosen agent_types /\
   (primary_agent ∉ chosen) /\
   NoDup chosen /\
   forall agent, agent ∈ chosen ->
     exists keywords,
       PyDict.get agent Coordinator.capability_keywords = Some keywords /\
       PyStr.any_in keywords (PyStr.lower message) = true).
Proof.
  intros chosen. subst chosen. repeat split.
  - unfold Coordinator._identify_secondary_agents. cbv zeta. rewrite length_take. lia.
  - apply secondary_agents_sublist.
  - intros Hp. apply secondary_agents_matched in Hp as [Hne _]. apply Hne. reflexivity.
  - eapply sublist_NoDup; [exact agent_types_NoDup|apply secondary_agents_sublist].
  - intros agent Ha. apply secondary_agents_matched in Ha as [_ Hk]. exact Hk.
Qed.

Lemma preparation_steps_known (message : string) (i : nat) (agents : list string) :
  Forall (fun agent => agent ∈ agent_types) agents ->
  map Step.agent (Coordinator.preparation_steps message i agents) = agents /\
  map Step.order (Coordinator.preparation_steps message i agents) = seq (i + 1) (length agents) /\
  Forall (fun step => exists template, Step.task step = template +:+ message)
         (Coordinator.preparation_steps message i agents).
Proof.
  intros Hk. revert i. induction Hk as [|agent agents Ha Hk IH]; intros i; simpl.
  - repeat split. constructor.
  - destruct (IH (S i)) as (IHa & IHo & IHt).
    unfold agent_types in Ha. rewrite !elem_of_cons in Ha.
    destruct Ha as [->|[->|[->|[->|Hn]]]]; [| | | |inversion Hn]; simpl;
      rewrite IHa, IHo; replace (S i + 1) with (S (i + 1)) by lia;
      (repeat split; [constructor; [eexists; reflexivity|exact IHt]]).
Qed.

(** X2. The plan built for a message: one preparation step per secondary
    agent, in their order, then the synthesis step of the primary agent;
    the steps are numbered 1, 2, ... without gap; every task ends with
    the message; and whatever the list of secondary agents, the last step
    is the primary agent's synthesis step. *)
Theorem collaboration_plan_shape (message primary_agent : string) :
  (forall secondary_agents,
     last (Plan.steps (Coordinator._create_collaboration_plan message primary_agent
                         secondary_agents))
     = Some (Step.mk primary_agent
               ("Synthesize information and provide comprehensive response to: "
                +:+ message)
               (length (Plan.steps (Coordinator._create_collaboration_plan message
                                      primary_agent secondary_agents))))) /\
  let chosen := Coordinator._identify_secondary_agents message primary_agent in
  let steps := Plan.steps (Coordinator._create_collaboration_plan message primary_agent
                             chosen) in
  (map Step.agent steps = chosen ++ [primary_agent] /\
   map Step.order steps = seq 1 (length chosen + 1) /\
   Forall (fun step => exists template, Step.task step = template +:+ message) steps).
Proof.
  split.
  - intros secondary_agents. unfold Coordinator._create_collaboration_plan. simpl.
    rewrite last_snoc, length_app. simpl. do 2 f_equal; lia.
  - intros chosen steps. subst steps.
    assert (Hk : Forall (fun agent => agent ∈ agent_types) chosen).
    { apply Forall_forall. intros agent Ha.
      eapply elem_of_sublist; [exact Ha|apply secondary_agents_sublist]. }
    destruct (preparation_steps_known message 0 chosen Hk) as (Ha & Ho & Ht).
    assert (Hl : length (Coordinator.preparation_steps message 0 chosen) = length chosen)
      by (rewrite <- (length_map Step.agent), Ha; reflexivity).
    unfold Coordinator._create_collaboration_plan. simpl.
    rewrite !map_app, Ha, Ho, Hl. simpl. repeat split.
    + rewrite seq_app. simpl. do 2 f_equal. lia.
    + apply Forall_app. split; [exact Ht|]. constructor; [eexists; reflexivity|constructor].
Qed.
End PlanProperties.

(** ** A collaboration whose agents all answer *)

Section CollaborationSuccess.
Context {F : Type} `{PyFloat F} (env : Env F).

(** An agent whose handler returns on every invocation. *)
Definition always_answers (agent : Agent.t F) : Prop :=
  forall history message context,
    exists r, Agent.process_message agent history message context = Return r.

(** The invocation a step of a plan makes. *)
Definition invokes (self : Coordinator.t F) (context : option (Dict (PyVal F)))
    (step : Step.t) (call : Call.t F) : Prop :=
  exists agent,
    Router.get_agent (Coordinator.router self) (Step.agent step) = Some agent /\
    call = Call.mk (Agent.name agent) (Step.task step) context.

Definition runnable (self : Coordinator.t F) (step : Step.t) : Prop :=
  PyStr.truthy (Step.agent step) && PyStr.truthy (Step.task step) = true /\
  exists agent,
    Router.get_agent (Coordinator.router self) (Step.agent step) = Some agent /\
    always_answers agent.

Lemma execute_steps_answering (self : Coordinator.t F) steps context results (w : World F) :
  Forall (runnable self) steps ->
  NoDup (PyDict.keys results ++ map Step.agent steps) ->
  exists results1 calls,
    Coordinator.execute_steps self steps context results w
    = (Return results1, with_trace (trace w ++ calls) w) /\
    Forall2 (invokes self context) steps calls /\
    PyDict.keys results1 = PyDict.keys results ++ map Step.agent steps.
Proof.
  intros Hrun. revert results w.
  induction Hrun as [|s steps (Ht & a & Ha & Hans) Hrun IH]; intros results w Hnd.
  - exists results, []. simpl. rewrite !app_nil_r. destruct w. repeat split. constructor.
  - simpl. rewrite Ht, Ha. unfold bind, Coordinator.call_agent.
    destruct (Hans (trace w) (Step.task s) context) as [r Hr]. rewrite Hr.
    assert (Hnew : Step.agent s ∉ PyDict.keys results).
    { intros Hin. apply NoDup_app in Hnd as (_ & Hd & _).
      apply (Hd _ Hin). simpl. left. }
    rewrite (dict_keys_set_new _ _ _ Hnew).
    destruct (IH (results ++ [(Step.agent s, r)])
                 (with_trace (trace w ++ [Call.mk (Agent.name a) (Step.task s) context]) w))
      as (results1 & calls & Hex & Hcalls & Hkeys).
    { unfold PyDict.keys. rewrite map_app. simpl. rewrite <- app_assoc. exact Hnd. }
    exists results1, (Call.mk (Agent.name a) (Step.task s) context :: calls).
    rewrite Hex. simpl. rewrite <- app_assoc. simpl. repeat split.
    + constructor; [|exact Hcalls]. exists a. split; [exact Ha|reflexivity].
    + rewrite Hkeys. unfold PyDict.keys. rewrite map_app. simpl.
      rewrite <- app_assoc. reflexivity.
Qed.

Lemma tools_of_results (collaboration_results : Dict (AgentResponse.t F)) (tool : string) :
  tool ∈ concat (map AgentResponse.tools_used (PyDict.values collaboration_results)) <->
  exists agent_name result,
    (agent_name, result) ∈ collaboration_results /\ tool ∈ AgentResponse.tools_used result.
Proof.
  unfold PyDict.values. rewrite list_elem_of_In, in_concat. split.
  - intros (l & Hl & Ht). apply in_map_iff in Hl as (r & <- & Hr).
    apply in_map_iff in Hr as ([a r'] & <- & Har).
    exists a, r'. split; apply list_elem_of_In; assumption.
  - intros (a & r & Har & Ht). exists (AgentResponse.tools_used r).
    apply list_elem_of_In in Har. apply list_elem_of_In in Ht. split; [|exact Ht].
    apply in_map_iff. exists r. split; [reflexivity|].
    apply in_map_iff. exists (a, r). split; [reflexivity|exact Har].
Qed.

(** X3. When the primary agent answers the synthesis prompt, the
    synthesis returns that answer (content, agent name, confidence,
    reasoning) with its list of tools replaced by the tools of the
    collaboration results, each listed once, and with the two metadata
    keys [collaboration_synthesis] and [agents_involved] set, the other
    metadata of the answer being kept. *)
Theorem synthesis_merges_tools_and_metadata (original_message : string)
    (collaboration_results : Dict (AgentResponse.t F))
    (primary_agent : option (Agent.t F)) (w : World F) (answer : AgentResponse.t F) :
  fst (Coordinator.call_agent primary_agent
         (Coordinator.synthesis_prompt env original_message collaboration_results)
         None w) = Return answer ->
  exists response,
    Coordinator._synthesize_collaboration_results env original_message
      collaboration_results primary_agent w
    = (Return response,
       snd (Coordinator.call_agent primary_agent
              (Coordinator.synthesis_prompt env original_message collaboration_results)
              None w)) /\
    AgentResponse.content response = AgentResponse.content answer /\
    AgentResponse.agent_name response = AgentResponse.agent_name answer /\
    AgentResponse.confidence response = AgentResponse.confidence answer /\
    AgentResponse.reasoning response = AgentResponse.reasoning answer /\
    NoDup (AgentResponse.tools_used response) /\
    (forall tool,
       tool ∈ AgentResponse.tools_used response <->
       exists agent_name result,
         (agent_name, result) ∈ collaboration_results /\
         tool ∈ AgentResponse.tools_used result) /\
    PyDict.get "collaboration_synthesis" (AgentResponse.metadata response)
    = Some (VBool true) /\
    PyDict.get "agents_involved" (AgentResponse.metadata response)
    = Some (VList (map VStr (PyDict.keys collaboration_results))) /\
    (forall key, key <> "collaboration_synthesis" -> key <> "agents_involved" ->
       PyDict.get key (AgentResponse.metadata response)
       = PyDict.get key (AgentResponse.metadata answer)).
Proof.
  intros Hcall.
  unfold Coordinator._synthesize_collaboration_results. cbv zeta.
  unfold try_except, bind at 1.
  destruct (Coordinator.call_agent primary_agent _ None w) as [[r|e] w1];
    simpl in Hcall; [|discriminate].
  injection Hcall as ->. eexists. split; [reflexivity|]. simpl.
  repeat split.
  - apply list_set_NoDup.
  - rewrite list_set_elem. apply tools_of_results.
  - rewrite list_set_elem. apply tools_of_results.
  - rewrite dict_get_set_ne by discriminate. apply dict_get_set_eq.
  - apply dict_get_set_eq.
  - intros key H1 H2. rewrite !dict_get_set_ne by assumption. reflexivity.
Qed.

Lemma registered_agent (research code creative task : Agent.t F) (agent_name : string) :
  agent_name ∈ agent_types ->
  PyStr.truthy agent_name = true /\
  exists agent,
    Router.get_agent (Router.__init__ research code creative task) agent_name = Some agent /\
    agent ∈ [research; code; creative; task].
Proof.
  unfold agent_types. rewrite !elem_of_cons.
  intros [->|[->|[->|[->|Hn]]]]; [| | | |inversion Hn];
    (split; [reflexivity|]); eexists; (split; [reflexivity|]);
    rewrite !elem_of_cons; auto.
Qed.

Lemma truthy_app (s1 s2 : string) : PyStr.truthy s1 = true -> PyStr.truthy (s1 +:+ s2) = true.
Proof. destruct s1; [discriminate|reflexivity]. Qed.

(** X4. A collaboration between agents that all answer, for a primary
    agent of the registry: every step of the plan invokes its agent, in
    the order of the plan, on the step's task and the caller's context;
    then the primary agent is invoked on the synthesis prompt, without
    context, and its answer is the content of the response.  The
    results handed to the synthesis hold one entry per agent of the
    plan, the primary agent's last.  Nothing but the trace changes. *)
Theorem collaboration_invokes_plan_in_order (research code creative task : Agent.t F)
    (uuid : string) (memory : loc) (message : string)
    (primary_routing : RoutingDecision.t F) (context : option (Dict (PyVal F)))
    (w : World F) :
  let self := Coordinator.mk (Router.__init__ research code creative task) uuid memory in
  let primary_name := RoutingDecision.agent_name primary_routing in
  let chosen := Coordinator._identify_secondary_agents message primary_name in
  let steps := Plan.steps (Coordinator._create_collaboration_plan message primary_name
                             chosen) in
  primary_name ∈ agent_types ->
  Forall always_answers [research; code; creative; task] ->
  exists primary results calls response answer,
    Router.get_agent (Coordinator.router self) primary_name = Some primary /\
    Coordinator._handle_collaboration env self message primary_routing context w
    = (Return response,
       with_trace (trace w ++ calls
                   ++ [Call.mk (Agent.name primary)
                         (Coordinator.synthesis_prompt env message results) None]) w) /\
    Forall2 (invokes self context) steps calls /\
    PyDict.keys results = chosen ++ [primary_name] /\
    Agent.process_message primary (trace w ++ calls)
      (Coordinator.synthesis_prompt env message results) None = Return answer /\
    AgentResponse.content response = AgentResponse.content answer /\
    PyDict.get "agents_involved" (AgentResponse.metadata response)
    = Some (VList (map VStr (chosen ++ [primary_name]))).
Proof.
  intros self primary_name chosen steps Hprimary Hans.
  destruct (registered_agent research code creative task primary_name Hprimary)
    as (Htp & primary & Hget & Hreg).
  assert (Hknown : forall agent_name, agent_name ∈ agent_types ->
            PyStr.truthy agent_name = true /\
            exists agent, Router.get_agent (Coordinator.router self) agent_name = Some agent /\
                          always_answers agent).
  { intros agent_name Ha.
    destruct (registered_agent research code creative task agent_name Ha)
      as (Ht & agent & Hg & Hr).
    split; [exact Ht|]. exists agent. split; [exact Hg|].
    rewrite Forall_forall in Hans. apply Hans, Hr. }
  assert (Hchosen : Forall (fun agent => agent ∈ agent_types) chosen).
  { apply Forall_forall. intros agent Ha.
    eapply elem_of_sublist; [exact Ha|apply secondary_agents_sublist]. }
  destruct (preparation_steps_known message 0 chosen Hchosen) as (Hagents & _ & Htasks).
  assert (Hsteps : map Step.agent steps = chosen ++ [primary_name]).
  { subst steps. unfold Coordinator._create_collaboration_plan. simpl.
    rewrite map_app, Hagents. reflexivity. }
  assert (Hrun : Forall (runnable self) steps).
  { apply Forall_forall. intros s Hs.
    assert (Hsa : Step.agent s ∈ agent_types).
    { assert (Hin : Step.agent s ∈ map Step.agent steps)
        by (apply list_elem_of_fmap; exists s; split; [reflexivity|exact Hs]).
      rewrite Hsteps in Hin. apply elem_of_app in Hin as [Hin|Hin].
      - rewrite Forall_forall in Hchosen. apply Hchosen, Hin.
      - apply list_elem_of_singleton in Hin. rewrite Hin. exact Hprimary. }
    destruct (Hknown _ Hsa) as (Ht & Hag). split; [|exact Hag].
    rewrite Ht. simpl.
    subst steps. unfold Coordinator._create_collaboration_plan in Hs. simpl in Hs.
    apply elem_of_app in Hs as [Hs|Hs].
    - rewrite Forall_forall in Htasks. destruct (Htasks _ Hs) as [template Htask].
      clear - Hs Htask. revert Hs. generalize 0.
      induction chosen as [|agent rest IH]; intros i Hs; [inversion Hs|].
      simpl in Hs. apply elem_of_app in Hs as [Hs|Hs]; [|exact (IH _ Hs)].
      repeat (destruct (String.eqb agent _);
              [apply list_elem_of_singleton in Hs; rewrite Hs; reflexivity|]).
      inversion Hs.
    - apply list_elem_of_singleton in Hs. rewrite Hs. reflexivity. }
  assert (Hnd : NoDup (PyDict.keys ([] : Dict (AgentResponse.t F)) ++ map Step.agent steps)).
  { simpl. rewrite Hsteps. apply NoDup_app. repeat split.
    - eapply sublist_NoDup; [exact agent_types_NoDup|apply secondary_agents_sublist].
    - intros agent Ha Hp. apply list_elem_of_singleton in Hp. subst agent.
      apply secondary_agents_matched in Ha as [Hne _]. apply Hne. reflexivity.
    - apply NoDup_singleton. }
  destruct (execute_steps_answering self steps context [] w Hrun Hnd)
    as (results & calls & Hex & Hcalls & Hkeys).
  simpl in Hkeys. rewrite Hsteps in Hkeys.
  assert (Hpa : always_answers primary).
  { rewrite Forall_forall in Hans. apply Hans, Hreg. }
  destruct (Hpa (trace w ++ calls) (Coordinator.synthesis_prompt env message results) None)
    as [answer Hanswer].
  exists primary, results, calls. eexists. exists answer.
  split; [exact Hget|].
  split.
  { unfold Coordinator._handle_collaboration, try_except. cbv zeta.
    unfold bind at 1. fold primary_name. fold chosen. fold steps. rewrite Hex.
    change (Router.get_agent (Router.__init__ research code creative task) primary_name)
      with (Router.get_agent (Coordinator.router self) primary_name) in Hget.
    rewrite Hget.
    unfold Coordinator._synthesize_collaboration_results, try_except, bind,
      Coordinator.call_agent. cbv zeta. simpl trace. rewrite Hanswer.
    unfold ret, with_trace. simpl. rewrite <- app_assoc. reflexivity. }
  simpl. repeat split; try assumption.
  unfold Coordinator.agents_involved. rewrite Hkeys. apply dict_get_set_eq.
Qed.
End CollaborationSuccess.

(** ** Serving a request: what is stored and remembered *)

Section ServingEffects.
Context {F : Type} `{PyFloat F} (env : Env F).

(** The world but for the trace of invocations. *)
Definition durable (w : World F) :=
  (ticks w, metas w, lists w, states w, contexts w, next_loc w, store w).

Lemma call_agent_keeps_durable agent message context :
  keeps durable (Coordinator.call_agent agent message context).
Proof. intros w. destruct agent; reflexivity. Qed.

Lemma execute_steps_keeps_durable (self : Coordinator.t F) steps context results :
  keeps durable (Coordinator.execute_steps self steps context results).
Proof.
  revert results. induction steps as [|s steps IH]; intros results; simpl.
  - apply keeps_ret.
  - destruct (_ && _); [|apply IH].
    destruct (Router.get_agent _ _); [|apply IH].
    apply keeps_bind; [intros w; reflexivity|intro; apply IH].
Qed.

Lemma handle_collaboration_keeps_durable (self : Coordinator.t F) message routing context :
  keeps durable (Coordinator._handle_collaboration env self message routing context).
Proof.
  unfold Coordinator._handle_collaboration,
    Coordinator._synthesize_collaboration_results, Coordinator.read_local.
  repeat first [ apply call_agent_keeps_durable | apply execute_steps_keeps_durable
               | keeps_step ].
Qed.

Lemma agent_pipeline_keeps_durable (self : Coordinator.t F) message preferred context :
  keeps durable (agent_pipeline env self message preferred context).
Proof.
  unfold agent_pipeline.
  repeat first [ apply call_agent_keeps_durable | apply handle_collaboration_keeps_durable
               | keeps_step ].
Qed.

(** [process_message], as the agent pipeline followed by the store and
    the memory. *)
Lemma process_message_unfold (io : IOFaults.t) (self : Coordinator.t F) message preferred
    context (w : World F) :
  let started := with_ticks (S (ticks w)) w in
  let timestamp := datetime_now env (ticks w) in
  Coordinator.process_message env io self message preferred context w =
  match agent_pipeline env self message preferred context started with
  | (Return (routing_decision, response), w1) =>
      (Return (CoordinatorResponse.mk
                 (AgentResponse.content response)
                 (AgentResponse.agent_name response)
                 (AgentResponse.tools_used response)
                 (AgentResponse.confidence response)
                 (Coordinator.or_else (AgentResponse.reasoning response)
                    (RoutingDecision.reasoning routing_decision))
                 (PyDict.merge (AgentResponse.metadata response)
                    [ ("routing_decision",
                       VDict [ ("selected_agent",
                                VStr (RoutingDecision.agent_name routing_decision));
                               ("confidence",
                                VFloat (RoutingDecision.confidence routing_decision));
                               ("alternatives",
                                Coordinator.alternatives_value
                                  (RoutingDecision.alternative_agents routing_decision)) ]);
                      ("collaboration_used",
                       VBool (Coordinator._check_collaboration_need message context));
                      ("session_id", VStr (Coordinator.session_id self)) ])
                 (Coordinator.session_id self) timestamp),
       snd (MemoryContext.add_interaction env (Coordinator.conversation_context self)
              message (AgentResponse.content response) "conversation" None
              (snd (Coordinator._store_conversation env io self message response
                      routing_decision w1))))
  | (Raise e, w1) => (Return (Coordinator.error_response self timestamp e), w1)
  end.
Proof.
  intros started timestamp.
  unfold Coordinator.process_message, agent_pipeline.
  unfold bind at 1, now at 1. cbv beta iota. fold started timestamp.
  unfold try_except, bind at 1, bind at 4, lift.
  destruct (Router.route_message _ _ _ _) as [rd|e]; [|reflexivity].
  cbv beta iota zeta.
  destruct (Router.get_agent _ _) as [agent|]; [|reflexivity].
  unfold bind at 1, bind at 3.
  destruct ((if Coordinator._check_collaboration_need message context
             then Coordinator._handle_collaboration env self message rd context
             else Coordinator.call_agent (Some agent) message context) started)
    as [[response|e] w1]; [|reflexivity].
  change (ret (rd, response) w1) with (Return (rd, response), w1).
  cbv beta iota.
  unfold bind at 1.
  pose proof (store_conversation_returns env io self message response rd w1) as Hs.
  destruct (Coordinator._store_conversation env io self message response rd w1)
    as [rs w2]. simpl in Hs. subst rs. unfold bind at 1. cbn [snd].
  pose proof (add_interaction_returns env (Coordinator.conversation_context self)
                message (AgentResponse.content response) "conversation" None w2) as Ha.
  destruct (MemoryContext.add_interaction env _ _ _ _ _ w2) as [ra w3].
  simpl in Ha. subst ra. reflexivity.
Qed.

(** X5. When routing or the agent raises, [process_message] answers
    with the coordinator's error response and leaves the store, the
    conversation memory and the clock reading after its own timestamp
    as they were: nothing of the failed request is stored or
    remembered. *)
Theorem failed_request_is_not_recorded (io : IOFaults.t) (self : Coordinator.t F)
    (message : string) (preferred_agent : option string)
    (context : option (Dict (PyVal F))) (w : World F) (e : exn) :
  fst (agent_pipeline env self message preferred_agent context
         (with_ticks (S (ticks w)) w)) = Raise e ->
  exists w',
    Coordinator.process_message env io self message preferred_agent context w
    = (Return (Coordinator.error_response self (datetime_now env (ticks w)) e), w') /\
    CoordinatorResponse.agent_used
      (Coordinator.error_response self (datetime_now env (ticks w)) e) = "coordinator" /\
    store w' = store w /\
    contexts w' = contexts w /\ metas w' = metas w /\ lists w' = lists w /\
    states w' = states w /\
    ticks w' = S (ticks w).
Proof.
  intros Hraise. rewrite process_message_unfold. cbv zeta.
  pose proof (agent_pipeline_keeps_durable self message preferred_agent context
                (with_ticks (S (ticks w)) w)) as Hk.
  destruct (agent_pipeline env self message preferred_agent context
              (with_ticks (S (ticks w)) w)) as [[[rd r]|e'] w1];
    simpl in Hraise; [discriminate|].
  injection Hraise as ->. exists w1. simpl in Hk. unfold durable in Hk. simpl in Hk.
  injection Hk as Ht Hm Hl Hs Hc _ Hst.
  repeat split; assumption.
Qed.

(** The conversation memory: everything in the world but the clock, the
    trace and the store. *)
Definition memory_heap (w : World F) :=
  (metas w, lists w, states w, contexts w, next_loc w, trace w).

Lemma storage_store_conversation_keeps_memory (io : IOFaults.t) (d : EntryDict.t F) :
  keeps memory_heap (MemoryStorage.store_conversation env io d).
Proof.
  assert (H1 : forall e, keeps memory_heap (MemoryStorage._store_in_database io e)).
  { intros e. unfold MemoryStorage._store_in_database, MemoryStorage.update_store,
      MemoryStorage.db_error. repeat keeps_step. }
  assert (H2 : forall e, keeps memory_heap (MemoryStorage._store_in_session_file env io e)).
  { intros e. unfold MemoryStorage._store_in_session_file, MemoryStorage.write_file,
      MemoryStorage.update_store, MemoryStorage.os_error. repeat keeps_step. }
  assert (H3 : forall sid, keeps memory_heap (MemoryStorage._update_session_metadata env io sid)).
  { intros sid. unfold MemoryStorage._update_session_metadata, MemoryStorage.put_metadata,
      MemoryStorage.update_store, MemoryStorage.db_error. repeat keeps_step. }
  unfold MemoryStorage.store_conversation. cbv zeta.
  apply keeps_try_except; [|intro; apply keeps_ret].
  apply keeps_bind; [apply H1|intros _].
  apply keeps_bind; [apply H2|intros _]. apply H3.
Qed.

Lemma store_conversation_keeps_memory (io : IOFaults.t) (self : Coordinator.t F) message
    response routing :
  keeps memory_heap (Coordinator._store_conversation env io self message response routing).
Proof.
  unfold Coordinator._store_conversation.
  apply keeps_try_except; [|intro; apply keeps_ret].
  apply keeps_bind; [apply keeps_now; intros; reflexivity|intros ts].
  apply storage_store_conversation_keeps_memory.
Qed.

Lemma add_interaction_keeps_store self um ar ct md :
  keeps (fun w : World F => (store w, trace w))
        (MemoryContext.add_interaction env self um ar ct md).
Proof.
  unfold MemoryContext.add_interaction, MemoryContext._extract_topics,
    MemoryContext._update_conversation_state, MemoryContext.new_list,
    MemoryContext.update_self, MemoryContext.update_meta, MemoryContext.update_list,
    MemoryContext.update_state, MemoryContext.get_self.
  repeat keeps_step.
Qed.

(** X6. A request the agent pipeline answers is stored and remembered:
    the index gets one row with the session, the message, the content,
    the agent, the tools and the two confidences of the answer (no row
    when the insert fails), stamped with the clock reading that follows
    the request's own; and whatever the store does, the coordinator's
    memory gets one entry with the message and the content, under the
    name of the memory's own agent, not of the agent that answered. *)
Theorem served_request_is_stored_and_remembered (io : IOFaults.t)
    (self : Coordinator.t F) (message : string) (preferred_agent : option string)
    (context : option (Dict (PyVal F))) (w : World F)
    (routing_decision : RoutingDecision.t F) (response : AgentResponse.t F) :
  fst (agent_pipeline env self message preferred_agent context
         (with_ticks (S (ticks w)) w)) = Return (routing_decision, response) ->
  let memory := Coordinator.conversation_context self in
  let w' := snd (Coordinator.process_message env io self message preferred_agent
                   context w) in
  Store.conversations (store w')
  = Store.conversations (store w)
    ++ (if IOFaults.db_insert_fails io then []
        else [ConversationEntry.mk (Coordinator.session_id self)
                (datetime_now env (S (ticks w))) message
                (AgentResponse.content response) (AgentResponse.agent_name response)
                (AgentResponse.tools_used response) (AgentResponse.confidence response)
                (RoutingDecision.confidence routing_decision)
                (AgentResponse.metadata response)]) /\
  exists remembered_at,
    ConversationContext.recent_memory (MemoryContext.attrs w' memory)
    = Deque.append (ConversationContext.recent_memory (MemoryContext.attrs w memory))
        (ContextEntry.mk remembered_at message (AgentResponse.content response)
           (ConversationContext.agent_name (MemoryContext.attrs w memory))
           "conversation" []).
Proof.
  intros Hpipe memory w'. subst w'. rewrite process_message_unfold. cbv zeta.
  pose proof (agent_pipeline_keeps_durable self message preferred_agent context
                (with_ticks (S (ticks w)) w)) as Hk.
  destruct (agent_pipeline env self message preferred_agent context
              (with_ticks (S (ticks w)) w)) as [[[rd r]|e'] w1];
    simpl in Hpipe; [|discriminate].
  injection Hpipe as -> ->. cbn [snd] in *.
  unfold durable in Hk. simpl in Hk. injection Hk as Ht Hm Hl Hs Hc Hn Hst.
  pose proof (store_conversation_keeps_memory io self message response routing_decision w1)
    as Hkm.
  assert (Hconv : Store.conversations
            (store (snd (Coordinator._store_conversation env io self message response
                           routing_decision w1)))
          = Store.conversations (store w)
            ++ (if IOFaults.db_insert_fails io then []
                else [ConversationEntry.mk (Coordinator.session_id self)
                        (datetime_now env (S (ticks w))) message
                        (AgentResponse.content response)
                        (AgentResponse.agent_name response)
                        (AgentResponse.tools_used response)
                        (AgentResponse.confidence response)
                        (RoutingDecision.confidence routing_decision)
                        (AgentResponse.metadata response)])).
  { unfold Coordinator._store_conversation. rewrite try_pass_world.
    unfold bind, now. cbv beta iota.
    match goal with
    | |- context [MemoryStorage.store_conversation env io ?d ?w0] =>
        destruct (store_conversation_effect env io d w0) as [_ He]
    end.
    unfold tables in He. injection He as He _ _. rewrite He. simpl.
    rewrite Hst, Ht. reflexivity. }
  destruct (Coordinator._store_conversation env io self message response
              routing_decision w1) as [rs w2]. cbn [snd] in *.
  split.
  - pose proof (add_interaction_keeps_store memory message
                  (AgentResponse.content response) "conversation" None w2) as Hks.
    cbv beta in Hks. unfold memory in Hks. injection Hks as Hks _.
    rewrite Hks. exact Hconv.
  - pose proof (add_interaction_effect env memory message (AgentResponse.content response)
                  "conversation" None w2) as He.
    unfold config_and_memory in He. cbv zeta in He.
    injection He as _ _ He. unfold memory in *. rewrite He.
    unfold memory_heap in Hkm. injection Hkm as _ _ _ Hc2 _ _.
    unfold MemoryContext.attrs. rewrite Hc2, Hc.
    eexists. reflexivity.
Qed.

Lemma route_message_preferred (router : Router.t F) message context agent_name :
  Router.route_message router message context (Some agent_name) =
  if PyStr.truthy agent_name && Router.has_agent router agent_name
  then Return (RoutingDecision.mk agent_name f1
                 ("User explicitly requested " +:+ agent_name +:+ " agent") None)
  else Router.route_message router message context None.
Proof.
  unfold Router.route_message.
  destruct (PyStr.truthy agent_name && Router.has_agent router agent_name); reflexivity.
Qed.

(** X7. The explicit hand-off.  A name that is empty or not in the
    registry is ignored: the message is routed as if no agent had been
    named.  For a registered name, a message that needs no collaboration
    and that the agent answers, the response carries the agent's answer,
    the routing decision in its metadata names the agent with confidence
    [1.0] and without alternatives, and the agent is invoked once. *)
Theorem hand_off_uses_the_named_agent (io : IOFaults.t) (self : Coordinator.t F)
    (agent_name message : string) (context : option (Dict (PyVal F))) (w : World F) :
  (PyStr.truthy agent_name && Router.has_agent (Coordinator.router self) agent_name = false ->
   AgentCoordinator.hand_off_to_agent env io self agent_name message context w
   = Coordinator.process_message env io self message None context w) /\
  (forall agent answer,
     PyStr.truthy agent_name = true ->
     Router.get_agent (Coordinator.router self) agent_name = Some agent ->
     Coordinator._check_collaboration_need message context = false ->
     Agent.process_message agent (trace w) message context = Return answer ->
     exists response w',
       AgentCoordinator.hand_off_to_agent env io self agent_name message context w
       = (Return response, w') /\
       CoordinatorResponse.content response = AgentResponse.content answer /\
       CoordinatorResponse.agent_used response = AgentResponse.agent_name answer /\
       PyDict.get "routing_decision" (CoordinatorResponse.metadata response)
       = Some (VDict [ ("selected_agent", VStr agent_name);
                       ("confidence", VFloat f1);
                       ("alternatives", VNone) ]) /\
       PyDict.get "collaboration_used" (CoordinatorResponse.metadata response)
       = Some (VBool false) /\
       trace w' = trace w ++ [Call.mk (Agent.name agent) message context]).
Proof.
  unfold AgentCoordinator.hand_off_to_agent. split.
  - intros Hunknown. unfold Coordinator.process_message.
    rewrite route_message_preferred, Hunknown. reflexivity.
  - intros agent answer Htruthy Hget Hgate Hanswer.
    assert (Hpipe : agent_pipeline env self message (Some agent_name) context
                      (with_ticks (S (ticks w)) w)
                    = (Return (RoutingDecision.mk agent_name f1
                                 ("User explicitly requested " +:+ agent_name +:+ " agent")
                                 None, answer),
                       with_trace (trace w ++ [Call.mk (Agent.name agent) message context])
                         (with_ticks (S (ticks w)) w))).
    { assert (Hhas : Router.has_agent (Coordinator.router self) agent_name = true).
      { unfold Router.has_agent. unfold Router.get_agent in Hget. rewrite Hget.
        reflexivity. }
      unfold agent_pipeline. rewrite route_message_preferred, Htruthy, Hhas.
      cbn [andb]. unfold bind at 1, lift. cbv beta iota zeta. cbn [RoutingDecision.agent_name].
      rewrite Hget, Hgate.
      unfold bind, Coordinator.call_agent. simpl trace. rewrite Hanswer. reflexivity. }
    rewrite process_message_unfold. cbv zeta. rewrite Hpipe.
    eexists. eexists. split; [reflexivity|].
    simpl CoordinatorResponse.content. simpl CoordinatorResponse.agent_used.
    simpl CoordinatorResponse.metadata. rewrite Hgate.
    repeat split.
    + unfold PyDict.merge. simpl fold_left.
      rewrite !dict_get_set_ne by discriminate. apply dict_get_set_eq.
    + unfold PyDict.merge. simpl fold_left.
      rewrite dict_get_set_ne by discriminate. apply dict_get_set_eq.
    + match goal with
      | |- trace (snd (MemoryContext.add_interaction env ?m ?a ?b ?c ?d ?w2)) = _ =>
          pose proof (add_interaction_keeps_store m a b c d w2) as Hk1
      end.
      cbv beta in Hk1. injection Hk1 as _ Hk1. rewrite Hk1.
      match goal with
      | |- trace (snd (Coordinator._store_conversation env io self ?a ?b ?c ?w1)) = _ =>
          pose proof (store_conversation_keeps_memory io self a b c w1) as Hk2
      end.
      unfold memory_heap in Hk2. injection Hk2 as _ _ _ _ _ Hk2. rewrite Hk2.
      reflexivity.
Qed.
End ServingEffects.

(** ** The conversation memory: clearing, recording, importing *)

Section MemoryEffects.
Context {F : Type} (env : Env F).
Import MemoryContext.


(** What [clear_context] leaves: the attributes of the context and the
    three objects they refer to. *)
Lemma clear_context_effect (self : loc) (w : World F) :
  let c := attrs w self in
  let w' := snd (clear_context self w) in
  fst (clear_context self w) = Return tt /\
  attrs w' self
  = ConversationContext.mk
      (ConversationContext.agent_name c) (ConversationContext.max_memory_size c)
      (Deque.clear (ConversationContext.recent_memory c)) ∅
      (ConversationContext.topic_history c) (ConversationContext.context_metadata c)
      (next_loc w) /\
  list_at w' (ConversationContext.topic_history c) = [] /\
  meta_at w' (ConversationContext.context_metadata c)
  = ContextMetadata.mk
      (ContextMetadata.created_at (meta_at w (ConversationContext.context_metadata c)))
      (ContextMetadata.agent_name (meta_at w (ConversationContext.context_metadata c)))
      0 None /\
  state_at w' (next_loc w) = ConversationState.initial.
Proof.
  intros c w'.
  set (w1 := snd (update_self self (fun c0 =>
                ConversationContext.set_recent_memory
                  (Deque.clear (ConversationContext.recent_memory c0)) c0) w)).
  set (w2 := snd (update_self self (ConversationContext.set_current_topics ∅) w1)).
  set (h := ConversationContext.topic_history (attrs w2 self)).
  set (m := ConversationContext.context_metadata (attrs w2 self)).
  set (w3 := snd (update_list h (fun _ => []) w2)).
  set (l := next_loc w3).
  set (w5 := snd (update_state l (fun _ => ConversationState.initial)
                    (with_next_loc (S l) w3))).
  set (w6 := snd (update_self self (ConversationContext.set_conversation_state l) w5)).
  set (w7 := snd (update_meta m (ContextMetadata.set_total_interactions 0) w6)).
  set (w8 := snd (update_meta m (ContextMetadata.set_last_activity None) w7)).
  assert (Heq : clear_context self w = (Return tt, w8)) by reflexivity.
  assert (Hl : l = next_loc w) by reflexivity.
  assert (V1 : attrs w1 self
               = ConversationContext.set_recent_memory
                   (Deque.clear (ConversationContext.recent_memory c)) c /\
               metas w1 = metas w)
    by (split; [exact (attrs_update_self self _ _)|reflexivity]).
  destruct V1 as [A1 M1]. clearbody w1.
  assert (V2 : attrs w2 self = ConversationContext.set_current_topics ∅ (attrs w1 self) /\
               metas w2 = metas w1)
    by (split; [exact (attrs_update_self self _ _)|reflexivity]).
  destruct V2 as [A2 M2]. rewrite A1 in A2. rewrite M1 in M2. clear A1 M1. clearbody w2.
  assert (V3 : attrs w3 self = attrs w2 self /\ metas w3 = metas w2 /\
               list_at w3 h = []).
  { repeat split. unfold list_at, w3. simpl. rewrite lookup_insert_eq. reflexivity. }
  destruct V3 as (A3 & M3 & L3). rewrite M2 in M3.
  assert (Hh : h = ConversationContext.topic_history c) by (unfold h; rewrite A2; reflexivity).
  assert (Hm : m = ConversationContext.context_metadata c)
    by (unfold m; rewrite A2; reflexivity).
  rewrite A2 in A3. clear A2 M2. clearbody h m. clearbody w3. clearbody l.
  assert (V5 : attrs w5 self = attrs w3 self /\ metas w5 = metas w3 /\
               list_at w5 h = list_at w3 h /\ state_at w5 l = ConversationState.initial).
  { repeat split. unfold state_at, w5. simpl. rewrite lookup_insert_eq. reflexivity. }
  destruct V5 as (A5 & M5 & L5 & S5). rewrite A3 in A5. rewrite M3 in M5. rewrite L3 in L5.
  clear A3 M3 L3. clearbody w5.
  assert (V6 : attrs w6 self = ConversationContext.set_conversation_state l (attrs w5 self) /\
               metas w6 = metas w5 /\ list_at w6 h = list_at w5 h /\
               state_at w6 l = state_at w5 l)
    by (split; [exact (attrs_update_self self _ _)|repeat split]).
  destruct V6 as (A6 & M6 & L6 & S6). rewrite A5 in A6. rewrite M5 in M6.
  rewrite L5 in L6. rewrite S5 in S6. clear A5 M5 L5 S5. clearbody w6.
  assert (V7 : attrs w7 self = attrs w6 self /\
               meta_at w7 m = ContextMetadata.set_total_interactions 0 (meta_at w6 m) /\
               list_at w7 h = list_at w6 h /\ state_at w7 l = state_at w6 l).
  { repeat split. unfold meta_at at 1, w7. simpl. rewrite lookup_insert_eq. reflexivity. }
  destruct V7 as (A7 & M7 & L7 & S7). rewrite A6 in A7. rewrite L6 in L7. rewrite S6 in S7.
  unfold meta_at at 2 in M7. rewrite M6 in M7. fold (meta_at w m) in M7.
  clear A6 M6 L6 S6. clearbody w7.
  assert (V8 : attrs w8 self = attrs w7 self /\
               meta_at w8 m = ContextMetadata.set_last_activity None (meta_at w7 m) /\
               list_at w8 h = list_at w7 h /\ state_at w8 l = state_at w7 l).
  { repeat split. unfold meta_at at 1, w8. simpl. rewrite lookup_insert_eq. reflexivity. }
  destruct V8 as (A8 & M8 & L8 & S8). rewrite A7 in A8. rewrite M7 in M8.
  rewrite L7 in L8. rewrite S7 in S8. clear A7 M7 L7 S7. clearbody w8.
  subst w'. rewrite Heq. cbn [fst snd]. subst h m l.
  repeat split; assumption.
Qed.


Lemma keeps_update_self_and {B C} (g : World F -> C) (pv : ConversationContext.t F -> B)
    (self : loc) f :
  (forall cs w, g (with_contexts cs w) = g w) ->
  (forall c, pv (f c) = pv c) ->
  keeps (fun w => (g w, pv (attrs w self))) (update_self self f).
Proof.
  intros Hg Hf w. rewrite attrs_update_self, Hf. unfold update_self, modify. simpl.
  rewrite Hg. reflexivity.
Qed.

Ltac keeps_and :=
  unfold new_state, new_list, update_list, update_meta, update_state;
  repeat first [ (apply keeps_update_self_and; intros; reflexivity) | keeps_step ].

Lemma snd_bind_unit {A} (c : M unit) (k : unit -> M A) (w : World F) :
  fst (c w) = Return tt -> snd (bind c k w) = snd (k tt (snd (c w))).
Proof. unfold bind. destruct (c w) as [[[]|e] w1]; simpl; [reflexivity|discriminate]. Qed.

(** The topics [_extract_topics] finds in a message. *)
Definition detected_topics (message : string) : gset string :=
  list_to_set
    (map fst (filter (fun tk => PyStr.any_in (snd tk) (PyStr.lower message)) topic_keywords)).

Lemma extract_topics_topics self message :
  acts (fun w => ConversationContext.current_topics (attrs w self))
       (_extract_topics env self message)
       (fun topics => topics ∪ detected_topics message).
Proof.
  unfold _extract_topics. cbv zeta. fold (detected_topics message).
  apply acts_try_except; [|intro; apply keeps_ret].
  apply acts_bind_keeps.
  - apply (acts_update_self ConversationContext.current_topics). reflexivity.
  - intros _. unfold new_list, update_list.
    repeat first [ (apply (keeps_update_self ConversationContext.current_topics);
                    reflexivity)
                 | keeps_step ].
Qed.

Lemma post_bind {A B} (P : World F -> Prop) (c : M A) (k : A -> M B) :
  returns c -> (forall a w, P (snd (k a w))) -> forall w, P (snd (bind c k w)).
Proof.
  intros Hr Hk w. unfold bind. destruct (Hr w) as [a Ha].
  destruct (c w) as [r w1]. simpl in Ha. subst r. apply Hk.
Qed.

Lemma slice_from_last_length {A} (n : nat) (l : list A) :
  0 < n -> length (slice_from (- Z.of_nat n) l) <= n.
Proof.
  intros Hn. unfold slice_from. rewrite length_drop.
  destruct (Z.ltb_spec (- Z.of_nat n) 0); lia.
Qed.

Lemma extract_topics_bound self message (w : World F) :
  let w' := snd (_extract_topics env self message w) in
  length (list_at w' (ConversationContext.topic_history (attrs w' self))) <= 50.
Proof.
  cbv zeta. unfold _extract_topics. rewrite try_pass_world. cbv zeta.
  set (P := fun w' : World F =>
              length (list_at w' (ConversationContext.topic_history (attrs w' self))) <= 50).
  change (P (snd ((update_self self
                     (fun c => ConversationContext.set_current_topics
                                 (ConversationContext.current_topics c
                                  ∪ detected_topics message) c) ;;;
                   ((if decide (detected_topics message = ∅) then ret tt
                     else
                       ts <- now env ;;
                       c <- get_self self ;;
                       update_list (ConversationContext.topic_history c) (fun h =>
                         h ++ [TopicRecord.mk ts (elements (detected_topics message))
                                 (PyStr.take 100 message)])) ;;;
                    (c <- get_self self ;;
                     h <- gets (fun w => list_at w (ConversationContext.topic_history c)) ;;
                     if 50 <? length h then
                       l <- new_list (slice_from (-50) h) ;;
                       update_self self (ConversationContext.set_topic_history l)
                     else ret tt))) w))).
  revert w. apply (post_bind P); [unfold update_self; repeat returns_step|intros _].
  apply (post_bind P).
  { unfold update_list, get_self. repeat returns_step. }
  subst P. cbv beta.
  intros _ w. unfold bind, get_self, gets. cbv beta iota.
  destruct (Nat.ltb_spec 50 (length (list_at w (ConversationContext.topic_history
                                                 (attrs w self))))) as [Hlt|Hle].
  - unfold new_list, bind, fresh, update_list, modify, ret. cbv beta iota.
    rewrite attrs_update_self. simpl ConversationContext.topic_history.
    unfold update_self, modify, list_at. simpl. rewrite lookup_insert_eq. simpl.
    apply (slice_from_last_length 50). lia.
  - exact Hle.
Qed.

Lemma extract_topics_keeps_metadata self message :
  keeps (fun w => (metas w, ConversationContext.context_metadata (attrs w self)))
        (_extract_topics env self message).
Proof. unfold _extract_topics. keeps_and. Qed.

Lemma update_conversation_state_keeps_metadata self um ar :
  keeps (fun w => (metas w, ConversationContext.context_metadata (attrs w self)))
        (_update_conversation_state env self um ar).
Proof. unfold _update_conversation_state. keeps_and. Qed.

Lemma update_conversation_state_keeps_topics self um ar :
  keeps (fun w => (lists w, attrs w self)) (_update_conversation_state env self um ar).
Proof.
  unfold _update_conversation_state, update_state, get_self.
  repeat keeps_step.
Qed.

(** [add_interaction], step by step: the world after the clock is read
    and the entry appended, after the two updates of the metadata,
    after the topics and after the conversation state. *)
Lemma add_interaction_steps self um ar ct md (w : World F) :
  let ts := datetime_now env (ticks w) in
  let c := attrs w self in
  let m := ConversationContext.context_metadata c in
  let w1 := snd (update_self self (fun c0 =>
                   ConversationContext.set_recent_memory
                     (Deque.append (ConversationContext.recent_memory c0)
                        (new_entry (ConversationContext.agent_name c) ts um ar ct md)) c0)
                   (with_ticks (S (ticks w)) w)) in
  let w2 := snd (update_meta m (fun m0 =>
                   ContextMetadata.set_total_interactions
                     (ContextMetadata.total_interactions m0 + 1)%Z m0) w1) in
  let w3 := snd (update_meta m (ContextMetadata.set_last_activity (Some ts)) w2) in
  let w4 := snd (_extract_topics env self um w3) in
  snd (add_interaction env self um ar ct md w)
  = snd (_update_conversation_state env self um ar w4).
Proof.
  cbv zeta. unfold add_interaction. rewrite try_pass_world.
  match goal with
  | |- _ = snd (_ (snd (_ ?w3))) =>
      change (snd (bind (_extract_topics env self um)
                     (fun _ => _update_conversation_state env self um ar) w3)
              = snd (_update_conversation_state env self um ar
                       (snd (_extract_topics env self um w3))))
  end.
  apply snd_bind_unit. unfold _extract_topics. apply try_unit_returns.
Qed.

(** X9. After [add_interaction], the metadata dict of the context (the
    same object) counts one interaction more and has the timestamp of
    the new entry, the clock reading at the call, as its last activity;
    its creation date is kept. *)
Theorem add_interaction_updates_metadata (self : loc)
    (user_message assistant_response context_type : string)
    (metadata : option (Dict (PyVal F))) (w : World F) :
  let c := attrs w self in
  let m := ConversationContext.context_metadata c in
  let w' := snd (add_interaction env self user_message assistant_response context_type
                   metadata w) in
  ConversationContext.context_metadata (attrs w' self) = m /\
  meta_at w' m
  = ContextMetadata.mk
      (ContextMetadata.created_at (meta_at w m))
      (ContextMetadata.agent_name (meta_at w m))
      (ContextMetadata.total_interactions (meta_at w m) + 1)%Z
      (Some (datetime_now env (ticks w))).
Proof.
  intros c m w'. subst w'. rewrite add_interaction_steps. cbv zeta.
  fold c. fold m.
  set (ts := datetime_now env (ticks w)).
  set (w1 := snd (update_self self _ (with_ticks (S (ticks w)) w))).
  set (w2 := snd (update_meta m _ w1)).
  set (w3 := snd (update_meta m _ w2)).
  assert (V1 : ConversationContext.context_metadata (attrs w1 self) = m /\
               metas w1 = metas w).
  { split; [|reflexivity]. unfold w1. rewrite attrs_update_self. reflexivity. }
  destruct V1 as [A1 M1]. clearbody w1.
  assert (V2 : ConversationContext.context_metadata (attrs w2 self) = m /\
               meta_at w2 m
               = ContextMetadata.set_total_interactions
                   (ContextMetadata.total_interactions (meta_at w1 m) + 1)%Z
                   (meta_at w1 m)).
  { split; [exact A1|]. unfold meta_at at 1, w2. simpl. rewrite lookup_insert_eq.
    reflexivity. }
  destruct V2 as [A2 M2]. unfold meta_at at 2 3 in M2. rewrite M1 in M2.
  fold (meta_at w m) in M2. clear A1 M1. clearbody w2.
  assert (V3 : ConversationContext.context_metadata (attrs w3 self) = m /\
               meta_at w3 m
               = ContextMetadata.set_last_activity (Some ts) (meta_at w2 m)).
  { split; [exact A2|]. unfold meta_at at 1, w3. simpl. rewrite lookup_insert_eq.
    reflexivity. }
  destruct V3 as [A3 M3]. rewrite M2 in M3. clear A2 M2. clearbody w3.
  pose proof (extract_topics_keeps_metadata self user_message w3) as K4.
  cbv beta in K4.
  set (w4 := snd (_extract_topics env self user_message w3)) in *. clearbody w4.
  pose proof (update_conversation_state_keeps_metadata self user_message assistant_response
                w4) as K5.
  cbv beta in K5.
  set (w5 := snd (_update_conversation_state env self user_message assistant_response w4))
    in *. clearbody w5.
  injection K5 as K5m K5a. injection K4 as K4m K4a.
  split.
  - rewrite K5a, K4a. exact A3.
  - unfold meta_at at 1. rewrite K5m, K4m. fold (meta_at w3 m). rewrite M3. reflexivity.
Qed.

(** X10. [add_interaction] only adds topics: the current topics after
    the call are those before together with every topic one of whose
    keywords occurs in the lowered user message; and the topic history
    the context then refers to has at most 50 records. *)
Theorem add_interaction_tracks_topics (self : loc)
    (user_message assistant_response context_type : string)
    (metadata : option (Dict (PyVal F))) (w : World F) :
  let w' := snd (add_interaction env self user_message assistant_response context_type
                   metadata w) in
  ConversationContext.current_topics (attrs w' self)
  = ConversationContext.current_topics (attrs w self) ∪ detected_topics user_message /\
  (forall topic keywords,
     (topic, keywords) ∈ topic_keywords ->
     PyStr.any_in keywords (PyStr.lower user_message) = true ->
     topic ∈ ConversationContext.current_topics (attrs w' self)) /\
  length (list_at w' (ConversationContext.topic_history (attrs w' self))) <= 50.
Proof.
  intros w'. subst w'. rewrite add_interaction_steps. cbv zeta.
  set (w1 := snd (update_self self _ (with_ticks (S (ticks w)) w))).
  set (w2 := snd (update_meta _ _ w1)).
  set (w3 := snd (update_meta _ _ w2)).
  assert (V3 : ConversationContext.current_topics (attrs w3 self)
               = ConversationContext.current_topics (attrs w self)).
  { change (attrs w3 self) with (attrs w1 self). unfold w1.
    rewrite attrs_update_self. reflexivity. }
  clearbody w3. clear w1 w2.
  pose proof (extract_topics_topics self user_message w3) as T4.
  pose proof (extract_topics_bound self user_message w3) as B4.
  cbv beta zeta in T4, B4.
  set (w4 := snd (_extract_topics env self user_message w3)) in *. clearbody w4.
  pose proof (update_conversation_state_keeps_topics self user_message assistant_response
                w4) as K5.
  cbv beta in K5.
  set (w5 := snd (_update_conversation_state env self user_message assistant_response w4))
    in *. clearbody w5.
  injection K5 as K5l K5a.
  assert (Htopics : ConversationContext.current_topics (attrs w5 self)
                    = ConversationContext.current_topics (attrs w self)
                      ∪ detected_topics user_message)
    by (rewrite K5a, T4, V3; reflexivity).
  split; [exact Htopics|]. split.
  - intros topic keywords Hin Hany. rewrite Htopics. apply elem_of_union. right.
    unfold detected_topics. apply elem_of_list_to_set. apply list_elem_of_fmap.
    exists (topic, keywords). split; [reflexivity|].
    apply list_elem_of_filter. split; [|exact Hin]. simpl. rewrite Hany. exact I.
  - unfold list_at. rewrite K5l, K5a. exact B4.
Qed.

(** *** Importing *)

Lemma import_entries_keeps_heap self (ds : list (Dict (PyVal F))) :
  keeps (fun w : World F => (lists w, states w, metas w, next_loc w))
        (import_entries self ds).
Proof. unfold import_entries, update_self. repeat keeps_step. Qed.

(** The loop stops at the first entry that cannot be built. *)
Lemma import_entries_stops self (good : list (ContextEntry.t F)) bad rest e (w : World F) :
  ContextEntry.from_kwargs bad = Raise e ->
  import_entries self (map ContextEntry.asdict good ++ bad :: rest) w
  = (Raise e, snd (import_entries self (map ContextEntry.asdict good) w)).
Proof.
  intros Hbad. revert w. induction good as [|g good IH]; intros w.
  - simpl. unfold import_entries. simpl for_each. unfold bind at 1, bind at 1, lift at 1.
    rewrite Hbad. reflexivity.
  - simpl map. simpl app. rewrite !import_entries_cons. apply IH.
Qed.

(** A dict that [ContextEntry] refuses: an unexpected key, or one of the
    four required fields missing. *)
Definition malformed (d : Dict (PyVal F)) : Prop :=
  (exists key, key ∈ PyDict.keys d /\ key ∉ ContextEntry.field_names) \/
  (exists key, key ∈ ["timestamp"; "user_message"; "assistant_response"; "agent_name"] /\
               PyDict.get key d = None).

Lemma malformed_raises (d : Dict (PyVal F)) :
  malformed d -> exists e, ContextEntry.from_kwargs d = Raise e.
Proof.
  intros Hbad. unfold ContextEntry.from_kwargs. cbv zeta.
  destruct (forallb _ (PyDict.keys d)) eqn:Hkeys; simpl; [|eexists; reflexivity].
  destruct Hbad as [(key & Hin & Hnot)|(key & Hin & Hnone)].
  - exfalso. apply Hnot. rewrite forallb_forall in Hkeys.
    apply list_elem_of_In in Hin. specialize (Hkeys _ Hin).
    apply existsb_exists in Hkeys as (k & Hk & Heq). apply String.eqb_eq in Heq.
    subst k. apply list_elem_of_In. exact Hk.
  - unfold ContextEntry.get_str. rewrite !elem_of_cons in Hin.
    destruct Hin as [->|[->|[->|[->|Hn]]]]; [| | | |inversion Hn]; rewrite Hnone;
      repeat match goal with
             | |- context [match PyDict.get ?k d with _ => _ end] =>
                 destruct (PyDict.get k d) as [[]|]
             end; eexists; reflexivity.
Qed.

Lemma swap_metadata_effect self (payload : ExportedContext.t F) (w : World F) :
  let step := match ExportedContext.context_metadata payload with
              | Some m => update_self self (ConversationContext.set_context_metadata m)
              | None => ret tt
              end in
  let c := attrs w self in
  fst (step w) = Return tt /\
  attrs (snd (step w)) self
  = ConversationContext.set_context_metadata
      (default (ConversationContext.context_metadata c)
               (ExportedContext.context_metadata payload)) c /\
  (lists (snd (step w)), states (snd (step w)), metas (snd (step w)),
   next_loc (snd (step w)))
  = (lists w, states w, metas w, next_loc w).
Proof.
  cbv zeta. destruct (ExportedContext.context_metadata payload) as [m|]; simpl.
  - split; [reflexivity|]. split; [exact (attrs_update_self self _ _)|reflexivity].
  - split; [reflexivity|]. split; [|reflexivity]. destruct (attrs w self); reflexivity.
Qed.

(** X11. An import stops at the first entry of the payload that
    [ContextEntry] refuses, and the failure is swallowed: the call
    returns; the context has been cleared, the metadata object of the
    payload (if any) is already installed, the entries before the bad
    one are in memory, and nothing else of the payload is imported: the
    topics stay empty, the topic history is the context's own emptied
    list and the conversation state is the initial one. *)
Theorem import_stops_at_malformed_entry (self : loc) (payload : ExportedContext.t F)
    (good : list (ContextEntry.t F)) (bad : Dict (PyVal F)) (rest : list (Dict (PyVal F)))
    (w : World F) :
  ExportedContext.recent_memory payload
  = Some (map ContextEntry.asdict good ++ bad :: rest) ->
  malformed bad ->
  let c := attrs w self in
  let w' := snd (import_context self payload w) in
  let c' := attrs w' self in
  fst (import_context self payload w) = Return tt /\
  ConversationContext.recent_memory c'
  = fold_left Deque.append good (Deque.clear (ConversationContext.recent_memory c)) /\
  ConversationContext.context_metadata c'
  = default (ConversationContext.context_metadata c)
            (ExportedContext.context_metadata payload) /\
  ConversationContext.current_topics c' = ∅ /\
  ConversationContext.topic_history c' = ConversationContext.topic_history c /\
  list_at w' (ConversationContext.topic_history c') = [] /\
  state_at w' (ConversationContext.conversation_state c') = ConversationState.initial.
Proof.
  intros Hmem Hbad c w' c'.
  destruct (malformed_raises bad Hbad) as [e He].
  split; [apply try_unit_returns|].
  destruct (clear_context_effect self w) as (Hr1 & A1 & L1 & _ & S1). fold c in A1, L1.
  set (w1 := snd (clear_context self w)) in *.
  destruct (swap_metadata_effect self payload w1) as (Hr2 & A2 & K2). cbv zeta in Hr2, A2, K2.
  set (step2 := match ExportedContext.context_metadata payload with
                | Some m => update_self self (ConversationContext.set_context_metadata m)
                | None => ret tt
                end) in *.
  set (w2 := snd (step2 w1)) in *.
  destruct (import_entries_effect self good w2) as [_ A3].
  pose proof (import_entries_keeps_heap self (map ContextEntry.asdict good) w2) as K3.
  cbv beta in K3.
  set (w3 := snd (import_entries self (map ContextEntry.asdict good) w2)) in *.
  assert (Heq : w' = w3).
  { subst w'. rewrite import_context_unfold, Hmem. simpl default. rewrite try_pass_world.
    rewrite snd_bind_unit by exact Hr1. fold w1. fold step2.
    rewrite snd_bind_unit by exact Hr2. fold w2.
    unfold bind at 1. rewrite (import_entries_stops self good bad rest e w2 He).
    reflexivity. }
  subst c'. rewrite Heq. clearbody w3. clear Heq w'.
  injection K3 as K3l K3s _ _. injection K2 as K2l K2s _ _.
  rewrite A3, A2, A1. simpl.
  repeat split.
  - unfold list_at. rewrite K3l, K2l. exact L1.
  - unfold state_at. rewrite K3s, K2s. exact S1.
Qed.

(** X12. Importing a payload whose entries are well formed, whatever
    keys it has: the memory holds the payload's entries appended to the
    emptied deque (an absent list counts as empty), the topics are the
    payload's (none when absent); an absent metadata leaves the
    context's own metadata object in place, an absent topic history is
    replaced by an empty list, and an absent conversation state leaves
    the initial state that clearing created.  The agent name and the
    capacity are the context's. *)
Theorem import_context_defaults (self : loc) (payload : ExportedContext.t F)
    (es : list (ContextEntry.t F)) (w : World F) :
  default [] (ExportedContext.recent_memory payload) = map ContextEntry.asdict es ->
  let c := attrs w self in
  let w' := snd (import_context self payload w) in
  let c' := attrs w' self in
  fst (import_context self payload w) = Return tt /\
  ConversationContext.agent_name c' = ConversationContext.agent_name c /\
  ConversationContext.max_memory_size c' = ConversationContext.max_memory_size c /\
  ConversationContext.recent_memory c'
  = fold_left Deque.append es (Deque.clear (ConversationContext.recent_memory c)) /\
  ConversationContext.current_topics c'
  = list_to_set (default [] (ExportedContext.current_topics payload)) /\
  ConversationContext.context_metadata c'
  = default (ConversationContext.context_metadata c)
            (ExportedContext.context_metadata payload) /\
  match ExportedContext.topic_history payload with
  | Some h => ConversationContext.topic_history c' = h
  | None => list_at w' (ConversationContext.topic_history c') = []
  end /\
  match ExportedContext.conversation_state payload with
  | Some s => ConversationContext.conversation_state c' = s
  | None => state_at w' (ConversationContext.conversation_state c')
            = ConversationState.initial
  end.
Proof.
  intros Hmem c w' c'.
  split; [apply try_unit_returns|].
  destruct (clear_context_effect self w) as (Hr1 & A1 & _ & _ & S1). fold c in A1.
  set (w1 := snd (clear_context self w)) in *.
  destruct (swap_metadata_effect self payload w1) as (Hr2 & A2 & K2). cbv zeta in Hr2, A2, K2.
  set (step2 := match ExportedContext.context_metadata payload with
                | Some m => update_self self (ConversationContext.set_context_metadata m)
                | None => ret tt
                end) in *.
  set (w2 := snd (step2 w1)) in *.
  destruct (import_entries_effect self es w2) as [Hr3 A3].
  pose proof (import_entries_keeps_heap self (map ContextEntry.asdict es) w2) as K3.
  cbv beta in K3.
  set (w3 := snd (import_entries self (map ContextEntry.asdict es) w2)) in *.
  set (topics := list_to_set (default [] (ExportedContext.current_topics payload))
                 : gset string).
  set (w4 := snd (update_self self (ConversationContext.set_current_topics topics) w3)).
  set (step5 := match ExportedContext.topic_history payload with
                | Some h => update_self self (ConversationContext.set_topic_history h)
                | None => h <- new_list [] ;;
                          update_self self (ConversationContext.set_topic_history h)
                end : M (F:=F) unit).
  set (w5 := snd (step5 w4)).
  set (step6 := match ExportedContext.conversation_state payload with
                | Some s => update_self self (ConversationContext.set_conversation_state s)
                | None => ret tt
                end : M (F:=F) unit).
  set (w6 := snd (step6 w5)).
  assert (Heq : w' = w6).
  { subst w'. rewrite import_context_unfold, Hmem. rewrite try_pass_world.
    rewrite snd_bind_unit by exact Hr1. fold w1. fold step2.
    rewrite snd_bind_unit by exact Hr2. fold w2.
    rewrite snd_bind_unit by exact Hr3. fold w3.
    rewrite snd_bind_unit by reflexivity. fold topics. fold w4. fold step5.
    assert (Hr5 : fst (step5 w4) = Return tt)
      by (unfold step5; destruct (ExportedContext.topic_history payload); reflexivity).
    rewrite snd_bind_unit by exact Hr5. reflexivity. }
  subst c'. rewrite Heq. clear Heq w'.
  injection K3 as _ K3s _ _. injection K2 as _ K2s _ _.
  assert (A4 : attrs w4 self = ConversationContext.set_current_topics topics (attrs w3 self) /\
               states w4 = states w3)
    by (split; [exact (attrs_update_self self _ _)|reflexivity]).
  destruct A4 as [A4 S4]. rewrite A3, A2, A1 in A4. simpl in A4.
  rewrite K3s, K2s in S4. clearbody w4. clearbody w3. clearbody w2.
  assert (A5 : exists h,
            attrs w5 self = ConversationContext.set_topic_history h (attrs w4 self) /\
            states w5 = states w4 /\
            match ExportedContext.topic_history payload with
            | Some h' => h = h'
            | None => list_at w5 h = []
            end).
  { unfold w5, step5. destruct (ExportedContext.topic_history payload) as [h|].
    - exists h. split; [exact (attrs_update_self self _ _)|]. split; reflexivity.
    - exists (next_loc w4). split; [exact (attrs_update_self self _ _)|].
      split; [reflexivity|]. unfold list_at. simpl. rewrite lookup_insert_eq. reflexivity. }
  destruct A5 as (h & A5 & S5 & H5). rewrite A4 in A5. simpl in A5. rewrite S4 in S5.
  clearbody w5. clear A4 S4.
  assert (A6 : attrs w6 self
               = match ExportedContext.conversation_state payload with
                 | Some s => ConversationContext.set_conversation_state s (attrs w5 self)
                 | None => attrs w5 self
                 end /\
               states w6 = states w5 /\ lists w6 = lists w5).
  { unfold w6, step6. destruct (ExportedContext.conversation_state payload) as [s|].
    - split; [exact (attrs_update_self self _ _)|]. split; reflexivity.
    - repeat split. }
  destruct A6 as (A6 & S6 & L6). rewrite A5 in A6. rewrite S5 in S6. clearbody w6.
  destruct (ExportedContext.conversation_state payload) as [s|];
    destruct (ExportedContext.topic_history payload) as [h'|];
    rewrite A6; simpl; repeat split; try (symmetry; assumption); try assumption.
  all: try (unfold list_at; rewrite L6; exact H5).
  all: try (unfold state_at; rewrite S6; exact S1).
Qed.
End MemoryEffects.

(** ** The store: the two copies of a session, reading, clearing *)

Section StorageProperties.
Context {F : Type} `{PyFloat F} (env : Env F).

(** The capacity of a session file. *)
Definition file_capacity : nat :=
  Z.to_nat (Settings.max_conversation_history (settings env)).

Lemma truncate_last_n {A} (l : list A) :
  (1 <= Settings.max_conversation_history (settings env))%Z ->
  (if (Settings.max_conversation_history (settings env) <? Z.of_nat (length l))%Z
   then slice_from (- Settings.max_conversation_history (settings env)) l
   else l) = last_n file_capacity l.
Proof.
  intros Hmax. unfold last_n, file_capacity, slice_from.
  destruct (Z.ltb_spec (Settings.max_conversation_history (settings env))
              (Z.of_nat (length l))) as [Hlt|Hge].
  - destruct (Z.ltb_spec (- Settings.max_conversation_history (settings env)) 0); [|lia].
    f_equal. lia.
  - replace (length l - Z.to_nat (Settings.max_conversation_history (settings env)))
      with 0 by lia.
    reflexivity.
Qed.

(** The entries [_store_in_session_file] loads from a session file. *)
Definition loaded (file : option (SessionFile.t F)) : list (ConversationEntry.t F) :=
  match file with
  | Some (SessionFile.Json l) => l
  | _ => []
  end.

Lemma store_conversation_faultless (d : EntryDict.t F) (w : World F) :
  (1 <= Settings.max_conversation_history (settings env))%Z ->
  let s := store w in
  let sid := EntryDict.session_id d in
  store (snd (MemoryStorage.store_conversation env IOFaults.none d w))
  = Store.mk
      (Store.conversations s ++ [entry_of d])
      (<[sid := upserted (Store.session_metadata s) sid (datetime_now env (ticks w))]>
         (Store.session_metadata s))
      (<[sid := SessionFile.Json
                  (last_n file_capacity (loaded (Store.sessions s !! sid) ++ [entry_of d]))]>
         (Store.sessions s)).
Proof.
  intros Hmax s sid. rewrite <- truncate_last_n by exact Hmax.
  unfold MemoryStorage.store_conversation. rewrite try_pass_world.
  fold (entry_of d). cbv zeta.
  unfold MemoryStorage._store_in_database, MemoryStorage._store_in_session_file,
    MemoryStorage._update_session_metadata, MemoryStorage.put_metadata,
    MemoryStorage.write_file, MemoryStorage.update_store, upserted, loaded.
  unfold try_except, bind, gets, modify, now, ret. simpl.
  subst s sid.
  destruct (Store.sessions (store w) !! EntryDict.session_id d) as [[|l]|];
    destruct (Store.session_metadata (store w) !! EntryDict.session_id d);
    reflexivity.
Qed.
End StorageProperties.

(** ** Further concrete runs *)

(** A registry whose four agents answer. *)
Definition team : Router.t Q :=
  Router.__init__ (answering "research") (answering "code") (answering "creative")
                  (answering "task").

Definition coordinator1 : Coordinator.t Q := Coordinator.mk team "session-2" 3.

Lemma synthesis_merges_tools_and_metadata_witness :
  exists response,
    fst (Coordinator._synthesize_collaboration_results env0 article creative_result
           (Some (answering "creative")) fresh_world) = Return response /\
    AgentResponse.agent_name response = "creative" /\
    NoDup (AgentResponse.tools_used response) /\
    PyDict.get "agents_involved" (AgentResponse.metadata response)
    = Some (VList [VStr "creative"]).
Proof.
  destruct (synthesis_merges_tools_and_metadata env0 article creative_result
              (Some (answering "creative")) fresh_world _ eq_refl)
    as (response & Heq & _ & Hname & _ & _ & Hnodup & _ & _ & Hinvolved & _).
  exists response. rewrite Heq. repeat split; assumption.
Defined.

Lemma team_always_answers :
  Forall always_answers
    [answering "research"; answering "code"; answering "creative"; answering "task"].
Proof. repeat constructor; intros history message context; eexists; reflexivity. Qed.

Lemma collaboration_invokes_plan_in_order_witness :
  exists response w',
    Coordinator._handle_collaboration env0 coordinator1 article to_creative None fresh_world
    = (Return response, w') /\
    length (trace w') = 3 /\
    PyDict.get "agents_involved" (AgentResponse.metadata response)
    = Some (VList [VStr "research"; VStr "creative"]).
Proof.
  destruct (collaboration_invokes_plan_in_order env0
              (answering "research") (answering "code") (answering "creative")
              (answering "task") "session-2" 3 article to_creative None fresh_world
              ltac:(unfold agent_types; rewrite !elem_of_cons; auto)
              team_always_answers)
    as (primary & results & calls & response & answer & _ & Heq & Hcalls & _ & _ & _ & Hmeta).
  exists response. eexists. split; [exact Heq|]. split; [|exact Hmeta].
  apply Forall2_length in Hcalls. simpl. rewrite length_app. simpl.
  rewrite <- Hcalls. reflexivity.
Defined.

Lemma failed_request_is_not_recorded_witness :
  exists w',
    Coordinator.process_message env0 IOFaults.none coordinator0 "hello" (Some "research")
      None fresh_world
    = (Return (Coordinator.error_response coordinator0 "2024-05-01T10:00:00"
                 (Exc "Exception" "Error calling LLM: timeout")), w') /\
    store w' = Store.empty.
Proof.
  destruct (failed_request_is_not_recorded env0 IOFaults.none coordinator0 "hello"
              (Some "research") None fresh_world
              (Exc "Exception" "Error calling LLM: timeout") eq_refl)
    as (w' & Heq & _ & Hstore & _).
  exists w'. split; [exact Heq|exact Hstore].
Defined.

Lemma served_request_is_stored_and_remembered_witness :
  map ConversationEntry.agent_response
    (Store.conversations
       (store (snd (Coordinator.process_message env0 IOFaults.none coordinator1 "hello"
                      (Some "code") None fresh_world))))
  = ["answer to: hello"].
Proof.
  destruct (served_request_is_stored_and_remembered env0 IOFaults.none coordinator1 "hello"
              (Some "code") None fresh_world _ _ eq_refl) as [Hstore _].
  rewrite Hstore. reflexivity.
Defined.

Lemma hand_off_uses_the_named_agent_witness :
  exists response w',
    AgentCoordinator.hand_off_to_agent env0 IOFaults.none coordinator1 "code" "hello" None
      fresh_world = (Return response, w') /\
    CoordinatorResponse.agent_used response = "code" /\
    trace w' = [Call.mk "code" "hello" None].
Proof.
  destruct (proj2 (hand_off_uses_the_named_agent env0 IOFaults.none coordinator1 "code"
                     "hello" None fresh_world)
              (answering "code") _ eq_refl eq_refl eq_refl eq_refl)
    as (response & w' & Heq & _ & Hused & _ & _ & Htrace).
  exists response, w'. repeat split; assumption.
Defined.

(** A payload whose second entry has a key that [ContextEntry] does not
    know. *)
Definition broken_payload : ExportedContext.t Q :=
  ExportedContext.mk (Some "research") None
    (Some (map ContextEntry.asdict [entry_of_talk "A"]
           ++ [("timestamp", VStr "2024-05-01T10:00:00"); ("speaker", VStr "user")]
           :: [ContextEntry.asdict (entry_of_talk "C")]))
    (Some ["planning"]) None None None.

Lemma broken_payload_malformed :
  malformed [("timestamp", VStr "2024-05-01T10:00:00"); ("speaker", VStr "user")
             : string * PyVal Q].
Proof.
  left. exists "speaker". split.
  - simpl. rewrite !elem_of_cons. auto.
  - unfold ContextEntry.field_names. rewrite !elem_of_cons.
    intros [Hn|[Hn|[Hn|[Hn|[Hn|[Hn|Hn]]]]]]; try discriminate. inversion Hn.
Qed.

Lemma import_stops_at_malformed_entry_witness :
  let w' := snd (MemoryContext.import_context 3 broken_payload after_three) in
  Deque.items (ConversationContext.recent_memory (MemoryContext.attrs w' 3))
  = [entry_of_talk "A"] /\
  ConversationContext.current_topics (MemoryContext.attrs w' 3) = ∅.
Proof.
  destruct (import_stops_at_malformed_entry 3 broken_payload [entry_of_talk "A"]
              _ _ after_three eq_refl broken_payload_malformed)
    as (_ & Hmem & _ & Htopics & _).
  split; [rewrite Hmem; reflexivity|exact Htopics].
Defined.

Lemma import_context_defaults_witness :
  let w' := snd (MemoryContext.import_context 3 three_entries after_three) in
  ConversationContext.current_topics (MemoryContext.attrs w' 3) = ∅ /\
  MemoryContext.state_at w' (ConversationContext.conversation_state (MemoryContext.attrs w' 3))
  = ConversationState.initial.
Proof.
  destruct (import_context_defaults 3 three_entries
              [entry_of_talk "A"; entry_of_talk "B"; entry_of_talk "C"] after_three eq_refl)
    as (_ & _ & _ & _ & Htopics & _ & _ & Hstate).
  split; [exact Htopics|exact Hstate].
Defined.
